(** * Archon: MCP tool dispatch, crawler manager and learning formatter

    A shallow embedding of five Python modules under [src/python/src]:

    - [mcp/mcp_server.py]: the JSON-RPC endpoint (module [Mcp]), the
      health checks and the startup (module [Lifespan])
    - [server/services/crawler_manager.py]: the manager (module
      [Crawler]) and the fallback crawler (module [Fallback])
    - [server/services/metacognition/learning_formatter.py] (module [Formatter])
    - [server/services/metacognition/knowledge_storage.py]  (module [Storage])
    - [server/services/metacognition/session_analyzer.py]   (module [Analyzer])

    with the Python values, text and clock they share (modules [Py],
    [Text], [Clock]), followed by the properties proved of them (modules
    [McpSpec], [CrawlerSpec], [FormatterSpec], [StorageSpec], and
    [McpTotal], [CrawlerMore], [FormatterMore], [TextFacts],
    [StorageMore], [LifespanMore], [AnalyzerMore], [FallbackMore]).
    [mcp/modules/learning_capture_module.py] is not embedded: its line
    142 is not Python (a double-starred [or] expression in a dictionary
    display), so the module cannot be imported.

    JSON values are an inductive type, dictionaries are association
    lists in insertion order or records of optional keys, exceptions are
    explicit results, and the state a function touches (the handler call
    log, the singleton and its attributes, the file system, the clock) is
    passed in and out.  Calls into the interpreter or into libraries whose
    result the code only passes on ([json.loads], [repr], [strptime], the
    crawler libraries) are variables of a section or fields of an
    environment record. *)

From Stdlib Require Import String Ascii List ZArith Lia Bool Arith.
From Stdlib Require Import DecimalString Sorted.
Import ListNotations.
Open Scope string_scope.
Set Warnings "-abstract-large-number".

(** ** Python values *)

Module Py.

(** A [float] that JSON can carry: a signed zero or a finite binary
    number [(-1)^negative * mantissa * 2^exponent]. *)
Inductive float : Type :=
| FZero (negative : bool)
| FFinite (negative : bool) (mantissa : positive) (exponent : Z).

(** The values a JSON document decodes to.  A tool handler's return value
    is taken from the same type: data that [JSONResponse] can render. *)
#[warnings="-register-all"]
Inductive value : Type :=
| PNone
| PBool (b : bool)
| PInt (z : Z)
| PFloat (f : float)
| PStr (s : string)
| PList (l : list value)
| PDict (d : list (string * value)).

Definition dict := list (string * value).

(** [bool(v)] *)
Definition truthy (v : value) : bool :=
  match v with
  | PNone => false
  | PBool b => b
  | PInt z => negb (z =? 0)%Z
  | PFloat (FZero _) => false
  | PFloat (FFinite _ _ _) => true
  | PStr s => negb (s =? "")
  | PList l => match l with [] => false | _ => true end
  | PDict d => match d with [] => false | _ => true end
  end.

(** [type(v).__name__] *)
Definition type_name (v : value) : string :=
  match v with
  | PNone => "NoneType"
  | PBool _ => "bool"
  | PInt _ => "int"
  | PFloat _ => "float"
  | PStr _ => "str"
  | PList _ => "list"
  | PDict _ => "dict"
  end.

(** [k in d] and [d[k]] for a string key. *)
Fixpoint lookup {A : Type} (k : string) (d : list (string * A)) : option A :=
  match d with
  | [] => None
  | (k', v) :: rest => if k =? k' then Some v else lookup k rest
  end.

(** [d.get(k, default)] *)
Definition get_default (d : dict) (k : string) (default : value) : value :=
  match lookup k d with
  | Some v => v
  | None => default
  end.

(** [d.get(k)] *)
Definition get (d : dict) (k : string) : value := get_default d k PNone.

(** [list(d.keys())] *)
Definition keys {A : Type} (d : list (string * A)) : list string := map fst d.

(** [v == s] for a string literal [s]. *)
Definition eq_str (v : value) (s : string) : bool :=
  match v with
  | PStr s' => s' =? s
  | _ => false
  end.

(** [isinstance(v, dict)] *)
Definition is_dict (v : value) : bool :=
  match v with
  | PDict _ => true
  | _ => false
  end.

(** [isinstance(v, str)] *)
Definition is_str (v : value) : bool :=
  match v with
  | PStr _ => true
  | _ => false
  end.

(** [str(z)] for an integer. *)
Definition str_of_Z (z : Z) : string := NilZero.string_of_int (Z.to_int z).

End Py.

Import Py.

(** ** Python text

    Text is a Rocq [string]; [len] is [String.length].  Case mapping and
    the character classes of [str.split], [str.strip] and [re] are those
    of ASCII. *)

Module Text.

Definition code (c : ascii) : nat := nat_of_ascii c.

Definition is_upper (c : ascii) : bool := (65 <=? code c)%nat && (code c <=? 90)%nat.
Definition is_lower (c : ascii) : bool := (97 <=? code c)%nat && (code c <=? 122)%nat.
Definition is_alpha (c : ascii) : bool := is_upper c || is_lower c.
Definition is_digit (c : ascii) : bool := (48 <=? code c)%nat && (code c <=? 57)%nat.

(** [\s], and the separators of [str.split()] and [str.strip()]. *)
Definition is_space (c : ascii) : bool :=
  ((9 <=? code c)%nat && (code c <=? 13)%nat) || ((28 <=? code c)%nat && (code c <=? 32)%nat).

(** [\w] *)
Definition is_word (c : ascii) : bool := is_alpha c || is_digit c || (code c =? 95)%nat.

Definition lower_char (c : ascii) : ascii :=
  if is_upper c then ascii_of_nat (code c + 32) else c.

Definition upper_char (c : ascii) : ascii :=
  if is_lower c then ascii_of_nat (code c - 32) else c.

Fixpoint map_chars (f : ascii -> ascii) (s : string) : string :=
  match s with
  | EmptyString => EmptyString
  | String c rest => String (f c) (map_chars f rest)
  end.

Fixpoint filter_chars (keep : ascii -> bool) (s : string) : string :=
  match s with
  | EmptyString => EmptyString
  | String c rest =>
      if keep c then String c (filter_chars keep rest) else filter_chars keep rest
  end.

(** [s.lower()] *)
Definition lower (s : string) : string := map_chars lower_char s.

(** [s.capitalize()] *)
Definition capitalize (s : string) : string :=
  match s with
  | EmptyString => EmptyString
  | String c rest => String (upper_char c) (lower rest)
  end.

(** [s.title()]: a letter is upper-cased after a character that is not a
    letter and lower-cased after a letter. *)
Fixpoint title_from (after_letter : bool) (s : string) : string :=
  match s with
  | EmptyString => EmptyString
  | String c rest =>
      String (if after_letter then lower_char c else upper_char c)
             (title_from (is_alpha c) rest)
  end.

Definition title (s : string) : string := title_from false s.

(** [s.startswith(p)] *)
Definition startswith (s p : string) : bool := String.prefix p s.

(** [needle in haystack] *)
Fixpoint contains (needle haystack : string) : bool :=
  String.prefix needle haystack
  || match haystack with
     | EmptyString => false
     | String _ rest => contains needle rest
     end.

(** [any(w in s for w in words)] *)
Definition contains_any (words : list string) (s : string) : bool :=
  existsb (fun w => contains w s) words.

(** [s[:n]] *)
Definition take (n : nat) (s : string) : string := substring 0 n s.

(** [s[n:]] *)
Fixpoint drop (n : nat) (s : string) : string :=
  match n, s with
  | O, _ => s
  | S k, EmptyString => EmptyString
  | S k, String _ rest => drop k rest
  end.

Fixpoint drop_while (p : ascii -> bool) (s : string) : string :=
  match s with
  | EmptyString => EmptyString
  | String c rest => if p c then drop_while p rest else s
  end.

(** [sep.join(parts)] *)
Definition join (sep : string) (parts : list string) : string := String.concat sep parts.

(** [s.split()]: the maximal runs of characters that are not whitespace. *)
Fixpoint split_from (word : string) (s : string) : list string :=
  match s with
  | EmptyString => if word =? "" then [] else [word]
  | String c rest =>
      if is_space c then
        if word =? "" then split_from "" rest else word :: split_from "" rest
      else split_from (word ++ String c "") rest
  end.

Definition split (s : string) : list string := split_from "" s.

(** [s.lstrip()], [s.rstrip()] and [s.strip()] *)
Fixpoint lstrip (s : string) : string :=
  match s with
  | EmptyString => EmptyString
  | String c rest => if is_space c then lstrip rest else s
  end.

Fixpoint rstrip (s : string) : string :=
  match s with
  | EmptyString => EmptyString
  | String c rest =>
      match rstrip rest with
      | EmptyString => if is_space c then EmptyString else String c EmptyString
      | kept => String c kept
      end
  end.

Definition strip (s : string) : string := rstrip (lstrip s).

(** [s.split('-')[-1]]: what follows the last hyphen. *)
Fixpoint after_last_hyphen_from (segment : string) (s : string) : string :=
  match s with
  | EmptyString => segment
  | String c rest =>
      if (code c =? 45)%nat then after_last_hyphen_from "" rest
      else after_last_hyphen_from (segment ++ String c "") rest
  end.

Definition after_last_hyphen (s : string) : string := after_last_hyphen_from "" s.

(** The line feed. *)
Definition nl : string := String (ascii_of_nat 10) "".

(** [f"{n:0{width}d}"] for a natural number. *)
Fixpoint zeros (n : nat) : string :=
  match n with
  | O => ""
  | S k => "0" ++ zeros k
  end.

Definition str_of_nat (n : nat) : string := NilZero.string_of_uint (Nat.to_uint n).

Definition zero_pad (width n : nat) : string :=
  let digits := str_of_nat n in
  zeros (width - String.length digits) ++ digits.

(** [bool(s)] *)
Definition nonempty (s : string) : bool := negb (s =? "").

(** [s.split(sep)] for a separator that is not empty: the pieces between
    the occurrences of [sep], found from the left without overlap.
    [skip] counts the characters of a found separator still to pass. *)
Fixpoint split_sep_from (sep : string) (skip : nat) (piece : string) (s : string)
    : list string :=
  match s with
  | EmptyString => [piece]
  | String c rest =>
      match skip with
      | S k => split_sep_from sep k piece rest
      | O =>
          if String.prefix sep s then
            piece :: split_sep_from sep (String.length sep - 1) "" rest
          else split_sep_from sep 0 (piece ++ String c "") rest
      end
  end.

Definition split_sep (sep s : string) : list string := split_sep_from sep 0 "" s.

(** [s.endswith(suffix)] *)
Definition endswith (s suffix : string) : bool :=
  (String.length suffix <=? String.length s)%nat
  && (substring (String.length s - String.length suffix) (String.length suffix) s =? suffix).

(** What reading a file in text mode makes of its content: a carriage
    return, with the line feed after it if there is one, is read as a
    line feed. *)
Fixpoint universal_newlines (s : string) : string :=
  match s with
  | EmptyString => EmptyString
  | String c rest =>
      if (code c =? 13)%nat then
        match rest with
        | String c2 rest2 =>
            if (code c2 =? 10)%nat then nl ++ universal_newlines rest2
            else nl ++ universal_newlines rest
        | EmptyString => nl
        end
      else String c (universal_newlines rest)
  end.

(** The line boundaries of [str.splitlines()] in ASCII. *)
Definition is_linebreak (c : ascii) : bool :=
  ((10 <=? code c)%nat && (code c <=? 13)%nat) || ((28 <=? code c)%nat && (code c <=? 30)%nat).

(** [s.splitlines()]: a carriage return and the line feed after it are
    one boundary, and no empty line follows the last boundary. *)
Fixpoint splitlines_from (line : string) (s : string) : list string :=
  match s with
  | EmptyString => if line =? "" then [] else [line]
  | String c rest =>
      if is_linebreak c then
        line ::
        match rest with
        | String c2 rest2 =>
            if (code c =? 13)%nat && (code c2 =? 10)%nat then splitlines_from "" rest2
            else splitlines_from "" rest
        | EmptyString => []
        end
      else splitlines_from (line ++ String c "") rest
  end.

Definition splitlines (s : string) : list string := splitlines_from "" s.

(** Every character of [s] satisfies [p]. *)
Fixpoint all_chars (p : ascii -> bool) (s : string) : bool :=
  match s with
  | EmptyString => true
  | String c rest => p c && all_chars p rest
  end.

End Text.

(** ** The clock

    [datetime.now()] reads a clock that moves between two readings: the
    clock is the sequence of its readings and the process counts how
    many it has taken. *)

Module Clock.

Record datetime : Type := {
  year : nat; month : nat; day : nat;
  hour : nat; minute : nat; second : nat; microsecond : nat
}.

Definition clock : Type := nat -> datetime.

(** [datetime.now()] at the process's [tick]-th reading. *)
Definition now (c : clock) (tick : nat) : datetime * nat := (c tick, S tick).

(** [dt.strftime('%Y%m%d-%H%M%S')] *)
Definition strftime_compact (dt : datetime) : string :=
  Text.zero_pad 4 (year dt) ++ Text.zero_pad 2 (month dt) ++ Text.zero_pad 2 (day dt)
  ++ "-" ++ Text.zero_pad 2 (hour dt) ++ Text.zero_pad 2 (minute dt)
  ++ Text.zero_pad 2 (second dt).

(** [dt.isoformat()] *)
Definition isoformat (dt : datetime) : string :=
  Text.zero_pad 4 (year dt) ++ "-" ++ Text.zero_pad 2 (month dt) ++ "-"
  ++ Text.zero_pad 2 (day dt) ++ "T" ++ Text.zero_pad 2 (hour dt) ++ ":"
  ++ Text.zero_pad 2 (minute dt) ++ ":" ++ Text.zero_pad 2 (second dt)
  ++ (if (microsecond dt =? 0)%nat then "" else "." ++ Text.zero_pad 6 (microsecond dt)).

Definition is_leap (y : nat) : bool :=
  ((y mod 4 =? 0) && negb (y mod 100 =? 0) || (y mod 400 =? 0))%nat.

Definition days_in_month (y m : nat) : nat :=
  match m with
  | 2 => if is_leap y then 29 else 28
  | 4 | 6 | 9 | 11 => 30
  | _ => 31
  end.

(** [dt.replace(year=y, month=m, day=d)]; [None] is its ValueError. *)
Definition replace_date (dt : datetime) (y m d : nat) : option datetime :=
  if ((1 <=? y) && (y <=? 9999) && (1 <=? m) && (m <=? 12)
      && (1 <=? d) && (d <=? days_in_month y m))%nat
  then Some {| year := y; month := m; day := d; hour := hour dt; minute := minute dt;
               second := second dt; microsecond := microsecond dt |}
  else None.

(** A clock for the examples: 2024-03-05 14:07:09, one second per reading. *)
Definition demo_clock : clock :=
  fun tick => {| year := 2024; month := 3; day := 5; hour := 14; minute := 7;
                 second := 9 + tick; microsecond := 0 |}.

End Clock.

(** ** The learning formatter of [learning_formatter.py]

    The dictionaries of this module have a fixed vocabulary of keys.  A
    dictionary that is read with [.get(key, default)] at keys of several
    types is a record of optional fields ([None]: the key is absent); a
    dictionary of strings that the code walks by key is an association
    list in insertion order. *)

Module Formatter.
Import Text.

(** [Dict[str, str]] *)
Definition strdict : Type := list (string * string).

(** [d.get(k, default)] *)
Definition sget (d : strdict) (k default : string) : string :=
  match lookup k d with
  | Some v => v
  | None => default
  end.

(** [d[k]], at a key of [d]. *)
Definition item (d : strdict) (k : string) : string := sget d k "".

(** [d[k] = v]: in place for a key of [d], at the end otherwise. *)
Fixpoint setitem (d : strdict) (k v : string) : strdict :=
  match d with
  | [] => [(k, v)]
  | (k', v') :: rest => if k =? k' then (k', v) :: rest else (k', v') :: setitem rest k v
  end.

(** [list(d.values())] *)
Definition values (d : strdict) : list string := map snd d.

(** [o.get(k, default)] for an optional field. *)
Definition or_default {A : Type} (o : option A) (default : A) : A :=
  match o with
  | Some a => a
  | None => default
  end.

(** A debugging experience, as the session analyzer and the capture
    tools build it. *)
Record experience : Type := {
  problem_description : option string;
  investigation_steps : option (list string);
  solution_applied : option string;
  outcome : option string
}.

(** The session data; [other_keys] are the keys this module does not
    read ("session_id", "additional_context", "tags", ...). *)
Record session_data : Type := {
  debugging_experiences : option (list experience);
  sd_timestamp : option string;
  project_context : option string;
  other_keys : list string
}.

Definition is_some {A : Type} (o : option A) : bool :=
  match o with
  | Some _ => true
  | None => false
  end.

(** [bool(session_data)]: the dictionary has a key. *)
Definition session_truthy (sd : session_data) : bool :=
  is_some (debugging_experiences sd) || is_some (sd_timestamp sd)
  || is_some (project_context sd)
  || match other_keys sd with [] => false | _ => true end.

(** The value at "debug_journey". *)
Record journey : Type := {
  initial_hypothesis : option string;
  investigation_path : option (list string);
  dead_ends : option (list string)
}.

(** A synopsis: the keys "title" and "bullets". *)
Record synopsis : Type := {
  syn_title : option string;
  syn_bullets : option strdict
}.

(** A learning entry, key by key. *)
Record entry : Type := {
  e_id : option string;
  e_timestamp : option string;
  e_trigger : option string;
  e_situation : option strdict;
  e_debug_journey : option journey;
  e_resolution : option strdict;
  e_knowledge_synthesis : option strdict;
  e_version : option nat;
  e_synopsis : option synopsis;
  e_title : option string;
  e_embedding_fields : option strdict
}.

(** [list(entry.keys())], up to order. *)
Definition entry_keys (e : entry) : list string :=
  (if is_some (e_id e) then ["id"] else [])
  ++ (if is_some (e_timestamp e) then ["timestamp"] else [])
  ++ (if is_some (e_trigger e) then ["trigger"] else [])
  ++ (if is_some (e_situation e) then ["situation"] else [])
  ++ (if is_some (e_debug_journey e) then ["debug_journey"] else [])
  ++ (if is_some (e_resolution e) then ["resolution"] else [])
  ++ (if is_some (e_knowledge_synthesis e) then ["knowledge_synthesis"] else [])
  ++ (if is_some (e_version e) then ["version"] else [])
  ++ (if is_some (e_synopsis e) then ["synopsis"] else [])
  ++ (if is_some (e_title e) then ["title"] else [])
  ++ (if is_some (e_embedding_fields e) then ["embedding_fields"] else []).

(** *** Module-level helpers (lines 118-253 and 630-783) *)

Definition _determine_trigger_type (problem_description : string) : string :=
  let problem_lower := lower problem_description in
  if contains_any ["error"; "exception"; "failed"; "crash"; "bug"] problem_lower then "error"
  else if contains_any ["slow"; "performance"; "timeout"; "lag"] problem_lower then "performance"
  else if contains_any ["unexpected"; "weird"; "strange"; "odd"] problem_lower then "investigation"
  else if contains_any ["optimization"; "improvement"; "enhancement"] problem_lower
       then "optimization"
  else "investigation".

Definition _infer_goal_from_problem (problem_desc : string) : string :=
  if contains "project" (lower problem_desc) then
    "Set up and configure project environment properly"
  else if contains "install" (lower problem_desc) || contains "dependencies" (lower problem_desc)
  then "Install and manage project dependencies correctly"
  else if contains "import" (lower problem_desc) || contains "module" (lower problem_desc)
  then "Import and use modules correctly in the application"
  else "Resolve the identified issue and restore expected functionality".

Definition _extract_action_taken (steps : list string) : string :=
  match steps with
  | first_step :: _ =>
      if contains "check" (lower first_step) then
        "Investigated the issue by " ++ lower first_step
      else "Began debugging by " ++ lower first_step
  | [] => "Initiated systematic debugging process"
  end.

Definition _infer_expected_vs_actual (problem_desc outcome : string) : string * string :=
  if contains "missing" (lower problem_desc) || contains "not found" (lower problem_desc) then
    ("Required files/modules should be accessible and functional",
     "Files/modules were not found or not accessible from current context")
  else if contains "dependencies" (lower problem_desc) then
    ("All dependencies should be installed and available",
     "Dependencies were not installed or not available")
  else
    ("System should function as intended without errors",
     if nonempty problem_desc then problem_desc else "Encountered unexpected behavior").

Definition _extract_initial_hypothesis (steps : list string) : string :=
  match steps with
  | first_step :: _ =>
      if contains "check" (lower first_step) then
        "Initial assumption was related to " ++ lower first_step
      else "First hypothesis: " ++ first_step
  | [] => "Initial hypothesis based on error symptoms and common patterns"
  end.

(** [re.sub(r'^(step \d+:?|then|next)\s*', '', step, flags=re.IGNORECASE)] *)
Definition strip_step_prefix (step : string) : string :=
  let after_digits := drop_while is_digit (drop 5 step) in
  if (lower (take 5 step) =? "step ")
     && (String.length after_digits <? String.length (drop 5 step))%nat then
    lstrip (if startswith after_digits ":" then drop 1 after_digits else after_digits)
  else if (lower (take 4 step) =? "then") || (lower (take 4 step) =? "next") then
    lstrip (drop 4 step)
  else step.

Definition _clean_investigation_steps (steps : list string) : list string :=
  let cleaned_steps :=
    flat_map (fun step =>
                let cleaned := strip (strip_step_prefix step) in
                if nonempty cleaned then [capitalize cleaned] else []) steps in
  match cleaned_steps with
  | [] => ["Analyzed the problem systematically"]
  | _ => cleaned_steps
  end.

Definition _identify_dead_ends (steps : list string) (solution : string) : list string :=
  let solution_keywords := if nonempty solution then split (lower solution) else [] in
  let dead_ends :=
    flat_map (fun step =>
                let step_lower := lower step in
                if negb (contains_any solution_keywords step_lower)
                   && contains_any ["tried"; "attempted"; "checked"; "tested"] step_lower
                then ["Investigated " ++ lower step ++ " but this wasn't the root cause"]
                else []) (removelast steps) in
  match dead_ends with
  | [] => ["Initial troubleshooting approaches required refinement"]
  | _ => dead_ends
  end.

Definition _infer_root_cause (problem_desc solution : string) : string :=
  if contains "virtual environment" (lower solution) then
    "Missing or incorrectly configured virtual environment"
  else if contains "install" (lower solution) then
    "Missing dependencies or incorrect installation"
  else if contains "path" (lower solution) || contains "directory" (lower solution) then
    "Incorrect working directory or path configuration"
  else if contains "permissions" (lower solution) then
    "File or directory permission issues"
  else "Root cause addressed by: " ++ solution.

Definition _extract_verification_method (outcome : string) : string :=
  if contains "successfully" (lower outcome) then
    "Confirmed resolution by testing the previously failing scenario"
  else if contains "resolved" (lower outcome) then
    "Verified fix by reproducing original conditions"
  else "Validation method: " ++ outcome.

Definition _extract_domain_principle (problem_desc solution : string) : string :=
  let combined := lower (problem_desc ++ " " ++ solution) in
  if contains "python" combined || contains "pip" combined || contains "venv" combined
     || contains "import" combined || contains "module" combined || contains ".py" combined
  then "Python import system requires proper working directory and module path configuration"
  else if contains "javascript" combined || contains "node" combined || contains "npm" combined
  then "JavaScript projects require proper dependency installation via npm/yarn"
  else if contains "git" combined then
    "Version control operations require understanding of Git workflow and commands"
  else "Technology-specific configuration and setup patterns are crucial for success".

Definition _extract_universal_principle (steps : list string) (solution : string) : string :=
  let steps_text := lower (join " " steps) in
  if contains "working directory" steps_text || contains "context" steps_text
     || contains "path" steps_text
  then "Understanding the execution context is essential when resolving import or path-related issues"
  else if contains "systematic" steps_text || (3 <? List.length steps)%nat then
    "Systematic investigation yields better debugging outcomes than ad hoc troubleshooting"
  else if contains "check" steps_text then
    "Verify assumptions before proceeding with complex solutions"
  else "Understanding the problem context is essential before applying solutions".

Definition _extract_pattern_recognition (problem_desc solution : string) : string :=
  if contains "not found" (lower problem_desc) then
    "'Not found' errors often indicate path, environment, or dependency issues"
  else if contains "missing" (lower problem_desc) then
    "Missing component errors suggest setup or configuration problems"
  else "Error patterns provide clues about the category and likely solutions".

Definition _extract_mental_model (problem_desc solution : string) (steps : list string)
    : string :=
  if contains "environment" (lower solution) then
    "Development environments are isolated contexts with their own dependencies"
  else if contains "path" (lower solution) then
    "File system navigation and context matter for resource accessibility"
  else "Debugging is a systematic process of hypothesis testing and validation".

Definition _extract_situation_details (problem_desc : string) (steps : list string)
    (outcome : string) : strdict :=
  let goal := _infer_goal_from_problem problem_desc in
  let action_taken := _extract_action_taken steps in
  let '(expected_result, actual_result) := _infer_expected_vs_actual problem_desc outcome in
  [("goal", goal); ("action_taken", action_taken);
   ("expected_result", expected_result); ("actual_result", actual_result)].

Definition _extract_debug_journey (steps : list string) (solution : string) : journey :=
  {| initial_hypothesis := Some (_extract_initial_hypothesis steps);
     investigation_path := Some (_clean_investigation_steps steps);
     dead_ends := Some (_identify_dead_ends steps solution) |}.

Definition _extract_resolution (solution outcome problem_desc : string) : strdict :=
  let root_cause := _infer_root_cause problem_desc solution in
  let solution_text :=
    if nonempty solution then solution else "Applied systematic debugging approach" in
  let verification := _extract_verification_method outcome in
  [("root_cause", root_cause); ("solution", solution_text); ("verification", verification)].

Definition _extract_knowledge_synthesis (problem_desc solution : string)
    (steps : list string) : strdict :=
  [("domain_principle", _extract_domain_principle problem_desc solution);
   ("universal_principle", _extract_universal_principle steps solution);
   ("pattern_recognition", _extract_pattern_recognition problem_desc solution);
   ("mental_model", _extract_mental_model problem_desc solution steps)].

(** *** Exceptions

    The one operation of this module that can raise on well-typed data is
    [max] over the keys of a dictionary (line 495). *)

Inductive res (A : Type) : Type :=
| Ok (a : A)
| ValueError (msg : string).
Arguments Ok {A} _.
Arguments ValueError {A} _.

Definition bind {A B : Type} (m : res A) (f : A -> res B) : res B :=
  match m with
  | Ok a => f a
  | ValueError msg => ValueError msg
  end.

Notation "x <- m ;; k" := (bind m (fun x => k))
  (at level 61, m at next level, right associativity).

(** [max(xs, key=key)]: the first element whose key no other exceeds. *)
Definition max_by {A : Type} (key : A -> nat) (xs : list A) : res A :=
  match xs with
  | [] => ValueError "max() arg is an empty sequence"
  | x :: rest =>
      Ok (fold_left (fun best y => if (key best <? key y)%nat then y else best) rest x)
  end.

(** *** [class SynopsisGenerator] (lines 256-627)

    The object's only attribute, [vocabulary], is never read, so the
    methods are functions of their other arguments. *)

Inductive SynopsisGenerator : Type :=
| SynopsisGenerator_new.

Section Synopsis.

(** [str(entry)], the text of a dictionary: the interpreter's. *)
Variable py_str : entry -> string.

Definition _infer_domain_from_entry (e : entry) : string :=
  let content_text := lower (py_str e) in
  if contains "python" content_text || contains "import" content_text then "Python"
  else if contains "javascript" content_text || contains "node" content_text then "JavaScript"
  else if contains "sql" content_text || contains "database" content_text then "Database"
  else "System".

Definition _generate_title (e : entry) : string :=
  let goal := sget (or_default (e_situation e) []) "goal" "" in
  let actual_result := sget (or_default (e_situation e) []) "actual_result" "" in
  let title :=
    if contains "error" (lower actual_result) || contains "failed" (lower actual_result) then
      let domain := _infer_domain_from_entry e in
      Text.title domain ++ " Error: " ++ take 60 actual_result
    else "Resolve: " ++ take 70 goal in
  if (120 <? String.length title)%nat then take 117 title ++ "..." else title.

(** Lines 394-399: the loop over the words. *)
Fixpoint title_words (title : string) (words : list string) : string :=
  match words with
  | [] => title
  | word :: rest =>
      if (String.length (title ++ " " ++ word) <=? 117)%nat then
        title_words (if nonempty title then title ++ " " ++ word else word) rest
      else title
  end.

Definition _generate_title_from_problem (problem_desc : string) : string :=
  if negb (nonempty problem_desc) then "Debugging Session Learning"
  else
    let clean_desc :=
      filter_chars (fun c => is_word c || is_space c || (code c =? 45)%nat) problem_desc in
    if (String.length clean_desc <=? 120)%nat then clean_desc
    else
      let title := title_words "" (split clean_desc) in
      if (120 <? String.length clean_desc)%nat then title ++ "..." else title.

Definition _format_context_bullet (situation : strdict) (debug_journey : journey) : string :=
  let action_part :=
    if nonempty (sget situation "action_taken" "")
    then ["While " ++ lower (item situation "action_taken")] else [] in
  let goal := lower (sget situation "goal" "") in
  let environment_part :=
    if contains "python" goal || contains "import" goal then
      ["in Python development environment"]
    else if contains "javascript" goal || contains "node" goal then
      ["in JavaScript/Node.js environment"]
    else if contains "database" goal || contains "sql" goal then
      ["in database environment"]
    else ["in development environment"] in
  let context_parts := (action_part ++ environment_part)%list in
  match context_parts with
  | [] => "Development environment context"
  | _ => join " " context_parts
  end.

Definition _format_applicability_bullet (knowledge_synthesis : strdict) : string :=
  let pattern := sget knowledge_synthesis "pattern_recognition" "" in
  if nonempty pattern && contains "when" (lower pattern) then pattern
  else
    let domain_principle := sget knowledge_synthesis "domain_principle" "" in
    if nonempty domain_principle then
      "When encountering similar " ++ lower domain_principle
    else "When facing similar debugging challenges".

Definition empty_journey : journey :=
  {| initial_hypothesis := None; investigation_path := None; dead_ends := None |}.

Definition _generate_bullets (e : entry) : strdict :=
  let situation := or_default (e_situation e) [] in
  let debug_journey := or_default (e_debug_journey e) empty_journey in
  let resolution := or_default (e_resolution e) [] in
  let knowledge_synthesis := or_default (e_knowledge_synthesis e) [] in
  [("symptoms", sget situation "actual_result" "Issue encountered");
   ("context", _format_context_bullet situation debug_journey);
   ("root_cause", sget resolution "root_cause" "Root cause analysis needed");
   ("fix", sget resolution "solution" "Solution implementation needed");
   ("applies_when", _format_applicability_bullet knowledge_synthesis)].

(** Lines 474-485: one round of the loop over the keys. *)
Definition expand_key (words_per_bullet : nat) (expanded : strdict) (key : string) : strdict :=
  if (0 <? words_per_bullet)%nat then
    if key =? "symptoms" then
      setitem expanded key (item expanded key ++ " with detailed error context")
    else if key =? "context" then
      setitem expanded key (item expanded key ++ " during development workflow")
    else if key =? "root_cause" then
      setitem expanded key (item expanded key ++ " through systematic analysis")
    else if key =? "fix" then
      setitem expanded key (item expanded key ++ " with verification steps")
    else if key =? "applies_when" then
      setitem expanded key (item expanded key ++ " in similar scenarios")
    else expanded
  else expanded.

Definition _expand_bullets (bullets : strdict) (words_needed : nat) : strdict :=
  let expanded := bullets in
  let keys := keys expanded in
  let words_per_bullet :=
    match keys with
    | [] => 0
    | _ => words_needed / List.length keys
    end in
  fold_left (expand_key words_per_bullet) keys expanded.

(** Lines 494-502: the [while words_to_remove > 0] loop; every round that
    goes on takes one off [words_to_remove]. *)
Fixpoint compress_loop (words_to_remove : nat) (compressed : strdict) : res strdict :=
  match words_to_remove with
  | O => Ok compressed
  | S remaining =>
      longest_key <- max_by (fun k => List.length (split (item compressed k)))
                            (keys compressed) ;;
      let words := split (item compressed longest_key) in
      if (5 <? List.length words)%nat then
        compress_loop remaining (setitem compressed longest_key (join " " (removelast words)))
      else Ok compressed
  end.

Definition _compress_bullets (bullets : strdict) (words_to_remove : nat) : res strdict :=
  compress_loop words_to_remove bullets.

Definition _adjust_word_count (bullets : strdict) : res strdict :=
  let total_text := join " " (values bullets) in
  let word_count := List.length (split total_text) in
  if (word_count <? 120)%nat then Ok (_expand_bullets bullets (120 - word_count))
  else if (200 <? word_count)%nat then _compress_bullets bullets (word_count - 200)
  else Ok bullets.

Definition generate_synopsis (e : entry) : res synopsis :=
  let title := _generate_title e in
  let bullets := _generate_bullets e in
  bullets <- _adjust_word_count bullets ;;
  Ok {| syn_title := Some title; syn_bullets := Some bullets |}.

Definition _create_default_synopsis : synopsis :=
  {| syn_title := Some "Learning Session Analysis";
     syn_bullets := Some [("symptoms", "Issue encountered during session");
                          ("context", "Development environment");
                          ("root_cause", "Root cause analysis needed");
                          ("fix", "Solution implementation needed");
                          ("applies_when", "When facing similar challenges")] |}.

Definition _extract_symptoms (exp : experience) : string :=
  let problem_desc := or_default (problem_description exp) "" in
  if contains "error" (lower problem_desc) then "Encountered " ++ lower problem_desc
  else if nonempty problem_desc then problem_desc
  else "Issue encountered during operation".

Definition _extract_context (exp : experience) (sd : session_data) : string :=
  let project_context := or_default (project_context sd) "" in
  if nonempty project_context then "Working in " ++ project_context ++ " environment"
  else
    let problem_desc := lower (or_default (problem_description exp) "") in
    if contains "python" problem_desc || contains "import" problem_desc then
      "Python development environment"
    else if contains "javascript" problem_desc || contains "node" problem_desc then
      "JavaScript/Node.js environment"
    else "Development environment".

Definition _extract_root_cause_from_experience (exp : experience) : string :=
  let solution := or_default (solution_applied exp) "" in
  if contains "directory" (lower solution) then
    "Working directory or path configuration issue"
  else if contains "install" (lower solution) then
    "Missing or incorrect dependency installation"
  else if contains "permission" (lower solution) then
    "File or directory permission restriction"
  else "Root cause identified through systematic debugging".

Definition _extract_fix (exp : experience) : string :=
  let solution := or_default (solution_applied exp) "" in
  if nonempty solution then
    let action_verbs :=
      ["use"; "run"; "install"; "set"; "configure"; "change"; "add"; "remove"] in
    if negb (existsb (fun verb => startswith (lower solution) verb) action_verbs) then
      "Apply " ++ lower solution
    else solution
  else "Apply systematic debugging approach".

Definition _extract_applicability (exp : experience) : string :=
  let problem_desc := lower (or_default (problem_description exp) "") in
  if contains "not found" problem_desc then
    "When files exist but are not found by the system"
  else if contains "error" problem_desc && contains "import" problem_desc then
    "When import statements fail despite proper installation"
  else if contains "permission" problem_desc then
    "When encountering file or directory access restrictions"
  else "When facing similar configuration or environment issues".

Definition create_synopsis_from_session_data (sd : session_data) : res synopsis :=
  match or_default (debugging_experiences sd) [] with
  | [] => Ok _create_default_synopsis
  | exp :: _ =>
      let problem_desc := or_default (problem_description exp) "" in
      let title := _generate_title_from_problem problem_desc in
      let bullets :=
        [("symptoms", _extract_symptoms exp);
         ("context", _extract_context exp sd);
         ("root_cause", _extract_root_cause_from_experience exp);
         ("fix", _extract_fix exp);
         ("applies_when", _extract_applicability exp)] in
      bullets <- _adjust_word_count bullets ;;
      Ok {| syn_title := Some title; syn_bullets := Some bullets |}
  end.

Definition _format_synopsis_for_embedding (syn : synopsis) : string :=
  let bullets := or_default (syn_bullets syn) [] in
  "Problem: " ++ sget bullets "symptoms" "" ++ " Context: " ++ sget bullets "context" ""
  ++ " Cause: " ++ sget bullets "root_cause" "" ++ " Solution: " ++ sget bullets "fix" ""
  ++ " Use: " ++ sget bullets "applies_when" "".

(** The separator is the text " → " in its UTF-8 encoding. *)
Definition _format_debug_journey_for_embedding (exp : experience) : string :=
  let steps := or_default (investigation_steps exp) [] in
  join " → " steps.

Definition _extract_pattern_for_embedding (exp : experience) : string :=
  let problem_desc := or_default (problem_description exp) "" in
  let solution := or_default (solution_applied exp) "" in
  if contains "file" (lower problem_desc) && contains "directory" (lower solution) then
    "File accessibility issues often relate to working directory context"
  else if contains "import" (lower problem_desc) then
    "Import errors typically indicate path or environment configuration problems"
  else "Debugging requires systematic hypothesis testing and validation".

Definition _create_default_embedding_content : strdict :=
  [("title", "Learning Session Analysis");
   ("synopsis", "Problem: Issue encountered Context: Development environment Cause: Analysis needed Solution: Implementation needed Use: Similar challenges");
   ("debug_journey", "Systematic investigation approach");
   ("root_cause", "Root cause analysis needed");
   ("solution", "Solution implementation needed");
   ("pattern_recognition", "Debugging requires systematic approach")].

(** [synopsis["title"]]; the key is there for every synopsis this class
    builds. *)
Definition title_of (syn : synopsis) : string := or_default (syn_title syn) "".

Definition extract_embedding_field_content (sd : session_data) : res strdict :=
  match or_default (debugging_experiences sd) [] with
  | [] => Ok _create_default_embedding_content
  | exp :: _ =>
      syn <- create_synopsis_from_session_data sd ;;
      Ok [("title", title_of syn);
          ("synopsis", _format_synopsis_for_embedding syn);
          ("debug_journey", _format_debug_journey_for_embedding exp);
          ("root_cause", or_default (solution_applied exp) "Root cause analysis needed");
          ("solution", or_default (solution_applied exp) "Solution implementation needed");
          ("pattern_recognition", _extract_pattern_for_embedding exp)]
  end.

(** *** [_create_single_learning_entry] and [create_learning_entries] *)

Definition _create_single_learning_entry (exp : experience) (entry_id timestamp : string)
    (sd : option session_data) (synopsis_generator : option SynopsisGenerator)
    : res entry :=
  let problem_desc := or_default (problem_description exp) "" in
  let steps := or_default (investigation_steps exp) [] in
  let solution := or_default (solution_applied exp) "" in
  let outcome := or_default (outcome exp) "" in
  let trigger := _determine_trigger_type problem_desc in
  let situation := _extract_situation_details problem_desc steps outcome in
  let debug_journey := _extract_debug_journey steps solution in
  let resolution := _extract_resolution solution outcome problem_desc in
  let knowledge_synthesis := _extract_knowledge_synthesis problem_desc solution steps in
  let base (version : nat) (syn : option synopsis) (title : option string)
           (fields : option strdict) : entry :=
    {| e_id := Some entry_id; e_timestamp := Some timestamp; e_trigger := Some trigger;
       e_situation := Some situation; e_debug_journey := Some debug_journey;
       e_resolution := Some resolution; e_knowledge_synthesis := Some knowledge_synthesis;
       e_version := Some version; e_synopsis := syn; e_title := title;
       e_embedding_fields := fields |} in
  match synopsis_generator with
  | Some _ =>
      match sd with
      | Some session =>
          if session_truthy session then
            syn <- create_synopsis_from_session_data session ;;
            fields <- extract_embedding_field_content session ;;
            Ok (base 2 (Some syn) (Some (title_of syn)) (Some fields))
          else
            syn <- generate_synopsis (base 2 None None None) ;;
            Ok (base 2 (Some syn) (Some (title_of syn)) None)
      | None =>
          syn <- generate_synopsis (base 2 None None None) ;;
          Ok (base 2 (Some syn) (Some (title_of syn)) None)
      end
  | None => Ok (base 1 None None None)
  end.

(** [f"L{i:03d}"] *)
Definition entry_id_of (i : nat) : string := "L" ++ zero_pad 3 i.

(** Lines 32-40: the loop from the [i]-th experience on.  Every round
    evaluates [datetime.now().isoformat()], the default of the [.get],
    whether or not "timestamp" is a key. *)
Fixpoint entries_from (c : Clock.clock) (tick : nat) (sd : session_data)
    (synopsis_generator : option SynopsisGenerator) (i : nat)
    (experiences : list experience) : res (list entry) * nat :=
  match experiences with
  | [] => (Ok [], tick)
  | exp :: rest =>
      let '(reading, tick1) := Clock.now c tick in
      let timestamp := or_default (sd_timestamp sd) (Clock.isoformat reading) in
      match _create_single_learning_entry exp (entry_id_of i) timestamp (Some sd)
              synopsis_generator with
      | ValueError msg => (ValueError msg, tick1)
      | Ok learning_entry =>
          match entries_from c tick1 sd synopsis_generator (S i) rest with
          | (Ok learning_entries, tick2) => (Ok (learning_entry :: learning_entries), tick2)
          | (ValueError msg, tick2) => (ValueError msg, tick2)
          end
      end
  end.

(** [create_learning_entries], with the clock and the number of readings
    taken before the call; it returns the number taken after it. *)
Definition create_learning_entries (c : Clock.clock) (tick : nat) (sd : session_data)
    (use_v2_format : bool) : res (list entry) * nat :=
  let debugging_experiences := or_default (debugging_experiences sd) [] in
  let synopsis_generator := if use_v2_format then Some SynopsisGenerator_new else None in
  entries_from c tick sd synopsis_generator 1 debugging_experiences.

End Synopsis.

(** *** Vocabulary of the properties *)

(** The five keys of a synopsis's bullets, in the order the code inserts them. *)
Definition bullet_keys : list string :=
  ["symptoms"; "context"; "root_cause"; "fix"; "applies_when"].

Definition well_shaped (syn : synopsis) : Prop :=
  exists title bullets,
    syn = {| syn_title := Some title; syn_bullets := Some bullets |}
    /\ keys bullets = bullet_keys.

(** The keys every learning entry has. *)
Definition base_keys : list string :=
  ["id"; "timestamp"; "trigger"; "situation"; "debug_journey"; "resolution";
   "knowledge_synthesis"].

Definition has_base_fields (e : entry) (entry_id timestamp : string) : Prop :=
  e_id e = Some entry_id /\ e_timestamp e = Some timestamp
  /\ is_some (e_trigger e) = true /\ is_some (e_situation e) = true
  /\ is_some (e_debug_journey e) = true /\ is_some (e_resolution e) = true
  /\ is_some (e_knowledge_synthesis e) = true.

(** The call raises ValueError. *)
Definition raises_ValueError {A : Type} (r : res A) : Prop :=
  exists msg, r = ValueError msg.

(** *** Fixtures for the examples *)

Definition demo_experience : experience :=
  {| problem_description := Some "ImportError: module foo not found!";
     investigation_steps :=
       Some ["Step 1: checked PYTHONPATH"; "then tried pip install"; "next looked at venv"];
     solution_applied := Some "Activated the virtual environment";
     outcome := Some "Resolved" |}.

Definition bare_experience : experience :=
  {| problem_description := None; investigation_steps := None;
     solution_applied := None; outcome := None |}.

(** Session data as [capture_learning] builds it, with its timestamp. *)
Definition demo_session : session_data :=
  {| debugging_experiences := Some [demo_experience; bare_experience];
     sd_timestamp := Some "2024-03-05T14:07:09";
     project_context := Some "archon";
     other_keys := ["session_id"; "additional_context"] |}.

(** The same without the "timestamp" key. *)
Definition undated_session : session_data :=
  {| debugging_experiences := Some [demo_experience; bare_experience];
     sd_timestamp := None;
     project_context := Some "archon";
     other_keys := ["session_id"; "additional_context"] |}.

(** A stand-in for [str(entry)] in the examples. *)
Definition py_str_demo (e : entry) : string := "{'id': '" ++ or_default (e_id e) "" ++ "'}".

(** [n] copies of a word, each followed by a space. *)
Fixpoint repeated (n : nat) (word : string) : string :=
  match n with
  | O => ""
  | S k => word ++ " " ++ repeated k word
  end.

(** Bullets of 213 words. *)
Definition wordy_bullets : strdict :=
  [("symptoms", repeated 150 "a"); ("context", repeated 60 "b");
   ("root_cause", "c"); ("fix", "d"); ("applies_when", "e")].

(** A second clock, a year after [Clock.demo_clock]. *)
Definition later_clock : Clock.clock :=
  fun tick => {| Clock.year := 2025; Clock.month := 3; Clock.day := 5; Clock.hour := 14;
                 Clock.minute := 7; Clock.second := 9 + tick; Clock.microsecond := 0 |}.

(** [len(text.split())] *)
Definition words_in (text : string) : nat := List.length (split text).

(** The word count [_adjust_word_count] works with (lines 454-455). *)
Definition word_count (bullets : strdict) : nat := words_in (join " " (values bullets)).

(** A dictionary with the five bullet keys. *)
Definition five_bullets (v1 v2 v3 v4 v5 : string) : strdict :=
  [("symptoms", v1); ("context", v2); ("root_cause", v3); ("fix", v4); ("applies_when", v5)].

(** The four trigger types. *)
Definition trigger_types : list string :=
  ["error"; "performance"; "investigation"; "optimization"].

(** A list of texts that is not empty and holds no empty text. *)
Definition filled (texts : list string) : Prop :=
  texts <> [] /\ Forall (fun text => text <> "") texts.

(** An entry with all seven base keys filled in: a known trigger, the
    four, three and four keys of situation, resolution and knowledge
    synthesis, a solution text, and a debug journey with a hypothesis and
    filled lists. *)
Definition complete_entry (e : entry) : Prop :=
  exists trigger situation hypothesis path ends resolution knowledge,
    e_trigger e = Some trigger /\ In trigger trigger_types
    /\ e_situation e = Some situation
    /\ keys situation = ["goal"; "action_taken"; "expected_result"; "actual_result"]
    /\ e_debug_journey e
       = Some {| initial_hypothesis := Some hypothesis; investigation_path := Some path;
                 dead_ends := Some ends |}
    /\ hypothesis <> "" /\ filled path /\ filled ends
    /\ e_resolution e = Some resolution
    /\ keys resolution = ["root_cause"; "solution"; "verification"]
    /\ sget resolution "solution" "" <> ""
    /\ e_knowledge_synthesis e = Some knowledge
    /\ keys knowledge
       = ["domain_principle"; "universal_principle"; "pattern_recognition"; "mental_model"].

(** The keys of the embedding fields. *)
Definition embedding_keys : list string :=
  ["title"; "synopsis"; "debug_journey"; "root_cause"; "solution"; "pattern_recognition"].

(** A word of [str.split()]: not empty, no whitespace. *)
Definition word_ok (w : string) : Prop :=
  w <> "" /\ all_chars (fun c => negb (is_space c)) w = true.

End Formatter.

(** ** The knowledge storage of [knowledge_storage.py]

    The file system is a table from paths to contents and a list of
    directories; creating a directory and writing a file succeed. *)

Module Storage.
Import Text Formatter.

Record world : Type := {
  files : list (string * string);
  dirs : list string;
  ticks : nat
}.

(** [open(path, 'w').write(content)] *)
Fixpoint write (fs : list (string * string)) (path content : string)
    : list (string * string) :=
  match fs with
  | [] => [(path, content)]
  | (p, old) :: rest =>
      if path =? p then (p, content) :: rest else (p, old) :: write rest path content
  end.

(** One directory of [mkdir(parents=True, exist_ok=True)]. *)
Definition mkdir (ds : list string) (path : string) : list string :=
  if existsb (String.eqb path) ds then ds else (ds ++ [path])%list.

Section WithEnvironment.

(** The clock; [datetime.strptime(text, '%H%M%S')] as the hour, minute
    and second it parses ([None]: ValueError); the absolute path of
    [Path(__file__).parent.parent.parent.parent.parent]; and
    [os.path.basename(os.getcwd())]. *)
Variable c : Clock.clock.
Variable strptime_HMS : string -> option (nat * nat * nat).
Variable project_root : string.
Variable cwd_basename : string.

(** [bool(session_id)] for [session_id: str = None]. *)
Definition given (session_id : option string) : bool :=
  match session_id with
  | Some text => nonempty text
  | None => false
  end.

(** Lines 34-48 and 93-105: the timestamp for the file name.  The bare
    [except] turns every failure into a reading of the clock. *)
Definition file_timestamp (session_id : option string) (tick : nat)
    : Clock.datetime * nat :=
  if negb (given session_id) then Clock.now c tick
  else
    let timestamp_str := after_last_hyphen (or_default session_id "") in
    match strptime_HMS timestamp_str with
    | None => Clock.now c tick
    | Some (h, m, sec) =>
        let parsed :=
          {| Clock.year := 1900; Clock.month := 1; Clock.day := 1; Clock.hour := h;
             Clock.minute := m; Clock.second := sec; Clock.microsecond := 0 |} in
        let '(r1, t1) := Clock.now c tick in
        let '(r2, t2) := Clock.now c t1 in
        let '(r3, t3) := Clock.now c t2 in
        match Clock.replace_date parsed (Clock.year r1) (Clock.month r2) (Clock.day r3) with
        | Some timestamp => (timestamp, t3)
        | None => Clock.now c t3
        end
    end.

(** [for i, x in enumerate(xs, 1): lines.append(f"{i}. {x}")] *)
Fixpoint numbered (i : nat) (xs : list string) : list string :=
  match xs with
  | [] => []
  | x :: rest => (str_of_nat i ++ ". " ++ x) :: numbered (S i) rest
  end.

(** [_format_learning_entry]; the default of the timestamp's [.get] reads
    the clock whether or not the key is there. *)
Definition _format_learning_entry (e : entry) (entry_number : nat) (tick : nat)
    : list string * nat :=
  let '(reading, tick1) := Clock.now c tick in
  let situation := or_default (e_situation e) [] in
  let debug_journey := or_default (e_debug_journey e) empty_journey in
  let investigation_path := or_default (investigation_path debug_journey) [] in
  let dead_ends := or_default (dead_ends debug_journey) [] in
  let resolution := or_default (e_resolution e) [] in
  let knowledge_synthesis := or_default (e_knowledge_synthesis e) [] in
  (List.concat
     [ [ "## Learning Entry " ++ str_of_nat entry_number;
         "**ID**: " ++ or_default (e_id e) ("L" ++ zero_pad 3 entry_number);
         "**Timestamp**: " ++ or_default (e_timestamp e) (Clock.isoformat reading);
         "**Trigger**: " ++ or_default (e_trigger e) "investigation";
         "";
         "### Situation";
         "**Goal**: " ++ sget situation "goal" "Goal not specified";
         "**Action Taken**: " ++ sget situation "action_taken" "Action not specified";
         "**Expected Result**: "
           ++ sget situation "expected_result" "Expected result not specified";
         "**Actual Result**: "
           ++ sget situation "actual_result" "Actual result not specified";
         "";
         "### Debug Journey";
         "**Initial Hypothesis**: "
           ++ or_default (initial_hypothesis debug_journey) "Initial hypothesis not specified";
         "**Investigation Path**:" ];
       match investigation_path with
       | [] => ["1. Investigation steps not documented"]
       | _ => numbered 1 investigation_path
       end;
       [ ""; "**Dead Ends**:" ];
       match dead_ends with
       | [] => ["- No dead ends documented"]
       | _ => map (fun dead_end => "- " ++ dead_end) dead_ends
       end;
       [ "";
         "### Resolution";
         "**Root Cause**: " ++ sget resolution "root_cause" "Root cause not identified";
         "**Solution**: " ++ sget resolution "solution" "Solution not specified";
         "**Verification**: "
           ++ sget resolution "verification" "Verification method not specified";
         "";
         "### Knowledge Synthesis";
         "**Domain Principle**: "
           ++ sget knowledge_synthesis "domain_principle" "Domain principle not identified";
         "**Universal Principle**: "
           ++ sget knowledge_synthesis "universal_principle"
                "Universal principle not identified";
         "**Pattern Recognition**: "
           ++ sget knowledge_synthesis "pattern_recognition" "Pattern not identified";
         "**Mental Model**: "
           ++ sget knowledge_synthesis "mental_model" "Mental model not specified";
         "" ];
       match e_synopsis e with
       | Some syn =>
           List.concat
             [ [ "### Quick Reference Synopsis" ];
               match syn_bullets syn with
               | Some bullets =>
                   [ "- **Symptoms**: " ++ sget bullets "symptoms" "";
                     "- **Context**: " ++ sget bullets "context" "";
                     "- **Root Cause**: " ++ sget bullets "root_cause" "";
                     "- **Fix**: " ++ sget bullets "fix" "";
                     "- **Applies When**: " ++ sget bullets "applies_when" "" ]
               | None => []
               end;
               [ "" ] ]
       | None => []
       end ],
   tick1).

(** Lines 209-215: the loop over the entries, from the [i]-th on. *)
Fixpoint entry_lines (total i : nat) (es : list entry) (tick : nat) : list string * nat :=
  match es with
  | [] => ([], tick)
  | e :: rest =>
      let '(lines, tick1) := _format_learning_entry e i tick in
      let separator := if (i <? total)%nat then ["---"; ""] else [] in
      let '(more, tick2) := entry_lines total (S i) rest tick1 in
      ((lines ++ separator ++ more)%list, tick2)
  end.

Definition _generate_markdown_content (session_id project_name start_time : string)
    (learning_entries : list entry) (tick : nat) : string * nat :=
  let header :=
    [ "# Session Learning Log";
      "**Session ID**: " ++ session_id;
      "**Project**: " ++ project_name;
      "**Start Time**: " ++ start_time;
      "" ] in
  let '(body, tick1) := entry_lines (List.length learning_entries) 1 learning_entries tick in
  (join nl (header ++ body)%list, tick1).

Definition knowledge_dir : string := project_root ++ "/knowledge/metacognition".

Definition save_learning_file (learning_entries : list entry) (session_id : option string)
    (w : world) : res string * world :=
  match learning_entries with
  | [] => (ValueError "No learning entries provided to save", w)
  | _ =>
      let '(timestamp, tick1) := file_timestamp session_id (ticks w) in
      let session_id :=
        if negb (given session_id) then "claude-code-" ++ Clock.strftime_compact timestamp
        else or_default session_id "" in
      let project_name := cwd_basename in
      let filename := "learning-" ++ Clock.strftime_compact timestamp ++ ".md" in
      let dirs1 := mkdir (mkdir (dirs w) (project_root ++ "/knowledge")) knowledge_dir in
      let filepath := knowledge_dir ++ "/" ++ filename in
      let '(markdown_content, tick2) :=
        _generate_markdown_content session_id project_name (Clock.isoformat timestamp)
          learning_entries tick1 in
      (Ok filepath,
       {| files := write (files w) filepath markdown_content; dirs := dirs1; ticks := tick2 |})
  end.

Definition get_learning_file_paths (learning_entries : list entry)
    (session_id : option string) (w : world) : res strdict * world :=
  match learning_entries with
  | [] => (ValueError "No learning entries provided", w)
  | _ =>
      let '(timestamp, tick1) := file_timestamp session_id (ticks w) in
      let filename := "learning-" ++ Clock.strftime_compact timestamp ++ ".md" in
      let filepath := knowledge_dir ++ "/" ++ filename in
      let relative_path := "knowledge/metacognition/" ++ filename in
      (Ok [("absolute", filepath); ("relative", relative_path); ("filename", filename)],
       {| files := files w; dirs := dirs w; ticks := tick1 |})
  end.

End WithEnvironment.

(** *** Reading a learning file back (lines 408-456) *)

(** The paths of the file system: its files and its directories. *)
Definition paths (w : world) : list string := (map fst (files w) ++ dirs w)%list.

(** [path.exists()]: a file, a directory, or a directory above one. *)
Definition path_exists (w : world) (path : string) : bool :=
  existsb (fun q => (q =? path) || startswith q (path ++ "/")) (paths w).

(** [_extract_field_value]: the first line that starts with the field's
    marker decides; [line.split(marker)[1]] is there for such a line. *)
Fixpoint _extract_field_value (lines : list string) (field_name : string) : string :=
  match lines with
  | [] => ""
  | line :: rest =>
      if startswith line ("**" ++ field_name ++ "**:") then
        strip (nth 1 (split_sep ("**" ++ field_name ++ "**:") line) "")
      else _extract_field_value rest field_name
  end.

(** The dictionary [load_learning_file] returns. *)
Record loaded_session : Type := {
  session_id : string;
  project : string;
  start_time : string;
  learning_entries : list entry
}.

Inductive load_result : Type :=
| Loaded (data : loaded_session)
| FileNotFoundError (msg : string)
| IsADirectoryError (msg : string).

(** [load_learning_file]; [os.path.exists] holds of files and of
    directories, and [open] of a directory raises.  The file is read in
    text mode. *)
Definition load_learning_file (filepath : string) (w : world) : load_result :=
  match lookup filepath (files w) with
  | Some content =>
      let lines := split_sep nl (universal_newlines content) in
      Loaded {| session_id := _extract_field_value lines "Session ID";
                project := _extract_field_value lines "Project";
                start_time := _extract_field_value lines "Start Time";
                learning_entries := [] |}
  | None =>
      if path_exists w filepath then
        IsADirectoryError ("Is a directory: '" ++ filepath ++ "'")
      else FileNotFoundError ("Learning file not found: " ++ filepath)
  end.

(** *** Listing the learning files (lines 459-475) *)

(** The first component of a relative path. *)
Definition first_component (relative : string) : string :=
  nth 0 (split_sep "/" relative) "".

(** The names in a directory, each once. *)
Definition listdir (w : world) (dir : string) : list string :=
  nodup string_dec
    (flat_map (fun q =>
                 if startswith q (dir ++ "/") then
                   [first_component (drop (String.length dir + 1) q)]
                 else [])
       (paths w)).

(** The names the pattern "learning-*.md" matches. *)
Definition matches_learning (name : string) : bool :=
  startswith name "learning-" && endswith name ".md" && (12 <=? String.length name)%nat.

(** [sorted(texts)] *)
Fixpoint insert_sorted (x : string) (l : list string) : list string :=
  match l with
  | [] => [x]
  | y :: rest => if (x <=? y)%string then x :: l else y :: insert_sorted x rest
  end.

Definition sorted (l : list string) : list string := fold_right insert_sorted [] l.

(** The order of [sorted] on texts. *)
Definition in_order (a b : string) : Prop := (a <=? b)%string = true.

(** [list_learning_files] *)
Definition list_learning_files (project_root : string) (w : world) : list string :=
  let knowledge_dir := knowledge_dir project_root in
  if negb (path_exists w knowledge_dir) then []
  else
    sorted (map (fun name => knowledge_dir ++ "/" ++ name)
              (filter matches_learning (listdir w knowledge_dir))).

(** *** Formatting and storing entries for the knowledge base (lines 124-182, 307-405) *)

(** [bool(synopsis)] for the value at "synopsis": a dictionary with a key. *)
Definition synopsis_truthy (syn : option synopsis) : bool :=
  match syn with
  | Some sy => is_some (syn_title sy) || is_some (syn_bullets sy)
  | None => false
  end.

(** [a or b] on optional texts, None and the empty text being falsy. *)
Definition text_or (a b : option string) : option string :=
  match a with
  | Some text => if nonempty text then a else b
  | None => b
  end.

(** [_format_entry_for_archon]: the "title" and the "content"; the
    default of the timestamp's [.get] reads the clock. *)
Definition _format_entry_for_archon (c : Clock.clock) (e : entry) (session_id : string)
    (tick : nat) : strdict * nat :=
  let '(reading, tick1) := Clock.now c tick in
  let situation := or_default (e_situation e) [] in
  let debug_journey := or_default (e_debug_journey e) empty_journey in
  let resolution := or_default (e_resolution e) [] in
  let knowledge_synthesis := or_default (e_knowledge_synthesis e) [] in
  let syn := e_synopsis e in
  let title :=
    if synopsis_truthy syn then
      text_or (e_title e) (match syn with Some sy => syn_title sy | None => None end)
    else None in
  let title :=
    match title with
    | Some text =>
        if nonempty text then text
        else take 120 ("Debug: " ++ sget situation "goal" "Learning Entry")
    | None => take 120 ("Debug: " ++ sget situation "goal" "Learning Entry")
    end in
  let bullets :=
    match syn with
    | Some sy => or_default (syn_bullets sy) []
    | None => []
    end in
  let content_parts :=
    List.concat
      [ [ "# " ++ title;
          "**Session**: " ++ session_id;
          "**Entry ID**: " ++ or_default (e_id e) "unknown";
          "**Timestamp**: " ++ or_default (e_timestamp e) (Clock.isoformat reading);
          "**Trigger**: " ++ or_default (e_trigger e) "investigation";
          "";
          "## Problem Context";
          "**Goal**: " ++ sget situation "goal" "Not specified";
          "**Action Taken**: " ++ sget situation "action_taken" "Not specified";
          "**Expected Result**: " ++ sget situation "expected_result" "Not specified";
          "**Actual Result**: " ++ sget situation "actual_result" "Not specified";
          "";
          "## Investigation Process";
          "**Initial Hypothesis**: "
            ++ or_default (initial_hypothesis debug_journey) "Not specified";
          "";
          "**Investigation Steps**:" ];
        map (fun step => "- " ++ step) (or_default (investigation_path debug_journey) []);
        [ ""; "**Dead Ends Encountered**:" ];
        map (fun dead_end => "- " ++ dead_end) (or_default (dead_ends debug_journey) []);
        [ "";
          "## Resolution";
          "**Root Cause**: " ++ sget resolution "root_cause" "Not identified";
          "**Solution**: " ++ sget resolution "solution" "Not specified";
          "**Verification**: " ++ sget resolution "verification" "Not specified";
          "";
          "## Key Learnings";
          "**Domain Principle**: "
            ++ sget knowledge_synthesis "domain_principle" "Not identified";
          "**Universal Principle**: "
            ++ sget knowledge_synthesis "universal_principle" "Not identified";
          "**Pattern Recognition**: "
            ++ sget knowledge_synthesis "pattern_recognition" "Not identified";
          "**Mental Model**: " ++ sget knowledge_synthesis "mental_model" "Not specified" ];
        if synopsis_truthy syn && match bullets with [] => false | _ => true end then
          [ "";
            "## Quick Reference";
            "- **Symptoms**: " ++ sget bullets "symptoms" "";
            "- **Context**: " ++ sget bullets "context" "";
            "- **Root Cause**: " ++ sget bullets "root_cause" "";
            "- **Fix**: " ++ sget bullets "fix" "";
            "- **Applies When**: " ++ sget bullets "applies_when" "" ]
        else [];
        [ "";
          "---";
          "Tags: debugging, " ++ or_default (e_trigger e) "investigation"
            ++ ", metacognition, learning, archon";
          "Source: Meta-Cognition Layer";
          "Version: " ++ str_of_nat (or_default (e_version e) 2) ] ] in
  ([("title", title); ("content", join nl content_parts)], tick1).

(** The keyword arguments of one [service_client.store_knowledge] call. *)
Record store_request : Type := {
  rq_content : string;
  rq_title : string;
  rq_source_type : string;
  rq_session_id : string;
  rq_entry_id : option string;
  rq_trigger : option string;
  rq_timestamp : string;
  rq_version : nat;
  rq_has_synopsis : bool
}.

(** A service client: what its [store_knowledge] does on its [n]-th call
    (from 0) with a request: it raises with a message, or returns a
    dictionary with or without a "document_id". *)
Definition service_client : Type := nat -> store_request -> string + option string.

(** What the storing touches: clock readings taken, UUIDs drawn, calls
    made to the service. *)
Record store_state : Type := {
  st_ticks : nat;
  st_uuids : nat;
  st_calls : nat
}.

Definition opt_text (o : option string) : value :=
  match o with
  | Some text => PStr text
  | None => PNone
  end.

(** Lines 146-180: the loop over the entries. *)
Fixpoint store_entries (c : Clock.clock) (uuid4 : nat -> string) (client : service_client)
    (session_id : string) (es : list entry) (st : store_state) : list dict * store_state :=
  match es with
  | [] => ([], st)
  | e :: rest =>
      let '(content, tick1) := _format_entry_for_archon c e session_id (st_ticks st) in
      let '(reading, tick2) := Clock.now c tick1 in
      let request :=
        {| rq_content := item content "content"; rq_title := item content "title";
           rq_source_type := "metacognition"; rq_session_id := session_id;
           rq_entry_id := e_id e; rq_trigger := e_trigger e;
           rq_timestamp := or_default (e_timestamp e) (Clock.isoformat reading);
           rq_version := or_default (e_version e) 2;
           rq_has_synopsis := is_some (e_synopsis e) |} in
      let '(record, st1) :=
        match client (st_calls st) request with
        | inr document_id =>
            ([("entry_id", opt_text (e_id e));
              ("document_id", PStr (or_default document_id (uuid4 (st_uuids st))));
              ("status", PStr "success")],
             {| st_ticks := tick2; st_uuids := S (st_uuids st);
                st_calls := S (st_calls st) |})
        | inl error =>
            ([("entry_id", opt_text (e_id e)); ("status", PStr "failed");
              ("error", PStr error)],
             {| st_ticks := tick2; st_uuids := st_uuids st; st_calls := S (st_calls st) |})
        end in
      let '(records, st2) := store_entries c uuid4 client session_id rest st1 in
      (record :: records, st2)
  end.

(** [store_in_archon_knowledge_base]; [None] is no service client. *)
Definition store_in_archon_knowledge_base (c : Clock.clock) (uuid4 : nat -> string)
    (learning_entries : list entry) (session_id : string) (client : option service_client)
    (st : store_state) : list dict * store_state :=
  match client with
  | None => ([], st)
  | Some service => store_entries c uuid4 service session_id learning_entries st
  end.

(** The characters of a timestamp: digits, hyphen, colon, period, "T". *)
Definition stamp_char (ch : ascii) : bool :=
  is_digit ch || (code ch =? 45)%nat || (code ch =? 58)%nat || (code ch =? 46)%nat
  || (code ch =? 84)%nat.

(** A text without a line feed and without a carriage return. *)
Definition line_char (ch : ascii) : bool :=
  negb (code ch =? 10)%nat && negb (code ch =? 13)%nat.

Definition one_line (s : string) : bool := all_chars line_char s.

(** The session id [save_learning_file] writes into the file. *)
Definition recorded_session_id (session_id : option string) (timestamp : Clock.datetime)
    : string :=
  if negb (given session_id) then "claude-code-" ++ Clock.strftime_compact timestamp
  else or_default session_id "".

(** The clock shows the day [y]-[mo]-[d], a day of the calendar, at
    every reading. *)
Definition stays_on (c : Clock.clock) (y mo d : nat) : Prop :=
  (forall t, Clock.year (c t) = y /\ Clock.month (c t) = mo /\ Clock.day (c t) = d)
  /\ ((1 <=? y) && (y <=? 9999) && (1 <=? mo) && (mo <=? 12)
      && (1 <=? d) && (d <=? Clock.days_in_month y mo))%nat = true.

(** *** Fixtures for the examples *)

(** [strptime] on the six-digit texts "HHMMSS" the examples use. *)
Definition strptime_demo (text : string) : option (nat * nat * nat) :=
  if text =? "140709" then Some (14, 7, 9)
  else if text =? "235959" then Some (23, 59, 59)
  else None.

Definition empty_world : world := {| files := []; dirs := []; ticks := 0 |}.

(** An entry with an id and a title of its own, and no synopsis. *)
Definition titled_entry : entry :=
  {| e_id := Some "L001"; e_timestamp := None; e_trigger := None;
     e_situation := Some [("goal", "Start the crawler")]; e_debug_journey := None;
     e_resolution := None; e_knowledge_synthesis := None; e_version := None;
     e_synopsis := None; e_title := Some "Crawler start"; e_embedding_fields := None |}.

(** A service whose first call raises and whose later calls return a
    document id. *)
Definition flaky_service : service_client :=
  fun n request =>
    match n with
    | O => inl "connection refused"
    | S _ => inr (Some ("doc-" ++ str_of_nat n))
    end.

End Storage.

(** ** The JSON-RPC bridge of [mcp_server.py] *)

Module Mcp.

(** Exceptions that cross the endpoint's [try] blocks.  [Other] stands for
    any other subclass of [Exception], with its class name. *)
Inductive exn : Type :=
| JSONDecodeError (msg : string)
| HTTPException (status_code : Z) (detail : string)
| TypeError (msg : string)
| AttributeError (msg : string)
| Other (class_name : string) (msg : string).

(** [str(e)] *)
Definition exn_str (e : exn) : string :=
  match e with
  | JSONDecodeError m => m
  | HTTPException c d => str_of_Z c ++ ": " ++ d
  | TypeError m => m
  | AttributeError m => m
  | Other _ m => m
  end.

(** [type(e).__name__] *)
Definition exn_class (e : exn) : string :=
  match e with
  | JSONDecodeError _ => "JSONDecodeError"
  | HTTPException _ _ => "HTTPException"
  | TypeError _ => "TypeError"
  | AttributeError _ => "AttributeError"
  | Other c _ => c
  end.

(** What evaluating a call leaves behind: a value or a raised exception. *)
Inductive outcome : Type :=
| Return (v : value)
| Raise (e : exn).

(** What the route handler hands to the web framework: a [JSONResponse]
    around its content, or an exception that escapes the function. *)
Inductive reply : Type :=
| JSONResponse (content : value)
| Escapes (e : exn).

(** [await request.json()]: the decoded body, or the exception raised
    while reading and decoding it. *)
Inductive request_json : Type :=
| Body (body : value)
| BodyRaises (e : exn).

Section Endpoint.

(** The lifespan context ([ArchonContext]); the bridge only passes the
    shared one on. *)
Variable ArchonContext : Type.

(** [json.loads] on text, and [format(v)] for a value that is not a
    string: both belong to the interpreter, not to this repository. *)
Variable json_loads : string -> string + value.
Variable py_repr : value -> string.

(** A registered tool: [Tool.fn] applied to the mock context's lifespan
    context and the keyword arguments, and the function's qualified
    name (used by the interpreter's own error text). *)
Record Tool : Type := {
  qualname : string;
  fn : option ArchonContext -> dict -> outcome
}.

(** [mcp._tool_manager._tools] *)
Definition registry := list (string * Tool).

(** One entry per evaluation of a call [tool_handler.fn(...)]. *)
Definition call : Type := string * dict.

(** [f"{v}"] *)
Definition fmt (v : value) : string :=
  match v with
  | PStr s => s
  | _ => py_repr v
  end.

Definition envelope (request_id : value) (key : string) (payload : value) : value :=
  PDict [("jsonrpc", PStr "2.0"); ("id", request_id); (key, payload)].

Definition error_object (code : Z) (message : string) (data : option value) : value :=
  PDict ([("code", PInt code); ("message", PStr message)]
         ++ match data with Some d => [("data", d)] | None => [] end).

Definition success (request_id result : value) : value :=
  envelope request_id "result" result.

Definition failure (request_id : value) (code : Z) (message : string)
    (data : option value) : value :=
  envelope request_id "error" (error_object code message data).

(** [method not in tools] / [tools[method]]: a list or a dict is not
    hashable, any other value that is not a string equals no key. *)
Definition find_tool (tools : registry) (method : value) : exn + option Tool :=
  match method with
  | PStr m => inr (lookup m tools)
  | PList _ => inl (TypeError "unhashable type: 'list'")
  | PDict _ => inl (TypeError "unhashable type: 'dict'")
  | _ => inr None
  end.

(** Lines 394-400: [fn(mock_ctx, **params)] when [params] is truthy,
    [fn(mock_ctx)] otherwise.  Unpacking [**params] of a value that is
    not a mapping raises before the function is entered. *)
Definition call_handler (shared_context : option ArchonContext)
    (method : string) (tool_handler : Tool) (params : value)
    : outcome * list call :=
  if truthy params then
    match params with
    | PDict kwargs => (fn tool_handler shared_context kwargs, [(method, kwargs)])
    | _ => (Raise (TypeError (qualname tool_handler
                               ++ "() argument after ** must be a mapping, not "
                               ++ type_name params)), [])
    end
  else (fn tool_handler shared_context [], [(method, [])]).

(** Line 406: [json.loads(result) if isinstance(result, str) else result] *)
Definition unwrap_result (result : value) : outcome :=
  match result with
  | PStr s =>
      match json_loads s with
      | inr v => Return v
      | inl msg => Raise (JSONDecodeError msg)
      end
  | _ => Return result
  end.

(** Lines 393-432: the inner [try] with its two handlers. *)
Definition execute_tool (shared_context : option ArchonContext)
    (request_id : value) (method : string) (tool_handler : Tool) (params : value)
    : value * list call :=
  let '(called, log) := call_handler shared_context method tool_handler params in
  let finished :=
    match called with
    | Return result => unwrap_result result
    | Raise e => Raise e
    end in
  match finished with
  | Return r => (success request_id r, log)
  | Raise (TypeError te) =>
      (failure request_id (-32602)
         ("Invalid params for " ++ method ++ ": " ++ te)
         (Some (PDict [("method", PStr method); ("params", params)])), log)
  | Raise tool_error =>
      (failure request_id (-32000)
         ("Tool execution failed: " ++ exn_str tool_error)
         (Some (PDict [("method", PStr method);
                       ("error_type", PStr (exn_class tool_error))])), log)
  end.

(** Lines 356-432: the body of the outer [try] once [body] is bound. *)
Definition dispatch (tools : registry) (shared_context : option ArchonContext)
    (body : value) : (exn + value) * list call :=
  match body with
  | PDict d =>
      if negb (eq_str (get d "jsonrpc") "2.0") then
        (inl (HTTPException 400 "Must be JSON-RPC 2.0"), [])
      else
        let method := get d "method" in
        if negb (truthy method) then
          (inl (HTTPException 400 "Missing 'method' field"), [])
        else
          let request_id := get d "id" in
          let params := get_default d "params" (PDict []) in
          match find_tool tools method with
          | inl e => (inl e, [])
          | inr None =>
              (inr (failure request_id (-32601)
                      ("Method not found: " ++ fmt method)
                      (Some (PDict [("available_methods",
                                     PList (map PStr (keys tools)))]))), [])
          | inr (Some tool_handler) =>
              let '(resp, log) :=
                execute_tool shared_context request_id (fmt method) tool_handler params in
              (inr resp, log)
          end
  | _ => (inl (HTTPException 400 "Request must be JSON object"), [])
  end.

(** [body.get("id") if 'body' in locals() else None], as the handlers at
    lines 447 and 458 evaluate it: [body] is a local once
    [request.json()] has returned, whatever it returned. *)
Definition id_from_locals (body : option value) : exn + value :=
  match body with
  | None => inr PNone
  | Some (PDict d) => inr (get d "id")
  | Some v => inl (AttributeError ("'" ++ type_name v ++ "' object has no attribute 'get'"))
  end.

(** Lines 434-463: the three [except] clauses of the outer [try]. *)
Definition handle (body : option value) (e : exn) : reply :=
  match e with
  | JSONDecodeError _ =>
      JSONResponse (failure PNone (-32700) "Parse error: Invalid JSON" None)
  | HTTPException _ detail =>
      match id_from_locals body with
      | inr request_id => JSONResponse (failure request_id (-32600) detail None)
      | inl raised => Escapes raised
      end
  | _ =>
      match id_from_locals body with
      | inr request_id =>
          JSONResponse (failure request_id (-32603) ("Internal error: " ++ exn_str e) None)
      | inl raised => Escapes raised
      end
  end.

(** [mcp_http_endpoint]: the reply and the handler calls made on the way. *)
Definition mcp_http_endpoint (tools : registry) (shared_context : option ArchonContext)
    (request : request_json) : reply * list call :=
  match request with
  | BodyRaises e => (handle None e, [])
  | Body body =>
      match dispatch tools shared_context body with
      | (inr resp, log) => (JSONResponse resp, log)
      | (inl e, log) => (handle (Some body) e, log)
      end
  end.

(** *** Vocabulary of the properties *)

(** The keyword arguments the handler is entered with, for the [params]
    of a request: the dictionary itself, nothing for a falsy [params];
    a truthy value that is no dictionary cannot be unpacked. *)
Definition kwargs_of (params : value) : option dict :=
  if truthy params then
    match params with
    | PDict kwargs => Some kwargs
    | _ => None
    end
  else Some [].

(** The result field for a handler's return value: the decoded text for
    a string, the value itself otherwise. *)
Inductive result_of : value -> value -> Prop :=
| result_decoded s r : json_loads s = inr r -> result_of (PStr s) r
| result_passed v : is_str v = false -> result_of v v.

(** The error codes the endpoint uses. *)
Definition error_codes : list Z :=
  [-32700; -32600; -32601; -32602; -32603; -32000]%Z.

(** The id a reply carries: the body's "id" for an object (None when it
    has none), None when the body could not be read. *)
Definition echoed_id (request : request_json) : value :=
  match request with
  | Body (PDict d) => get d "id"
  | _ => PNone
  end.

(** A JSON-RPC reply for [request_id]: a result, or an error with one of
    the codes. *)
Inductive envelope_for (request_id : value) : value -> Prop :=
| envelope_result r : envelope_for request_id (success request_id r)
| envelope_error code message data :
    In code error_codes -> envelope_for request_id (failure request_id code message data).

End Endpoint.

Arguments qualname {ArchonContext} _.
Arguments fn {ArchonContext} _ _ _.
Arguments Build_Tool {ArchonContext} _ _.

(** *** Fixtures for the examples *)

(** [json.loads] on the texts the examples use: the keyword literals and
    the empty containers decode, the prose texts do not. *)
Definition json_loads_demo (s : string) : string + value :=
  if s =? "null" then inr PNone
  else if s =? "true" then inr (PBool true)
  else if s =? "false" then inr (PBool false)
  else if s =? "[]" then inr (PList [])
  else if s =? "{}" then inr (PDict [])
  else inl "Expecting value: line 1 column 1 (char 0)".

(** [repr] on the values the examples format. *)
Definition py_repr_demo (v : value) : string :=
  match v with
  | PNone => "None"
  | PBool true => "True"
  | PBool false => "False"
  | PInt z => str_of_Z z
  | _ => "<" ++ type_name v ++ ">"
  end.

(** A registry with a tool that answers with JSON text, one that answers
    with a dictionary, one that answers with prose and one that raises. *)
Definition demo_tools : registry unit :=
  [ ("ping", Build_Tool "ping" (fun _ _ => Return (PStr "{}")));
    ("echo", Build_Tool "echo" (fun _ kwargs => Return (PDict kwargs)));
    ("status_text", Build_Tool "status_text" (fun _ _ => Return (PStr "all good")));
    ("boom", Build_Tool "boom" (fun _ _ => Raise (Other "RuntimeError" "backend unreachable"))) ].

Definition demo_endpoint : request_json -> reply * list (call) :=
  mcp_http_endpoint unit json_loads_demo py_repr_demo demo_tools None.

(** [{"jsonrpc": "2.0", "id": <id>, "method": <method>}] *)
Definition demo_request (request_id : Z) (method : string) : value :=
  PDict [("jsonrpc", PStr "2.0"); ("id", PInt request_id); ("method", PStr method)].

End Mcp.

(** ** The crawler manager of [crawler_manager.py] *)

Module Crawler.

(** A crawler object: its class and its identity. *)
Inductive crawler : Type :=
| AsyncWebCrawler (obj : nat)
| FallbackCrawler (obj : nat).

(** The attributes of a [CrawlerManager] object.  A fresh object reads
    the class attributes, [class_attributes]. *)
Record manager : Type := {
  _crawler : option crawler;
  _initialized : bool;
  _using_fallback : bool
}.

Definition class_attributes : manager :=
  {| _crawler := None; _initialized := false; _using_fallback := false |}.

(** The part of the process the module touches: the class attribute
    [_instance], the [CrawlerManager] objects by address, and two
    counters: crawler objects constructed so far (their identities) and
    the number of times [initialize] went past its guard. *)
Record process : Type := {
  _instance : option nat;
  allocated : nat;
  attrs : nat -> manager;
  constructed : nat;
  init_runs : nat
}.

(** Before the module is imported. *)
Definition boot : process :=
  {| _instance := None; allocated := 0; attrs := fun _ => class_attributes;
     constructed := 0; init_runs := 0 |}.

Definition set_attrs (self : nat) (m : manager) (p : process) : process :=
  {| _instance := _instance p; allocated := allocated p;
     attrs := fun a => if Nat.eqb a self then m else attrs p a;
     constructed := constructed p; init_runs := init_runs p |}.

Definition set_crawler (self : nat) (c : option crawler) (p : process) : process :=
  let m := attrs p self in
  set_attrs self {| _crawler := c; _initialized := _initialized m;
                    _using_fallback := _using_fallback m |} p.

Definition set_initialized (self : nat) (b : bool) (p : process) : process :=
  let m := attrs p self in
  set_attrs self {| _crawler := _crawler m; _initialized := b;
                    _using_fallback := _using_fallback m |} p.

Definition set_using_fallback (self : nat) (b : bool) (p : process) : process :=
  let m := attrs p self in
  set_attrs self {| _crawler := _crawler m; _initialized := _initialized m;
                    _using_fallback := b |} p.

(** Constructing a crawler object: a new identity. *)
Definition construct (p : process) : nat * process :=
  (constructed p,
   {| _instance := _instance p; allocated := allocated p; attrs := attrs p;
      constructed := S (constructed p); init_runs := init_runs p |}).

Definition count_init_run (p : process) : process :=
  {| _instance := _instance p; allocated := allocated p; attrs := attrs p;
     constructed := constructed p; init_runs := S (init_runs p) |}.

(** [CrawlerManager()], that is [__new__] (the class has no [__init__]):
    the address of the object it returns. *)
Definition new (p : process) : nat * process :=
  match _instance p with
  | None =>
      (allocated p,
       {| _instance := Some (allocated p); allocated := S (allocated p);
          attrs := attrs p; constructed := constructed p; init_runs := init_runs p |})
  | Some a => (a, p)
  end.

(** What one run of [initialize] meets outside the process: whether
    crawl4ai was imported, the platform, and for each call into crawl4ai
    or httpx whether it returns ([None]) or raises ([Some] message). *)
Record init_env : Type := {
  crawl4ai_imported : bool;
  platform_win : bool;
  browser_config : option string;
  browser_config_minimal : option string;
  crawler_constructor : option string;
  crawler_aenter : option string;
  fallback_aenter : option string
}.

Inductive result (A : Type) : Type :=
| Ok (a : A)
| Raised (msg : string).
Arguments Ok {A} _.
Arguments Raised {A} _.

(** Lines 137-195: the browser configuration; on Windows a failure of the
    first configuration is caught and a minimal one is tried. *)
Definition configure_browser (env : init_env) : option string :=
  if platform_win env then
    match browser_config env with
    | None => None
    | Some _ => browser_config_minimal env
    end
  else browser_config env.

(** Lines 122-211: the body of the outer [try]; [Some e] when it raises. *)
Definition start_browser_crawler (env : init_env) (self : nat) (p : process)
    : option string * process :=
  if negb (crawl4ai_imported env) then
    (Some "crawl4ai is not installed or available", p)
  else
    match configure_browser env with
    | Some e => (Some e, p)
    | None =>
        match crawler_constructor env with
        | Some e => (Some e, p)
        | None =>
            let '(obj, p1) := construct p in
            let p2 := set_crawler self (Some (AsyncWebCrawler obj)) p1 in
            match crawler_aenter env with
            | Some e => (Some e, p2)
            | None => (None, set_initialized self true p2)
            end
        end
    end.

Definition is_ready (m : manager) : bool :=
  _initialized m && match _crawler m with Some _ => true | None => false end.

(** [CrawlerManager.initialize] *)
Definition initialize (env : init_env) (self : nat) (p : process)
    : result unit * process :=
  if is_ready (attrs p self) then (Ok tt, p)
  else
    match start_browser_crawler env self (count_init_run p) with
    | (None, p1) => (Ok tt, p1)
    | (Some e, p1) =>
        let '(obj, p2) := construct p1 in
        let p3 := set_crawler self (Some (FallbackCrawler obj)) p2 in
        match fallback_aenter env with
        | None =>
            (Ok tt, set_using_fallback self true (set_initialized self true p3))
        | Some fallback_e =>
            (Raised ("Both Crawl4AI and fallback crawler failed: " ++ e ++ ", " ++ fallback_e),
             set_using_fallback self false
               (set_initialized self false (set_crawler self None p3)))
        end
    end.

(** [CrawlerManager.get_crawler] *)
Definition get_crawler (env : init_env) (self : nat) (p : process)
    : result (option crawler) * process :=
  if negb (is_ready (attrs p self)) then
    match initialize env self p with
    | (Ok _, p1) => (Ok (_crawler (attrs p1 self)), p1)
    | (Raised msg, p1) => (Raised msg, p1)
    end
  else (Ok (_crawler (attrs p self)), p).

(** [CrawlerManager.cleanup]; an exception of [__aexit__] is logged and
    dropped, the [finally] clause resets either way. *)
Definition cleanup (aexit : option string) (self : nat) (p : process) : process :=
  let m := attrs p self in
  if match _crawler m with Some _ => true | None => false end && _initialized m then
    set_initialized self false (set_crawler self None p)
  else p.

(** The calls a client can make on the manager at [self], and a run of
    them from left to right; results are dropped, the process is kept. *)
Inductive op : Type :=
| CallNew
| CallGetCrawler (env : init_env)
| CallInitialize (env : init_env)
| CallCleanup (aexit : option string).

Definition step (self : nat) (p : process) (o : op) : process :=
  match o with
  | CallNew => snd (new p)
  | CallGetCrawler env => snd (get_crawler env self p)
  | CallInitialize env => snd (initialize env self p)
  | CallCleanup aexit => cleanup aexit self p
  end.

Definition run (self : nat) (ops : list op) (p : process) : process :=
  fold_left (step self) ops p.

Definition is_cleanup (o : op) : bool :=
  match o with
  | CallCleanup _ => true
  | _ => false
  end.

(** The manager's attributes after both crawlers failed. *)
Definition reset : manager :=
  {| _crawler := None; _initialized := false; _using_fallback := false |}.

(** *** Fixtures for the examples *)

(** The state after the module is imported: [_crawler_manager = CrawlerManager()]. *)
Definition imported : process := snd (new boot).

Definition env_browser_ok : init_env :=
  {| crawl4ai_imported := true; platform_win := false; browser_config := None;
     browser_config_minimal := None; crawler_constructor := None;
     crawler_aenter := None; fallback_aenter := None |}.

Definition env_browser_missing : init_env :=
  {| crawl4ai_imported := false; platform_win := true; browser_config := None;
     browser_config_minimal := None; crawler_constructor := None;
     crawler_aenter := None; fallback_aenter := None |}.

Definition env_all_fail : init_env :=
  {| crawl4ai_imported := true; platform_win := true; browser_config := None;
     browser_config_minimal := None; crawler_constructor := None;
     crawler_aenter := Some "Executable doesn't exist";
     fallback_aenter := Some "SSL context unavailable" |}.

(** *** The module-level functions (lines 263-290)

    [_crawler_manager] is the object the module creates when it is
    imported; [get_crawler] logs a warning when the manager hands back
    None. *)

Definition module_get_crawler (env : init_env) (_crawler_manager : nat) (p : process)
    : result (option crawler) * bool * process :=
  match get_crawler env _crawler_manager p with
  | (Ok c, p1) =>
      let warned := match c with None => true | Some _ => false end in
      (Ok c, warned, p1)
  | (Raised msg, p1) => (Raised msg, false, p1)
  end.

Definition initialize_crawler (env : init_env) (_crawler_manager : nat) (p : process)
    : result unit * process :=
  initialize env _crawler_manager p.

Definition cleanup_crawler (aexit : option string) (_crawler_manager : nat) (p : process)
    : process :=
  cleanup aexit _crawler_manager p.

(** A start of the browser crawler that fails in its [__aenter__] while
    the HTTP client starts. *)
Definition env_browser_broken : init_env :=
  {| crawl4ai_imported := true; platform_win := false; browser_config := None;
     browser_config_minimal := None; crawler_constructor := None;
     crawler_aenter := Some "Executable doesn't exist"; fallback_aenter := None |}.

End Crawler.

(** ** The fallback crawler of [crawler_manager.py] (lines 30-94) *)

Module Fallback.
Import Text.

(** Lines 66-68: the lines of the text, stripped; their phrases between
    double spaces, stripped; the phrases that are not empty, joined by
    one space. *)
Definition clean_text (text : string) : string :=
  let lines := map strip (splitlines text) in
  let chunks := flat_map (fun line => map strip (split_sep "  " line)) lines in
  join " " (filter nonempty chunks).

(** The result objects [SimpleResult] and [FailedResult]; only the
    latter has the attribute [error]. *)
Record crawl_result : Type := {
  markdown : string;
  cleaned_html : string;
  html : string;
  url : string;
  success : bool;
  error : option string;
  status_code : nat
}.

Definition SimpleResult (markdown_content url : string) (status : nat) : crawl_result :=
  {| markdown := markdown_content; cleaned_html := markdown_content;
     html := markdown_content; url := url; success := true; error := None;
     status_code := status |}.

Definition FailedResult (url error : string) : crawl_result :=
  {| markdown := ""; cleaned_html := ""; html := ""; url := url; success := false;
     error := Some error; status_code := 0 |}.

Section Arun.

(** httpx and BeautifulSoup: the response of [client.get(url)] or the
    text of the exception it raises; the exception of
    [raise_for_status()] if any; the text [get_text()] returns for the
    parsed content without its script and style elements, or the text
    of an exception on the way; and the response's status code. *)
Variable response : Type.
Variable client_get : string -> string + response.
Variable raise_for_status : response -> option string.
Variable get_text : response -> string + string.
Variable response_status : response -> nat.

(** [FallbackCrawler.arun]; [entered] tells whether [__aenter__] has set
    [self.client]. *)
Definition arun (entered : bool) (target : string) : crawl_result :=
  if negb entered then FailedResult target "'NoneType' object has no attribute 'get'"
  else
    match client_get target with
    | inl e => FailedResult target e
    | inr resp =>
        match raise_for_status resp with
        | Some e => FailedResult target e
        | None =>
            match get_text resp with
            | inl e => FailedResult target e
            | inr text => SimpleResult (clean_text text) target (response_status resp)
            end
        end
    end.

End Arun.

(** *** Vocabulary of the properties *)

(** The chunks of the cleaned text, before the empty ones are dropped. *)
Definition chunks_of (text : string) : list string :=
  flat_map (fun line => map strip (split_sep "  " line)) (map strip (splitlines text)).

Definition is_blank (c : ascii) : bool := Ascii.eqb c " ".

Definition starts_blank (s : string) : bool :=
  match s with
  | EmptyString => false
  | String c _ => is_blank c
  end.

Fixpoint ends_blank (s : string) : bool :=
  match s with
  | EmptyString => false
  | String c EmptyString => is_blank c
  | String _ rest => ends_blank rest
  end.

(** No two spaces in a row. *)
Fixpoint no_double (s : string) : bool :=
  match s with
  | EmptyString => true
  | String c rest => negb (is_blank c && starts_blank rest) && no_double rest
  end.

(** The first, and the last, character is not whitespace. *)
Definition first_ok (s : string) : bool :=
  match s with
  | EmptyString => true
  | String c _ => negb (is_space c)
  end.

Fixpoint last_ok (s : string) : bool :=
  match s with
  | EmptyString => true
  | String c EmptyString => negb (is_space c)
  | String _ rest => last_ok rest
  end.

(** A chunk of the cleaned text. *)
Definition tidy (s : string) : bool := first_ok s && last_ok s && no_double s.

Definition no_break (s : string) : bool := all_chars (fun c => negb (is_linebreak c)) s.

End Fallback.

(** ** The session analyzer of [session_analyzer.py] *)

Module Analyzer.
Import Text Formatter Storage.

(** A call that returns, or raises the OSError of [os.getcwd()]. *)
Inductive attempt (A : Type) : Type :=
| Done (a : A)
| OSError (msg : string).

Arguments Done {A} a.
Arguments OSError {A} msg.

Definition error_patterns : list string :=
  ["error[:\s]+(.*?)(?:\n|$)"; "exception[:\s]+(.*?)(?:\n|$)"; "failed[:\s]+(.*?)(?:\n|$)";
   "bug[:\s]+(.*?)(?:\n|$)"].

Definition solution_patterns : list string :=
  ["fixed[:\s]+(.*?)(?:\n|$)"; "resolved[:\s]+(.*?)(?:\n|$)";
   "solution[:\s]+(.*?)(?:\n|$)"].

(** [os.path.join(a, b)] for a relative [b]. *)
Definition os_path_join (a b : string) : string :=
  if a =? "" then b else if endswith a "/" then a ++ b else a ++ "/" ++ b.

(** [os.path.basename(path)]: what follows the last slash. *)
Fixpoint basename_from (segment : string) (s : string) : string :=
  match s with
  | EmptyString => segment
  | String ch rest =>
      if (code ch =? 47)%nat then basename_from "" rest
      else basename_from (segment ++ String ch "") rest
  end.

Definition basename (path : string) : string := basename_from "" path.

(** [dt.strftime('%Y%m%d')] *)
Definition strftime_date (dt : Clock.datetime) : string :=
  zero_pad 4 (Clock.year dt) ++ zero_pad 2 (Clock.month dt) ++ zero_pad 2 (Clock.day dt).

(** [os.listdir(dir)] *)
Definition os_listdir (w : world) (dir : string) : list string :=
  let prefix := os_path_join dir "" in
  nodup string_dec
    (flat_map (fun q =>
                 if startswith q prefix && negb (q =? prefix) then
                   [first_component (drop (String.length prefix) q)]
                 else [])
       (paths w)).

(** [os.path.isfile(name)] for a name relative to the working directory. *)
Definition os_path_isfile (w : world) (cwd name : string) : bool :=
  is_some (lookup (os_path_join cwd name) (files w)).

(** A potential problem: the keys "description", "steps", "solution"
    and "outcome". *)
Record problem : Type := {
  description : string;
  steps : list string;
  solution : string;
  p_outcome : string
}.

Definition _check_python_common_issues (w : world) (project_path : string) : list problem :=
  if path_exists w (os_path_join project_path "requirements.txt")
     && negb (path_exists w (os_path_join project_path "venv"))
     && negb (path_exists w (os_path_join project_path ".venv"))
  then
    [ {| description :=
           "Python project with requirements.txt but no visible virtual environment";
         steps := ["Noticed requirements.txt file in project";
                   "Checked for virtual environment directories";
                   "Identified potential dependency management issue"];
         solution := "Recommend creating and activating virtual environment";
         p_outcome := "Better dependency isolation and management" |} ]
  else [].

Definition _check_js_common_issues (w : world) (project_path : string) : list problem :=
  if path_exists w (os_path_join project_path "package.json")
     && negb (path_exists w (os_path_join project_path "node_modules"))
  then
    [ {| description := "JavaScript project with package.json but no node_modules";
         steps := ["Found package.json configuration file";
                   "Checked for node_modules directory";
                   "Identified missing dependencies installation"];
         solution := "Run npm install or yarn install to install dependencies";
         p_outcome := "Dependencies installed and project ready for development" |} ]
  else [].

Definition _check_git_common_issues (w : world) (project_path : string) : list problem :=
  if path_exists w (os_path_join (os_path_join project_path ".git") "index") then
    [ {| description := "Active Git repository detected";
         steps := ["Checked Git repository status"; "Identified version control setup"];
         solution := "Ensure changes are committed and pushed";
         p_outcome := "Version control properly managed" |} ]
  else [].

(** The experience made of an error match (lines 132-141) and of a
    solution match (lines 155-160). *)
Definition error_experience (description : string) : experience :=
  {| problem_description := Some description;
     investigation_steps :=
       Some ["Identified error message"; "Analyzed stack trace"; "Investigated root cause"];
     solution_applied := Some "Applied targeted fix";
     outcome := Some "Error resolved" |}.

Definition solution_experience (solution : string) : experience :=
  {| problem_description := Some "Issue requiring resolution";
     investigation_steps := Some ["Analyzed problem"; "Identified solution"];
     solution_applied := Some solution;
     outcome := Some "Successfully applied" |}.

(** [exp["solution_applied"] == solution] *)
Definition has_solution (solution : string) (exp : experience) : bool :=
  match solution_applied exp with
  | Some text => text =? solution
  | None => false
  end.

(** Lines 129-141: the matches of one error pattern, by their group 1. *)
Fixpoint error_matches (groups : list string) (experiences : list experience)
    : list experience :=
  match groups with
  | [] => experiences
  | group :: rest =>
      let description := strip group in
      if nonempty description then
        error_matches rest (experiences ++ [error_experience description])%list
      else error_matches rest experiences
  end.

(** Lines 151-160: the matches of one solution pattern. *)
Fixpoint solution_matches (groups : list string) (experiences : list experience)
    : list experience :=
  match groups with
  | [] => experiences
  | group :: rest =>
      let solution := strip group in
      if nonempty solution && negb (existsb (has_solution solution) experiences) then
        solution_matches rest (experiences ++ [solution_experience solution])%list
      else solution_matches rest experiences
  end.

Section Session.

(** The clock, [os.getcwd()] (its path, or the text of its OSError) and
    [re.finditer(pattern, content, re.IGNORECASE)] as the group 1 of its
    matches from left to right. *)
Variable c : Clock.clock.
Variable getcwd : string + string.
Variable finditer : string -> string -> list string.

Definition _parse_session_content (content : string) : list experience :=
  let experiences :=
    fold_left (fun experiences pattern => error_matches (finditer pattern content) experiences)
      error_patterns [] in
  fold_left (fun experiences pattern => solution_matches (finditer pattern content) experiences)
    solution_patterns experiences.

Definition _identify_potential_problems (w : world) : attempt (list problem) :=
  match getcwd with
  | inl msg => OSError msg
  | inr cwd =>
      Done
        (List.concat
           [ if path_exists w (os_path_join cwd "package.json") then
               _check_js_common_issues w cwd
             else [];
             if existsb (fun f => endswith f ".py")
                  (filter (os_path_isfile w cwd) (os_listdir w cwd)) then
               _check_python_common_issues w cwd
             else [];
             if path_exists w (os_path_join cwd ".git") then _check_git_common_issues w cwd
             else [] ])
  end.

(** Lines 76-88: the experience made of a potential problem. *)
Definition problem_experience (p : problem) : experience :=
  {| problem_description := Some (description p);
     investigation_steps := Some (steps p);
     solution_applied := Some (solution p);
     outcome := Some (p_outcome p) |}.

Definition default_experience : experience :=
  {| problem_description := Some "Session analysis and structured learning capture";
     investigation_steps :=
       Some ["Reviewed current session context";
             "Identified opportunities for knowledge extraction";
             "Analyzed patterns in problem-solving approaches";
             "Structured insights for future retrieval"];
     solution_applied := Some "Implemented systematic learning capture process";
     outcome := Some "Successfully extracted and structured session insights" |}.

Definition _extract_debugging_experiences (session_content : option string) (w : world)
    : attempt (list experience) :=
  if given session_content then
    Done (_parse_session_content (or_default session_content ""))
  else
    match _identify_potential_problems w with
    | OSError msg => OSError msg
    | Done [] => Done [default_experience]
    | Done potential_problems => Done (map problem_experience potential_problems)
    end.

(** [_get_project_context]; the handler of its [try] reads the clock. *)
Definition _get_project_context (tick : nat) : string * nat :=
  match getcwd with
  | inr cwd => (basename cwd, tick)
  | inl _ =>
      let '(reading, tick1) := Clock.now c tick in
      ("archon-project-" ++ strftime_date reading, tick1)
  end.

(** [analyze_current_session]: the session data, the value at its key
    "session_id", and the readings of the clock. *)
Definition analyze_current_session (session_content : option string) (w : world)
    (tick : nat) : attempt (session_data * string) * nat :=
  let '(reading, tick1) := Clock.now c tick in
  let timestamp := Clock.isoformat reading in
  let '(reading, tick2) := Clock.now c tick1 in
  let session_id := "claude-code-" ++ Clock.strftime_compact reading in
  let '(project_context, tick3) := _get_project_context tick2 in
  match _extract_debugging_experiences session_content w with
  | OSError msg => (OSError msg, tick3)
  | Done debugging_experiences =>
      (Done ({| debugging_experiences := Some debugging_experiences;
                sd_timestamp := Some timestamp;
                Formatter.project_context := Some project_context;
                other_keys := ["session_id"] |},
             session_id),
       tick3)
  end.

End Session.

(** An experience made of an error match, and one made of a solution
    match. *)
Definition found_error (e : experience) : Prop :=
  exists description, e = error_experience description /\ description <> "".

Definition found_solution (e : experience) : Prop :=
  exists solution, e = solution_experience solution /\ solution <> "".

(** A group of whitespace only. *)
Definition blank (group : string) : Prop := strip group = "".

(** No match of [patterns] has a group 1 with a character that is not
    whitespace. *)
Definition all_blank (finditer : string -> string -> list string) (content : string)
    (patterns : list string) : Prop :=
  forall pattern group,
    In pattern patterns -> In group (finditer pattern content) -> blank group.

Definition nothing_found (finditer : string -> string -> list string) (content : string)
    : Prop :=
  all_blank finditer content (error_patterns ++ solution_patterns)%list.

(** *** Fixtures for the examples *)

(** A matcher for transcripts of one line "error: ...". *)
Definition finditer_demo (pattern content : string) : list string :=
  if (pattern =? "error[:\s]+(.*?)(?:\n|$)") && startswith content "error: " then
    [drop 7 content]
  else [].

End Analyzer.

(** ** Startup and health checks of [mcp_server.py] (lines 85-189) *)

Module Lifespan.
Import Mcp.

(** [d[k] = v]: in place for a key of [d], at the end otherwise. *)
Fixpoint set_key (d : dict) (k : string) (v : value) : dict :=
  match d with
  | [] => [(k, v)]
  | (k', v') :: rest => if k =? k' then (k', v) :: rest else (k', v') :: set_key rest k v
  end.

Section Server.

(** The environment: the values of [time.time()], the session manager
    and the service client (opaque to this module), the clock, the
    readings of [time.time()], what the [n]-th call (from 0) of
    [get_session_manager] and of [get_mcp_service_client] does, and what
    the [n]-th [health_check] of a service client does. *)
Variable Time : Type.
Variable SessionManager : Type.
Variable ServiceClient : Type.
Variable c : Clock.clock.
Variable time_time : nat -> Time.
Variable get_session_manager : nat -> exn + SessionManager.
Variable get_mcp_service_client : nat -> exn + ServiceClient.
Variable health_check : ServiceClient -> nat -> outcome.

(** The dataclass [ArchonContext]. *)
Record ArchonContext : Type := {
  service_client : ServiceClient;
  health_status : dict;
  startup_time : Time
}.

(** The module's globals and what the process has consumed of the
    environment. *)
Record process : Type := {
  _initialization_complete : bool;
  _shared_context : option ArchonContext;
  ticks : nat;
  time_reads : nat;
  manager_calls : nat;
  client_calls : nat;
  health_calls : nat
}.

(** [ArchonContext(service_client=service_client)], with
    [__post_init__]. *)
Definition new_context (client : ServiceClient) (p : process) : ArchonContext * process :=
  ({| service_client := client;
      health_status :=
        [("status", PStr "healthy"); ("api_service", PBool false);
         ("agents_service", PBool false); ("last_health_check", PNone)];
      startup_time := time_time (time_reads p) |},
   {| _initialization_complete := _initialization_complete p;
      _shared_context := _shared_context p;
      ticks := ticks p; time_reads := S (time_reads p);
      manager_calls := manager_calls p; client_calls := client_calls p;
      health_calls := health_calls p |}).

(** [perform_health_checks]: the context after it (its [health_status]
    is changed in place) and the process.  [service_health.get] raises
    AttributeError for a value that is not a dictionary. *)
Definition perform_health_checks (context : ArchonContext) (p : process)
    : ArchonContext * process :=
  let service_health := health_check (service_client context) (health_calls p) in
  let '(reading, tick1) := Clock.now c (ticks p) in
  let status :=
    match service_health with
    | Return (PDict d) =>
        let status :=
          set_key (health_status context) "api_service"
            (get_default d "api_service" (PBool false)) in
        let status :=
          set_key status "agents_service" (get_default d "agents_service" (PBool false)) in
        let all_critical_ready := get status "api_service" in
        let status :=
          set_key status "status"
            (PStr (if truthy all_critical_ready then "healthy" else "degraded")) in
        set_key status "last_health_check" (PStr (Clock.isoformat reading))
    | _ =>
        let status := set_key (health_status context) "status" (PStr "unhealthy") in
        set_key status "last_health_check" (PStr (Clock.isoformat reading))
    end in
  ({| service_client := service_client context; health_status := status;
      startup_time := startup_time context |},
   {| _initialization_complete := _initialization_complete p;
      _shared_context := _shared_context p;
      ticks := tick1; time_reads := time_reads p;
      manager_calls := manager_calls p; client_calls := client_calls p;
      health_calls := S (health_calls p) |}).

(** [lifespan] up to its [yield]: the context it yields, or the
    exception it raises again. *)
Definition lifespan (p : process) : (exn + ArchonContext) * process :=
  match _initialization_complete p, _shared_context p with
  | true, Some shared => (inr shared, p)
  | _, _ =>
      let called (managers clients : nat) : process :=
        {| _initialization_complete := _initialization_complete p;
           _shared_context := _shared_context p;
           ticks := ticks p; time_reads := time_reads p;
           manager_calls := managers; client_calls := clients;
           health_calls := health_calls p |} in
      match get_session_manager (manager_calls p) with
      | inl e => (inl e, called (S (manager_calls p)) (client_calls p))
      | inr session_manager =>
          match get_mcp_service_client (client_calls p) with
          | inl e => (inl e, called (S (manager_calls p)) (S (client_calls p)))
          | inr client =>
              let '(context, p1) :=
                new_context client (called (S (manager_calls p)) (S (client_calls p))) in
              let '(context, p2) := perform_health_checks context p1 in
              (inr context,
               {| _initialization_complete := true;
                  _shared_context := Some context;
                  ticks := ticks p2; time_reads := time_reads p2;
                  manager_calls := manager_calls p2; client_calls := client_calls p2;
                  health_calls := health_calls p2 |})
          end
      end
  end.

End Server.

Arguments service_client {Time ServiceClient} _.
Arguments health_status {Time ServiceClient} _.
Arguments startup_time {Time ServiceClient} _.
Arguments _initialization_complete {Time ServiceClient} _.
Arguments _shared_context {Time ServiceClient} _.
Arguments ticks {Time ServiceClient} _.
Arguments time_reads {Time ServiceClient} _.
Arguments manager_calls {Time ServiceClient} _.
Arguments client_calls {Time ServiceClient} _.
Arguments health_calls {Time ServiceClient} _.
Arguments new_context {Time ServiceClient} time_time client p.
Arguments perform_health_checks {Time ServiceClient} c health_check context p.
Arguments lifespan {Time SessionManager ServiceClient} c time_time get_session_manager
  get_mcp_service_client health_check p.

(** The three values of "status". *)
Definition statuses : list value := [PStr "healthy"; PStr "degraded"; PStr "unhealthy"].

End Lifespan.

(** * Properties *)

(** ** The JSON-RPC bridge *)

Module McpSpec.
Import Mcp.

Section Bridge.

Variable ArchonContext : Type.
Variable json_loads : string -> string + value.
Variable py_repr : value -> string.

Lemma unwrap_result_of v r :
  result_of json_loads v r -> unwrap_result json_loads v = Return r.
Proof.
  intros [s r' H | v' H]; cbn.
  - now rewrite H.
  - destruct v'; try reflexivity; discriminate.
Qed.

Lemma truthy_str m : m <> "" -> truthy (PStr m) = true.
Proof.
  intros H; cbn. destruct (String.eqb_spec m ""); [contradiction | reflexivity].
Qed.

Lemma call_handler_kwargs ctx m (t : Tool ArchonContext) params kwargs :
  kwargs_of params = Some kwargs ->
  call_handler ArchonContext ctx m t params = (fn t ctx kwargs, [(m, kwargs)]).
Proof.
  unfold kwargs_of, call_handler. destruct (truthy params).
  - destruct params; intros H; try discriminate. now inversion H.
  - intros H. now inversion H.
Qed.

(** C1, as the code has it: for a request object with jsonrpc "2.0",
    whose method is the name of a registered tool and whose params can
    be passed as keyword arguments, if the handler returns (rather than
    raises) and a returned string is JSON text, the endpoint enters the
    handler exactly once and replies with the success envelope carrying
    the request's id and the handler's result, decoded when it was a
    string and unchanged otherwise. *)
Theorem dispatch_success tools ctx d m t kwargs returned r :
  eq_str (get d "jsonrpc") "2.0" = true ->
  get d "method" = PStr m ->
  m <> "" ->
  lookup m tools = Some t ->
  kwargs_of (get_default d "params" (PDict [])) = Some kwargs ->
  fn t ctx kwargs = Return returned ->
  result_of json_loads returned r ->
  mcp_http_endpoint ArchonContext json_loads py_repr tools ctx (Body (PDict d))
  = (JSONResponse (PDict [("jsonrpc", PStr "2.0"); ("id", get d "id"); ("result", r)]),
     [(m, kwargs)]).
Proof.
  intros Hv Hm Hne Ht Hk Hf Hr.
  unfold mcp_http_endpoint, dispatch.
  rewrite Hv, Hm, (truthy_str m Hne). cbn [negb find_tool fmt].
  rewrite Ht. unfold execute_tool.
  rewrite (call_handler_kwargs ctx m t _ kwargs Hk), Hf.
  now rewrite (unwrap_result_of _ _ Hr).
Qed.

(** The other side of C1: when the handler raises, or returns a string
    that is not JSON text, the handler has still been entered once and
    the reply is an error envelope, -32602 for a TypeError and -32000 for
    anything else. *)
Lemma handler_failure tools ctx d m t kwargs e :
  eq_str (get d "jsonrpc") "2.0" = true ->
  get d "method" = PStr m ->
  m <> "" ->
  lookup m tools = Some t ->
  kwargs_of (get_default d "params" (PDict [])) = Some kwargs ->
  match fn t ctx kwargs with
  | Return returned => unwrap_result json_loads returned = Raise e
  | Raise raised => raised = e
  end ->
  exists code message data,
    mcp_http_endpoint ArchonContext json_loads py_repr tools ctx (Body (PDict d))
    = (JSONResponse (failure (get d "id") code message (Some data)), [(m, kwargs)])
    /\ code = match e with TypeError _ => (-32602)%Z | _ => (-32000)%Z end.
Proof.
  intros Hv Hm Hne Ht Hk Hf.
  unfold mcp_http_endpoint, dispatch.
  rewrite Hv, Hm, (truthy_str m Hne). cbn [negb find_tool fmt].
  rewrite Ht. unfold execute_tool.
  rewrite (call_handler_kwargs ctx m t _ kwargs Hk).
  destruct (fn t ctx kwargs) as [returned | raised].
  - rewrite Hf. destruct e; eexists _, _, _; split; reflexivity.
  - subst raised. destruct e; eexists _, _, _; split; reflexivity.
Qed.

(** C2, as the code has it: for a request object with jsonrpc "2.0"
    whose method is a non-empty string that is not a key of the
    registry, the endpoint enters no handler and replies with error
    -32601, the message "Method not found: <method>", the request's id
    and the registry's method names as data. *)
Theorem method_not_found tools ctx d m :
  eq_str (get d "jsonrpc") "2.0" = true ->
  get d "method" = PStr m ->
  m <> "" ->
  lookup m tools = None ->
  mcp_http_endpoint ArchonContext json_loads py_repr tools ctx (Body (PDict d))
  = (JSONResponse
       (PDict [("jsonrpc", PStr "2.0"); ("id", get d "id");
               ("error", PDict [("code", PInt (-32601));
                                ("message", PStr ("Method not found: " ++ m));
                                ("data", PDict [("available_methods",
                                                 PList (map PStr (keys tools)))])])]),
     []).
Proof.
  intros Hv Hm Hne Ht.
  unfold mcp_http_endpoint, dispatch.
  rewrite Hv, Hm, (truthy_str m Hne). cbn [negb find_tool fmt].
  now rewrite Ht.
Qed.

(** A body that is not JSON: error -32700 with a null id, no handler. *)
Lemma parse_error tools ctx msg :
  mcp_http_endpoint ArchonContext json_loads py_repr tools ctx (BodyRaises (JSONDecodeError msg))
  = (JSONResponse
       (PDict [("jsonrpc", PStr "2.0"); ("id", PNone);
               ("error", PDict [("code", PInt (-32700));
                                ("message", PStr "Parse error: Invalid JSON")])]),
     []).
Proof. reflexivity. Qed.

(** Any other failure to read the body (bytes that are not text, a
    dropped connection): error -32603 with a null id, no handler. *)
Lemma unreadable_body tools ctx class_name msg :
  mcp_http_endpoint ArchonContext json_loads py_repr tools ctx
    (BodyRaises (Other class_name msg))
  = (JSONResponse
       (PDict [("jsonrpc", PStr "2.0"); ("id", PNone);
               ("error", PDict [("code", PInt (-32603));
                                ("message", PStr ("Internal error: " ++ msg))])]),
     []).
Proof. reflexivity. Qed.

(** An object whose jsonrpc field is not "2.0": error -32600 with the
    validation message and the object's id, no handler. *)
Lemma wrong_version tools ctx d :
  eq_str (get d "jsonrpc") "2.0" = false ->
  mcp_http_endpoint ArchonContext json_loads py_repr tools ctx (Body (PDict d))
  = (JSONResponse
       (PDict [("jsonrpc", PStr "2.0"); ("id", get d "id");
               ("error", PDict [("code", PInt (-32600));
                                ("message", PStr "Must be JSON-RPC 2.0")])]),
     []).
Proof.
  intros H. unfold mcp_http_endpoint, dispatch. now rewrite H.
Qed.

(** An object with jsonrpc "2.0" and no (or a falsy) method: error
    -32600 with the validation message and the object's id, no handler. *)
Lemma missing_method tools ctx d :
  eq_str (get d "jsonrpc") "2.0" = true ->
  truthy (get d "method") = false ->
  mcp_http_endpoint ArchonContext json_loads py_repr tools ctx (Body (PDict d))
  = (JSONResponse
       (PDict [("jsonrpc", PStr "2.0"); ("id", get d "id");
               ("error", PDict [("code", PInt (-32600));
                                ("message", PStr "Missing 'method' field")])]),
     []).
Proof.
  intros Hv Hm. unfold mcp_http_endpoint, dispatch. now rewrite Hv, Hm.
Qed.

(** C3 at a body that is JSON but not an object (an array, a number, a
    string, a boolean, null): the validation raises HTTPException, and
    the handler that should turn it into the -32600 envelope evaluates
    [body.get("id")] on that body, so AttributeError leaves the endpoint
    and no JSON-RPC envelope is returned. *)
Theorem non_object_body_escapes tools ctx body :
  is_dict body = false ->
  mcp_http_endpoint ArchonContext json_loads py_repr tools ctx (Body body)
  = (Escapes (AttributeError ("'" ++ type_name body ++ "' object has no attribute 'get'")),
     []).
Proof.
  intros H. destruct body; try reflexivity. discriminate.
Qed.

End Bridge.

(** Witness for C1: "ping" answers with the JSON text of an empty object. *)
Lemma dispatch_success_witness :
  demo_endpoint (Body (demo_request 1 "ping"))
  = (JSONResponse (PDict [("jsonrpc", PStr "2.0"); ("id", PInt 1); ("result", PDict [])]),
     [("ping", [])]).
Proof.
  apply (dispatch_success unit json_loads_demo py_repr_demo demo_tools None
           [("jsonrpc", PStr "2.0"); ("id", PInt 1); ("method", PStr "ping")]
           "ping" (Build_Tool "ping" (fun _ _ => Return (PStr "{}"))) [] (PStr "{}") (PDict []));
    try reflexivity.
  - discriminate.
  - now constructor.
Defined.

(** C1 as stated fails: the registered tool "boom" is entered once with
    matching (no) params and raises, and the registered tool
    "status_text" returns a string that is not JSON text; both replies
    are error envelopes with code -32000, not success envelopes. *)
Lemma dispatch_success_counterexample :
  demo_endpoint (Body (demo_request 1 "boom"))
  = (JSONResponse
       (PDict [("jsonrpc", PStr "2.0"); ("id", PInt 1);
               ("error", PDict [("code", PInt (-32000));
                                ("message", PStr "Tool execution failed: backend unreachable");
                                ("data", PDict [("method", PStr "boom");
                                                ("error_type", PStr "RuntimeError")])])]),
     [("boom", [])])
  /\ demo_endpoint (Body (demo_request 2 "status_text"))
  = (JSONResponse
       (PDict [("jsonrpc", PStr "2.0"); ("id", PInt 2);
               ("error", PDict [("code", PInt (-32000));
                                ("message", PStr "Tool execution failed: Expecting value: line 1 column 1 (char 0)");
                                ("data", PDict [("method", PStr "status_text");
                                                ("error_type", PStr "JSONDecodeError")])])]),
     [("status_text", [])]).
Proof. split; reflexivity. Qed.

(** C3 at the body [[]]: no reply, AttributeError. *)
Lemma non_object_body_escapes_witness :
  demo_endpoint (Body (PList []))
  = (Escapes (AttributeError "'list' object has no attribute 'get'"), []).
Proof.
  exact (non_object_body_escapes unit json_loads_demo py_repr_demo demo_tools None
           (PList []) eq_refl).
Defined.

(** Witness for C2: "nope" is not registered. *)
Lemma method_not_found_witness :
  demo_endpoint (Body (demo_request 3 "nope"))
  = (JSONResponse
       (PDict [("jsonrpc", PStr "2.0"); ("id", PInt 3);
               ("error", PDict [("code", PInt (-32601));
                                ("message", PStr "Method not found: nope");
                                ("data", PDict [("available_methods",
                                                 PList [PStr "ping"; PStr "echo";
                                                        PStr "status_text"; PStr "boom"])])])]),
     []).
Proof.
  apply (method_not_found unit json_loads_demo py_repr_demo demo_tools None
           [("jsonrpc", PStr "2.0"); ("id", PInt 3); ("method", PStr "nope")] "nope");
    try reflexivity.
  discriminate.
Defined.

(** C2 as stated fails: a JSON-RPC 2.0 request whose method is the empty
    string, which is no key of the registry, is answered with -32600
    "Missing 'method' field", not with -32601; and one whose method is a
    list passes the validation and is answered with -32603, because the
    registry lookup cannot hash it. *)
Lemma method_not_found_counterexample :
  lookup "" demo_tools = None
  /\ demo_endpoint (Body (demo_request 4 ""))
     = (JSONResponse
          (PDict [("jsonrpc", PStr "2.0"); ("id", PInt 4);
                  ("error", PDict [("code", PInt (-32600));
                                   ("message", PStr "Missing 'method' field")])]),
        [])
  /\ demo_endpoint
       (Body (PDict [("jsonrpc", PStr "2.0"); ("id", PInt 5);
                     ("method", PList [PStr "nope"])]))
     = (JSONResponse
          (PDict [("jsonrpc", PStr "2.0"); ("id", PInt 5);
                  ("error", PDict [("code", PInt (-32603));
                                   ("message",
                                    PStr "Internal error: unhashable type: 'list'")])]),
        []).
Proof. repeat split. Qed.

End McpSpec.

(** ** The crawler manager *)

Module CrawlerSpec.
Import Crawler.

Lemma attrs_set_attrs self m p : attrs (set_attrs self m p) self = m.
Proof. cbn. now rewrite Nat.eqb_refl. Qed.

Lemma instance_kept self o p a :
  _instance p = Some a -> _instance (step self p o) = Some a.
Proof.
  intros H. destruct o as [ | env | env | aexit]; cbn.
  - unfold new. now rewrite H.
  - unfold get_crawler, initialize, start_browser_crawler.
    destruct (is_ready (attrs p self)); cbn; [assumption | ].
    destruct (crawl4ai_imported env), (configure_browser env), (crawler_constructor env),
      (crawler_aenter env), (fallback_aenter env); cbn; assumption.
  - unfold initialize, start_browser_crawler.
    destruct (is_ready (attrs p self)); cbn; [assumption | ].
    destruct (crawl4ai_imported env), (configure_browser env), (crawler_constructor env),
      (crawler_aenter env), (fallback_aenter env); cbn; assumption.
  - unfold cleanup. destruct (_ && _); cbn; assumption.
Qed.

Lemma instance_kept_run self ops : forall p a,
  _instance p = Some a -> _instance (run self ops p) = Some a.
Proof.
  induction ops as [ | o ops IH]; intros p a H; cbn; [assumption | ].
  apply IH. now apply instance_kept.
Qed.

Lemma new_sets_instance p : _instance (snd (new p)) = Some (fst (new p)).
Proof. unfold new. destruct (_instance p) eqn:E; cbn; [assumption | reflexivity]. Qed.

(** A successful [initialize] leaves the manager ready. *)
Lemma initialize_ok_ready env self p p1 :
  initialize env self p = (Ok tt, p1) -> is_ready (attrs p1 self) = true.
Proof.
  unfold initialize, start_browser_crawler.
  destruct (is_ready (attrs p self)) eqn:R.
  - intros H. inversion H. now subst.
  - destruct (crawl4ai_imported env), (configure_browser env), (crawler_constructor env),
      (crawler_aenter env), (fallback_aenter env); cbn;
      intros H; inversion H; unfold is_ready; cbn; now rewrite !Nat.eqb_refl.
Qed.

(** On a ready manager every call but [cleanup] leaves the attributes and
    the count of initialization runs as they are. *)
Lemma ready_step self p o :
  is_ready (attrs p self) = true -> is_cleanup o = false ->
  attrs (step self p o) self = attrs p self
  /\ init_runs (step self p o) = init_runs p.
Proof.
  intros R C. destruct o as [ | env | env | aexit]; cbn; try discriminate.
  - unfold new. destruct (_instance p); cbn; auto.
  - unfold get_crawler. rewrite R. cbn. auto.
  - unfold initialize. rewrite R. cbn. auto.
Qed.

Lemma ready_run self ops : forall p,
  is_ready (attrs p self) = true -> forallb (fun o => negb (is_cleanup o)) ops = true ->
  attrs (run self ops p) self = attrs p self
  /\ init_runs (run self ops p) = init_runs p.
Proof.
  unfold run. induction ops as [ | o ops IH]; intros p R C; cbn; [auto | ].
  cbn in C. apply andb_true_iff in C as [Co Cops].
  apply negb_true_iff in Co.
  destruct (ready_step self p o R Co) as [Ha Hn].
  destruct (IH (step self p o)) as [Ha' Hn']; [now rewrite Ha | assumption | ].
  split; [now rewrite Ha' | now rewrite Hn'].
Qed.

(** C7, as the code has it.  (1) From the first evaluation of
    [CrawlerManager()] on, every later evaluation, after any calls at
    all, returns the same object.  (2) Once [initialize] has succeeded,
    every later [get_crawler] that is not preceded by a [cleanup] returns
    the crawler object that [initialize] left, and changes nothing: in
    particular initialization has not run again, neither in that call
    nor in the calls between. *)
Theorem singleton_and_lazy_init self p :
  (forall ops, fst (new (run self ops (snd (new p)))) = fst (new p))
  /\ (forall env p1 ops env',
        initialize env self p = (Ok tt, p1) ->
        forallb (fun o => negb (is_cleanup o)) ops = true ->
        exists c,
          _crawler (attrs p1 self) = Some c
          /\ get_crawler env' self (run self ops p1) = (Ok (Some c), run self ops p1)
          /\ init_runs (run self ops p1) = init_runs p1).
Proof.
  split.
  - intros ops.
    pose proof (instance_kept_run self ops _ _ (new_sets_instance p)) as H.
    unfold new at 1. now rewrite H.
  - intros env p1 ops env' Hi Hc.
    pose proof (initialize_ok_ready _ _ _ _ Hi) as R.
    destruct (ready_run self ops p1 R Hc) as [Ha Hn].
    assert (R' : is_ready (attrs (run self ops p1) self) = true) by now rewrite Ha.
    unfold is_ready in R. destruct (_crawler (attrs p1 self)) as [c | ] eqn:E.
    + exists c. repeat split; [ | assumption].
      unfold get_crawler. rewrite R'. cbn. now rewrite Ha, E.
    + now rewrite andb_false_r in R.
Qed.

(** Witness for C7: after the import and a successful browser start, a
    second [initialize], a [CrawlerManager()] and a [get_crawler] later
    the crawler is still the first browser crawler and initialization
    ran once. *)
Lemma singleton_and_lazy_init_witness :
  fst (new (run 0 [CallInitialize env_browser_ok; CallCleanup None] (snd (new boot)))) = 0
  /\ exists c,
       _crawler (attrs (snd (initialize env_browser_ok 0 imported)) 0) = Some c
       /\ get_crawler env_all_fail 0
            (run 0 [CallInitialize env_all_fail; CallNew; CallGetCrawler env_all_fail]
               (snd (initialize env_browser_ok 0 imported)))
          = (Ok (Some c),
             run 0 [CallInitialize env_all_fail; CallNew; CallGetCrawler env_all_fail]
               (snd (initialize env_browser_ok 0 imported)))
       /\ init_runs (run 0 [CallInitialize env_all_fail; CallNew; CallGetCrawler env_all_fail]
                       (snd (initialize env_browser_ok 0 imported)))
          = init_runs (snd (initialize env_browser_ok 0 imported)).
Proof.
  split.
  - exact (proj1 (singleton_and_lazy_init 0 boot) [CallInitialize env_browser_ok; CallCleanup None]).
  - exact (proj2 (singleton_and_lazy_init 0 imported) env_browser_ok
             (snd (initialize env_browser_ok 0 imported))
             [CallInitialize env_all_fail; CallNew; CallGetCrawler env_all_fail]
             env_all_fail eq_refl eq_refl).
Defined.

(** C7 as stated fails: [initialize] succeeds and leaves browser crawler
    0; after [cleanup], [get_crawler] runs initialization a second time
    and returns another object, browser crawler 1. *)
Lemma singleton_and_lazy_init_counterexample :
  fst (initialize env_browser_ok 0 imported) = Ok tt
  /\ _crawler (attrs (snd (initialize env_browser_ok 0 imported)) 0) = Some (AsyncWebCrawler 0)
  /\ init_runs (snd (initialize env_browser_ok 0 imported)) = 1
  /\ fst (get_crawler env_browser_ok 0
            (cleanup None 0 (snd (initialize env_browser_ok 0 imported))))
     = Ok (Some (AsyncWebCrawler 1))
  /\ init_runs (snd (get_crawler env_browser_ok 0
                       (cleanup None 0 (snd (initialize env_browser_ok 0 imported)))))
     = 2.
Proof. repeat split. Qed.

(** C8.  When [initialize] goes past its guard and the browser crawler's
    start raises [e]: if the fallback's start returns, [initialize]
    returns with [_crawler] a new [FallbackCrawler], [_initialized] and
    [_using_fallback] set; if the fallback's start raises [fe],
    [initialize] raises and leaves [_crawler] None and both flags False.
    And [initialize] raises in no other case. *)
Theorem initialize_falls_back env self p :
  (forall e,
     is_ready (attrs p self) = false ->
     fst (start_browser_crawler env self (count_init_run p)) = Some e ->
     match fallback_aenter env with
     | None =>
         fst (initialize env self p) = Ok tt
         /\ exists obj,
              obj >= constructed p
              /\ attrs (snd (initialize env self p)) self
                 = {| _crawler := Some (FallbackCrawler obj);
                      _initialized := true; _using_fallback := true |}
     | Some fe =>
         fst (initialize env self p)
         = Raised ("Both Crawl4AI and fallback crawler failed: " ++ e ++ ", " ++ fe)
         /\ attrs (snd (initialize env self p)) self = reset
     end)
  /\ (forall msg,
        fst (initialize env self p) = Raised msg ->
        is_ready (attrs p self) = false
        /\ (exists e, fst (start_browser_crawler env self (count_init_run p)) = Some e)
        /\ (exists fe, fallback_aenter env = Some fe)
        /\ attrs (snd (initialize env self p)) self = reset).
Proof.
  split.
  - intros e R. unfold initialize. rewrite R. unfold start_browser_crawler.
    destruct (crawl4ai_imported env), (configure_browser env), (crawler_constructor env),
      (crawler_aenter env), (fallback_aenter env); cbn;
      intros H; inversion H; subst;
      rewrite ?Nat.eqb_refl;
      first [ split; [reflexivity | eexists; split; [ | reflexivity]; lia ]
            | split; reflexivity ].
  - intros msg. unfold initialize, start_browser_crawler.
    destruct (is_ready (attrs p self)); [discriminate | ].
    destruct (crawl4ai_imported env), (configure_browser env), (crawler_constructor env),
      (crawler_aenter env), (fallback_aenter env); cbn;
      intros H; try discriminate; rewrite ?Nat.eqb_refl;
      repeat split; eauto.
Qed.

(** Witness for C8: crawl4ai is not installed and the HTTP client starts. *)
Lemma initialize_falls_back_witness :
  fst (initialize env_browser_missing 0 imported) = Ok tt
  /\ exists obj,
       obj >= constructed imported
       /\ attrs (snd (initialize env_browser_missing 0 imported)) 0
          = {| _crawler := Some (FallbackCrawler obj);
               _initialized := true; _using_fallback := true |}.
Proof.
  exact (proj1 (initialize_falls_back env_browser_missing 0 imported)
           "crawl4ai is not installed or available" eq_refl eq_refl).
Defined.

(** Both starts fail: the browser crawler object was already stored in
    [_crawler] when its [__aenter__] raised, and is gone afterwards. *)
Example initialize_both_fail :
  fst (initialize env_all_fail 0 imported)
  = Raised "Both Crawl4AI and fallback crawler failed: Executable doesn't exist, SSL context unavailable"
  /\ attrs (snd (initialize env_all_fail 0 imported)) 0 = reset.
Proof. split; reflexivity. Qed.

End CrawlerSpec.

(** ** The learning formatter *)

Module FormatterSpec.
Import Text Formatter.

(** *** Lengths *)

Lemma length_app (a b : string) :
  String.length (a ++ b) = String.length a + String.length b.
Proof. induction a as [ | c a IH]; cbn; [reflexivity | now rewrite IH]. Qed.

Lemma length_take n : forall s, String.length (take n s) <= n.
Proof.
  unfold take. induction n as [ | n IH]; intros [ | c s]; cbn; try lia.
  specialize (IH s). lia.
Qed.

Lemma title_words_bound words : forall title,
  String.length title <= 117 -> String.length (title_words title words) <= 117.
Proof.
  induction words as [ | word words IH]; intros title H; cbn [title_words]; [assumption | ].
  destruct (Nat.leb_spec (String.length (title ++ " " ++ word)) 117) as [Hfit | _];
    [ | assumption].
  apply IH. destruct (nonempty title); [assumption | ].
  rewrite !length_app in Hfit. lia.
Qed.

(** C9.  Both title builders return at most 120 characters, whatever the
    entry, the text of the entry or the problem description. *)
Theorem title_at_most_120 (py_str : entry -> string) (e : entry) (problem_desc : string) :
  String.length (_generate_title py_str e) <= 120
  /\ String.length (_generate_title_from_problem problem_desc) <= 120.
Proof.
  split.
  - unfold _generate_title.
    match goal with |- context [Nat.ltb 120 (String.length ?t)] =>
      destruct (Nat.ltb_spec 120 (String.length t)) as [_ | Hshort]; [ | exact Hshort]
    end.
    rewrite length_app. pose proof (length_take 117 (
      if contains "error" (lower (sget (or_default (e_situation e) []) "actual_result" ""))
         || contains "failed" (lower (sget (or_default (e_situation e) []) "actual_result" ""))
      then Text.title (_infer_domain_from_entry py_str e) ++ " Error: "
           ++ take 60 (sget (or_default (e_situation e) []) "actual_result" "")
      else "Resolve: " ++ take 70 (sget (or_default (e_situation e) []) "goal" ""))).
    cbn [String.length]. lia.
  - unfold _generate_title_from_problem.
    destruct (nonempty problem_desc); cbn [negb]; [ | cbn; lia].
    match goal with |- context [Nat.leb (String.length ?t) 120] =>
      destruct (Nat.leb_spec (String.length t) 120) as [Hshort | Hlong];
        [exact Hshort | ]
    end.
    match goal with |- context [Nat.ltb 120 ?n] =>
      destruct (Nat.ltb_spec 120 n) as [_ | Hno]; [ | lia]
    end.
    rewrite length_app.
    match goal with |- context [title_words "" ?ws] =>
      pose proof (title_words_bound ws "") as Hw
    end.
    cbn [String.length] in *. lia.
Qed.

(** A description of 180 characters: punctuation is dropped and whole
    words are kept up to 117 characters, then the ellipsis. *)
Example long_description_is_cut :
  String.length (repeated 30 "disk!") = 180
  /\ _generate_title_from_problem (repeated 30 "disk!")
     = repeated 22 "disk" ++ "disk...".
Proof. vm_compute. split; reflexivity. Qed.

(** *** Keys of a dictionary under the word-count adjustment *)

Lemma keys_setitem d : forall k v, In k (keys d) -> keys (setitem d k v) = keys d.
Proof.
  induction d as [ | [k' v'] d IH]; intros k v H; cbn in *; [contradiction | ].
  destruct (String.eqb_spec k k') as [-> | Hne]; cbn; [reflexivity | ].
  f_equal. apply IH. destruct H as [H | H]; [congruence | assumption].
Qed.

Lemma keys_expand_key w d k : In k (keys d) -> keys (expand_key w d k) = keys d.
Proof.
  intros H. unfold expand_key.
  destruct (0 <? w)%nat; [ | reflexivity].
  repeat match goal with
         | |- context [if ?k' =? ?lit then _ else _] => destruct (k' =? lit)
         end; try reflexivity; now apply keys_setitem.
Qed.

Lemma keys_expand_fold w ks : forall d,
  incl ks (keys d) -> keys (fold_left (expand_key w) ks d) = keys d.
Proof.
  induction ks as [ | k ks IH]; intros d H; cbn [fold_left]; [reflexivity | ].
  assert (Hk : In k (keys d)) by (apply H; now left).
  rewrite IH; [now apply keys_expand_key | ].
  rewrite keys_expand_key by assumption.
  intros x Hx. apply H. now right.
Qed.

Lemma keys_expand_bullets bullets n : keys (_expand_bullets bullets n) = keys bullets.
Proof. unfold _expand_bullets. apply keys_expand_fold, incl_refl. Qed.

Lemma fold_max_in {A : Type} (key : A -> nat) rest : forall x,
  In (fold_left (fun best y => if (key best <? key y)%nat then y else best) rest x) (x :: rest).
Proof.
  induction rest as [ | y rest IH]; intros x; cbn [fold_left]; [now left | ].
  destruct (key x <? key y)%nat.
  - right. apply IH.
  - destruct (IH x) as [H | H]; [now left | right; now right].
Qed.

Lemma max_by_in {A : Type} (key : A -> nat) xs x : max_by key xs = Ok x -> In x xs.
Proof.
  destruct xs as [ | y rest]; cbn; intros H; [discriminate | ].
  inversion H. apply fold_max_in.
Qed.

(** The loop of [_compress_bullets] keeps the keys, and raises only on
    the empty dictionary. *)
Lemma compress_loop_keys n : forall d,
  d <> [] -> exists d', compress_loop n d = Ok d' /\ keys d' = keys d.
Proof.
  induction n as [ | n IH]; intros d Hd; cbn [compress_loop]; [now exists d | ].
  destruct (max_by (fun k => List.length (split (item d k))) (keys d)) as [k | msg] eqn:E.
  - cbn [bind]. apply max_by_in in E.
    destruct (5 <? List.length (split (item d k)))%nat; [ | now exists d].
    set (d1 := setitem d k (join " " (removelast (split (item d k))))).
    assert (K : keys d1 = keys d) by now apply keys_setitem.
    destruct (IH d1) as [d' [H1 H2]].
    + intros H0. rewrite H0 in K. destruct d; [contradiction | discriminate].
    + exists d'. split; [assumption | congruence].
  - destruct d as [ | [k v] d]; [contradiction | discriminate].
Qed.

Lemma adjust_word_count_keys bullets :
  exists adjusted, _adjust_word_count bullets = Ok adjusted /\ keys adjusted = keys bullets.
Proof.
  unfold _adjust_word_count.
  destruct (List.length (split (join " " (values bullets))) <? 120)%nat.
  - eexists. split; [reflexivity | apply keys_expand_bullets].
  - destruct (Nat.ltb_spec 200 (List.length (split (join " " (values bullets)))))
      as [Hlong | _]; [ | now exists bullets].
    apply compress_loop_keys. intros ->. cbn in Hlong. lia.
Qed.

(** 213 words are compressed to 200, all taken from the longest bullet. *)
Example wordy_bullets_compressed :
  match _adjust_word_count wordy_bullets with
  | Ok adjusted =>
      map (fun kv => (fst kv, List.length (split (snd kv)))) adjusted
      = [("symptoms", 137); ("context", 60); ("root_cause", 1); ("fix", 1);
         ("applies_when", 1)]
  | ValueError _ => False
  end.
Proof. vm_compute. reflexivity. Qed.

Lemma generate_synopsis_shape py_str e :
  exists syn, generate_synopsis py_str e = Ok syn /\ well_shaped syn.
Proof.
  unfold generate_synopsis.
  destruct (adjust_word_count_keys (_generate_bullets e)) as [b [H K]].
  rewrite H. cbn [bind]. eexists. split; [reflexivity | ].
  now exists (_generate_title py_str e), b.
Qed.

Lemma create_synopsis_shape sd :
  exists syn, create_synopsis_from_session_data sd = Ok syn /\ well_shaped syn.
Proof.
  unfold create_synopsis_from_session_data.
  destruct (or_default (debugging_experiences sd) []) as [ | exp rest].
  - eexists. split; [reflexivity | ]. now eexists _, _.
  - match goal with |- context [_adjust_word_count ?b] =>
      destruct (adjust_word_count_keys b) as [b' [H K]]
    end.
    rewrite H. cbn [bind]. eexists. split; [reflexivity | ].
    now eexists _, b'.
Qed.

(** C4.  [generate_synopsis] and [create_synopsis_from_session_data]
    return (they do not raise) for every entry and every session data,
    and what they return has a title and bullets whose keys are exactly
    symptoms, context, root_cause, fix, applies_when; the word-count
    adjustment, expanding or compressing, returns a dictionary with the
    keys it was given. *)
Theorem synopsis_has_five_bullets (py_str : entry -> string) (e : entry)
    (sd : session_data) (bullets : strdict) :
  (exists syn, generate_synopsis py_str e = Ok syn /\ well_shaped syn)
  /\ (exists syn, create_synopsis_from_session_data sd = Ok syn /\ well_shaped syn)
  /\ (exists adjusted,
        _adjust_word_count bullets = Ok adjusted /\ keys adjusted = keys bullets)
  /\ (forall n, keys (_expand_bullets bullets n) = keys bullets)
  /\ (forall n compressed,
        _compress_bullets bullets n = Ok compressed -> keys compressed = keys bullets).
Proof.
  repeat split.
  - apply generate_synopsis_shape.
  - apply create_synopsis_shape.
  - apply adjust_word_count_keys.
  - intros n. apply keys_expand_bullets.
  - intros n compressed H. unfold _compress_bullets in H.
    destruct bullets as [ | kv rest].
    + destruct n; cbn in H; [now inversion H | discriminate].
    + destruct (compress_loop_keys n (kv :: rest)) as [d' [H1 H2]]; [discriminate | ].
      rewrite H1 in H. now inversion H; subst.
Qed.

(** *** The entries of a session *)

Lemma extract_embedding_ok sd : exists fields, extract_embedding_field_content sd = Ok fields.
Proof.
  unfold extract_embedding_field_content.
  destruct (or_default (debugging_experiences sd) []) as [ | exp rest] eqn:E;
    [now eexists | ].
  destruct (create_synopsis_shape sd) as [syn [H _]].
  rewrite H. cbn [bind]. now eexists.
Qed.

Lemma base_fields_keys e entry_id timestamp :
  has_base_fields e entry_id timestamp -> incl base_keys (entry_keys e).
Proof.
  intros (H1 & H2 & H3 & H4 & H5 & H6 & H7). unfold entry_keys.
  rewrite H1, H2, H3, H4, H5, H6, H7. cbn.
  intros k Hk. cbn in Hk.
  repeat (destruct Hk as [<- | Hk]; [repeat (first [left; reflexivity | right]) | ]).
  contradiction.
Qed.

Lemma create_single_ok py_str exp entry_id timestamp sd generator :
  exists e,
    _create_single_learning_entry py_str exp entry_id timestamp sd generator = Ok e
    /\ has_base_fields e entry_id timestamp.
Proof.
  unfold _create_single_learning_entry.
  destruct generator as [g | ]; [ | eexists; split; [reflexivity | now repeat split]].
  destruct sd as [session | ].
  - destruct (session_truthy session).
    + destruct (create_synopsis_shape session) as [syn [Hs _]].
      destruct (extract_embedding_ok session) as [fields Hf].
      rewrite Hs. cbn [bind]. rewrite Hf. cbn [bind].
      eexists; split; [reflexivity | now repeat split].
    + match goal with |- context [generate_synopsis py_str ?b] =>
        destruct (generate_synopsis_shape py_str b) as [syn [Hs _]]
      end.
      rewrite Hs. cbn [bind]. eexists; split; [reflexivity | now repeat split].
  - match goal with |- context [generate_synopsis py_str ?b] =>
      destruct (generate_synopsis_shape py_str b) as [syn [Hs _]]
    end.
    rewrite Hs. cbn [bind]. eexists; split; [reflexivity | now repeat split].
Qed.

Lemma entries_from_spec py_str c sd generator experiences : forall tick i,
  exists entries,
    fst (entries_from py_str c tick sd generator i experiences) = Ok entries
    /\ List.length entries = List.length experiences
    /\ forall k exp,
         nth_error experiences k = Some exp ->
         exists e timestamp,
           nth_error entries k = Some e
           /\ _create_single_learning_entry py_str exp (entry_id_of (i + k)) timestamp
                (Some sd) generator = Ok e
           /\ has_base_fields e (entry_id_of (i + k)) timestamp.
Proof.
  induction experiences as [ | exp rest IH]; intros tick i; cbn [entries_from].
  - exists []. repeat split. intros [ | k] exp' H; discriminate.
  - unfold Clock.now.
    destruct (create_single_ok py_str exp (entry_id_of i)
                (or_default (sd_timestamp sd) (Clock.isoformat (c tick)))
                (Some sd) generator) as [e [He Hb]].
    rewrite He.
    destruct (IH (S tick) (S i)) as [entries [H1 [H2 H3]]].
    destruct (entries_from py_str c (S tick) sd generator (S i) rest) as [[es | msg] tick2];
      cbn in H1; [ | discriminate].
    inversion H1; subst es. exists (e :: entries). cbn [fst List.length].
    split; [reflexivity | ].
    split; [now rewrite H2 | ].
    intros [ | k] exp' Hk; cbn [nth_error] in *.
    + inversion Hk; subst exp'. rewrite Nat.add_0_r.
      eexists e, _. split; [reflexivity | split; [exact He | exact Hb]].
    + destruct (H3 k exp' Hk) as [e' [ts' H']].
      replace (i + S k) with (S i + k) by lia. now exists e', ts'.
Qed.

(** C5.  [create_learning_entries] returns, for every session data, one
    entry per debugging experience, in the same order: the entry at
    position [k] (from 0) is the one [_create_single_learning_entry]
    builds from the experience at position [k] under the id "L" followed
    by [k+1] padded with zeros to three digits, and it has the keys id,
    timestamp, trigger, situation, debug_journey, resolution and
    knowledge_synthesis. *)
Theorem one_entry_per_experience (py_str : entry -> string) (c : Clock.clock) (tick : nat)
    (sd : session_data) (use_v2_format : bool) :
  exists entries,
    fst (create_learning_entries py_str c tick sd use_v2_format) = Ok entries
    /\ List.length entries = List.length (or_default (debugging_experiences sd) [])
    /\ forall k exp,
         nth_error (or_default (debugging_experiences sd) []) k = Some exp ->
         exists e timestamp,
           nth_error entries k = Some e
           /\ _create_single_learning_entry py_str exp ("L" ++ zero_pad 3 (S k)) timestamp
                (Some sd) (if use_v2_format then Some SynopsisGenerator_new else None) = Ok e
           /\ e_id e = Some ("L" ++ zero_pad 3 (S k))
           /\ incl base_keys (entry_keys e).
Proof.
  unfold create_learning_entries.
  destruct (entries_from_spec py_str c sd
              (if use_v2_format then Some SynopsisGenerator_new else None)
              (or_default (debugging_experiences sd) []) tick 1) as [entries [H1 [H2 H3]]].
  exists entries. repeat split; try assumption.
  intros k exp Hk. destruct (H3 k exp Hk) as [e [ts [Hn [Hc Hb]]]].
  exists e, ts. change (entry_id_of (1 + k)) with ("L" ++ zero_pad 3 (S k)) in *.
  repeat split; try assumption.
  - apply Hb.
  - eapply base_fields_keys, Hb.
Qed.

Example entry_ids :
  entry_id_of 1 = "L001" /\ entry_id_of 42 = "L042" /\ entry_id_of 1000 = "L1000".
Proof. repeat split. Qed.

Example demo_entry_ids :
  match fst (create_learning_entries py_str_demo Clock.demo_clock 0 demo_session true) with
  | Ok entries => map e_id entries = [Some "L001"; Some "L002"]
  | ValueError _ => False
  end.
Proof. vm_compute. reflexivity. Qed.

(** *** Independence of the clock *)

Lemma entries_from_clock py_str sd generator ts experiences :
  sd_timestamp sd = Some ts ->
  forall i c1 tick1 c2 tick2,
    fst (entries_from py_str c1 tick1 sd generator i experiences)
    = fst (entries_from py_str c2 tick2 sd generator i experiences).
Proof.
  intros Hts. induction experiences as [ | exp rest IH]; intros i c1 tick1 c2 tick2;
    cbn [entries_from]; [reflexivity | ].
  unfold Clock.now. rewrite Hts. cbn [or_default].
  destruct (_create_single_learning_entry py_str exp (entry_id_of i) ts (Some sd) generator);
    [ | reflexivity].
  specialize (IH (S i) c1 (S tick1) c2 (S tick2)).
  destruct (entries_from py_str c1 (S tick1) sd generator (S i) rest) as [[es1 | m1] t1],
           (entries_from py_str c2 (S tick2) sd generator (S i) rest) as [[es2 | m2] t2];
    cbn in *; congruence.
Qed.

(** C6.  For session data with a "timestamp" key, the entries
    [create_learning_entries] returns depend on the session data and the
    format flag alone: whatever the clock shows and however many times it
    has been read, two calls with equal arguments return equal lists. *)
Theorem deterministic_with_timestamp (py_str : entry -> string) (sd : session_data)
    (use_v2_format : bool) (ts : string) :
  sd_timestamp sd = Some ts ->
  forall c1 tick1 c2 tick2,
    fst (create_learning_entries py_str c1 tick1 sd use_v2_format)
    = fst (create_learning_entries py_str c2 tick2 sd use_v2_format).
Proof.
  intros Hts c1 tick1 c2 tick2. unfold create_learning_entries.
  now apply entries_from_clock with (ts := ts).
Qed.

(** Witness for C6: the demo session, read a year apart. *)
Lemma deterministic_with_timestamp_witness :
  fst (create_learning_entries py_str_demo Clock.demo_clock 0 demo_session true)
  = fst (create_learning_entries py_str_demo later_clock 7 demo_session true).
Proof.
  exact (deterministic_with_timestamp py_str_demo demo_session true "2024-03-05T14:07:09"
           eq_refl Clock.demo_clock 0 later_clock 7).
Defined.

(** Without the key the clock shows: the entries carry its readings. *)
Example undated_entries_follow_the_clock :
  match fst (create_learning_entries py_str_demo Clock.demo_clock 0 undated_session true),
        fst (create_learning_entries py_str_demo later_clock 7 undated_session true) with
  | Ok es1, Ok es2 =>
      map e_timestamp es1 = [Some "2024-03-05T14:07:09"; Some "2024-03-05T14:07:10"]
      /\ map e_timestamp es2 = [Some "2025-03-05T14:07:16"; Some "2025-03-05T14:07:17"]
  | _, _ => False
  end.
Proof. vm_compute. split; reflexivity. Qed.

End FormatterSpec.

(** ** The knowledge storage *)

Module StorageSpec.
Import Text Formatter Storage.

Lemma write_has fs : forall path content, lookup path (write fs path content) = Some content.
Proof.
  induction fs as [ | [p old] fs IH]; intros path content; cbn.
  - now rewrite String.eqb_refl.
  - destruct (String.eqb_spec path p) as [-> | Hne]; cbn.
    + now rewrite String.eqb_refl.
    + destruct (String.eqb_spec path p); [contradiction | apply IH].
Qed.

Section WithEnvironment.

Variable c : Clock.clock.
Variable strptime_HMS : string -> option (nat * nat * nat).
Variable project_root : string.
Variable cwd_basename : string.

(** C10.  [save_learning_file] and [get_learning_file_paths] raise
    ValueError exactly on the empty list.  On the empty list
    [save_learning_file] leaves the file system as it was.  On every
    other list [save_learning_file] returns a file path, at which the file
    then exists, and [get_learning_file_paths] returns a dictionary of
    the keys absolute, relative and filename and writes nothing. *)
Theorem value_error_iff_no_entries (learning_entries : list entry)
    (session_id : option string) (w : world) :
  let saved :=
    save_learning_file c strptime_HMS project_root cwd_basename learning_entries session_id w in
  let looked_up :=
    get_learning_file_paths c strptime_HMS project_root learning_entries session_id w in
  (raises_ValueError (fst saved) <-> learning_entries = [])
  /\ (raises_ValueError (fst looked_up) <-> learning_entries = [])
  /\ (learning_entries = [] -> snd saved = w)
  /\ (learning_entries <> [] ->
      exists filepath content,
        fst saved = Ok filepath /\ lookup filepath (files (snd saved)) = Some content)
  /\ (learning_entries <> [] ->
      exists d, fst looked_up = Ok d /\ keys d = ["absolute"; "relative"; "filename"])
  /\ files (snd looked_up) = files w.
Proof.
  cbv zeta. unfold save_learning_file, get_learning_file_paths, raises_ValueError.
  destruct learning_entries as [ | e rest].
  - cbn. repeat split; try (intros; eauto; congruence).
  - destruct (file_timestamp c strptime_HMS session_id (ticks w)) as [timestamp tick1].
    match goal with |- context [_generate_markdown_content ?a ?b ?c ?d ?e ?f] =>
      destruct (_generate_markdown_content a b c d e f) as [markdown_content tick2]
    end.
    cbn [fst snd files].
    repeat split; try (intros [msg H]; discriminate); try discriminate.
    + intros _. eexists _, markdown_content. split; [reflexivity | apply write_has].
    + intros _. eexists. split; reflexivity.
Qed.

End WithEnvironment.

(** Witness for C10: one entry, saved under a session id that ends in a
    time of day. *)
Lemma value_error_iff_no_entries_witness :
  exists filepath content,
    fst (save_learning_file Clock.demo_clock strptime_demo "/srv/archon/python" "archon"
           [{| e_id := Some "L001"; e_timestamp := None; e_trigger := None;
               e_situation := None; e_debug_journey := None; e_resolution := None;
               e_knowledge_synthesis := None; e_version := None; e_synopsis := None;
               e_title := None; e_embedding_fields := None |}]
           (Some "external-archon-20240305-140709") empty_world) = Ok filepath
    /\ lookup filepath
         (files (snd (save_learning_file Clock.demo_clock strptime_demo "/srv/archon/python"
                        "archon"
                        [{| e_id := Some "L001"; e_timestamp := None; e_trigger := None;
                            e_situation := None; e_debug_journey := None;
                            e_resolution := None; e_knowledge_synthesis := None;
                            e_version := None; e_synopsis := None; e_title := None;
                            e_embedding_fields := None |}]
                        (Some "external-archon-20240305-140709") empty_world)))
       = Some content.
Proof.
  refine (proj1 (proj2 (proj2 (proj2
            (value_error_iff_no_entries Clock.demo_clock strptime_demo "/srv/archon/python"
               "archon" _ (Some "external-archon-20240305-140709") empty_world)))) _).
  discriminate.
Defined.

Example saved_path :
  fst (save_learning_file Clock.demo_clock strptime_demo "/srv/archon/python" "archon"
         [{| e_id := Some "L001"; e_timestamp := None; e_trigger := None;
             e_situation := None; e_debug_journey := None; e_resolution := None;
             e_knowledge_synthesis := None; e_version := None; e_synopsis := None;
             e_title := None; e_embedding_fields := None |}]
         (Some "external-archon-20240305-140709") empty_world)
  = Ok "/srv/archon/python/knowledge/metacognition/learning-20240305-140709.md".
Proof. vm_compute. reflexivity. Qed.

Example no_entries_no_file :
  save_learning_file Clock.demo_clock strptime_demo "/srv/archon/python" "archon" [] None
    empty_world
  = (ValueError "No learning entries provided to save", empty_world).
Proof. reflexivity. Qed.

End StorageSpec.

(** * Further properties *)

(** ** The JSON-RPC bridge: every request *)

Module McpTotal.
Import Mcp.

Section Bridge.

Variable ArchonContext : Type.
Variable json_loads : string -> string + value.
Variable py_repr : value -> string.

Lemma execute_tool_envelope ctx request_id m (t : Tool ArchonContext) params :
  envelope_for request_id
    (fst (execute_tool ArchonContext json_loads ctx request_id m t params)).
Proof.
  unfold execute_tool.
  destruct (call_handler ArchonContext ctx m t params) as [[returned | e] log].
  - destruct (unwrap_result json_loads returned) as [r | e]; [constructor | ].
    destruct e; cbn; constructor; cbn; tauto.
  - destruct e; cbn; constructor; cbn; tauto.
Qed.


Lemma execute_tool_log ctx request_id m (t : Tool ArchonContext) params :
  snd (execute_tool ArchonContext json_loads ctx request_id m t params)
  = snd (call_handler ArchonContext ctx m t params).
Proof.
  unfold execute_tool.
  destruct (call_handler ArchonContext ctx m t params) as [[returned | e] log].
  - destruct (unwrap_result json_loads returned) as [r | e]; [reflexivity | ].
    now destruct e.
  - now destruct e.
Qed.

Lemma call_handler_log ctx m (t : Tool ArchonContext) params :
  snd (call_handler ArchonContext ctx m t params) = []
  \/ exists kwargs,
       kwargs_of params = Some kwargs
       /\ snd (call_handler ArchonContext ctx m t params) = [(m, kwargs)].
Proof.
  unfold call_handler, kwargs_of. destruct (truthy params).
  - destruct params; try (now left). right. now eexists.
  - right. now eexists.
Qed.

(** X2.  The endpoint enters at most one handler for a request, and enters
    one only for an object with jsonrpc "2.0" whose method is the name of
    a registered tool: the handler entered is that tool's, with the
    request's params as keyword arguments. *)
Theorem handler_entered_only_when_valid tools ctx request :
  let log := snd (mcp_http_endpoint ArchonContext json_loads py_repr tools ctx request) in
  List.length log <= 1
  /\ forall name kwargs,
       In (name, kwargs) log ->
       exists d t,
         request = Body (PDict d)
         /\ eq_str (get d "jsonrpc") "2.0" = true
         /\ get d "method" = PStr name
         /\ lookup name tools = Some t
         /\ kwargs_of (get_default d "params" (PDict [])) = Some kwargs.
Proof.
  cbv zeta. destruct request as [body | e]; [ | cbn; split; [lia | contradiction]].
  destruct body as [ | b | z | f | s | l | d];
    try (cbn; split; [lia | contradiction]).
  unfold mcp_http_endpoint, dispatch.
  destruct (eq_str (get d "jsonrpc") "2.0") eqn:V; cbn [negb];
    [ | cbn; split; [lia | contradiction]].
  destruct (truthy (get d "method")) eqn:T; cbn [negb];
    [ | cbn; split; [lia | contradiction]].
  destruct (get d "method") as [ | b | z | f | m | l | d'] eqn:M; cbn [find_tool];
    try (cbn; split; [lia | contradiction]).
  destruct (lookup m tools) as [t | ] eqn:L; [ | cbn; split; [lia | contradiction]].
  cbn [fmt].
  rewrite (surjective_pairing
             (execute_tool ArchonContext json_loads ctx (get d "id") m t
                (get_default d "params" (PDict [])))).
  cbn [snd]. rewrite execute_tool_log.
  destruct (call_handler_log ctx m t (get_default d "params" (PDict []))) as [E | [kw [K E]]];
    rewrite E; cbn; (split; [lia | ]); [contradiction | ].
  intros name kwargs [H | []]. inversion H; subst. now exists d, t.
Qed.

End Bridge.

End McpTotal.

(** ** The crawler manager: cleanup and the fallback flag *)

Module CrawlerMore.
Import Crawler.

(** X3.  [get_crawler] hands back a crawler or raises: when it returns, what it
    returns is not None and the manager is ready, so the module-level
    [get_crawler] never logs its warning. *)
Theorem get_crawler_never_none env self p :
  (forall c p1,
     get_crawler env self p = (Ok c, p1) ->
     (exists crawler, c = Some crawler) /\ is_ready (attrs p1 self) = true)
  /\ snd (fst (module_get_crawler env self p)) = false.
Proof.
  assert (G : forall c p1,
             get_crawler env self p = (Ok c, p1) ->
             (exists crawler, c = Some crawler) /\ is_ready (attrs p1 self) = true).
  { intros c p1. unfold get_crawler.
    destruct (is_ready (attrs p self)) eqn:R; cbn [negb].
    - intros H. inversion H; subst. split; [ | assumption].
      unfold is_ready in R. destruct (_crawler (attrs p1 self)); [eauto | ].
      now rewrite andb_false_r in R.
    - destruct (initialize env self p) as [[[] | msg] p'] eqn:I; [ | discriminate].
      intros H. inversion H; subst.
      pose proof (CrawlerSpec.initialize_ok_ready _ _ _ _ I) as R'.
      split; [ | assumption].
      unfold is_ready in R'. destruct (_crawler (attrs p1 self)); [eauto | ].
      now rewrite andb_false_r in R'. }
  split; [exact G | ].
  unfold module_get_crawler.
  destruct (get_crawler env self p) as [[c | msg] p1] eqn:E; [ | reflexivity].
  destruct (G c p1 eq_refl) as [[crawler ->] _]. reflexivity.
Qed.

(** Witness: the first [get_crawler] after the import starts the browser
    crawler. *)
Lemma get_crawler_never_none_witness :
  (exists crawler, Some (AsyncWebCrawler 0) = Some crawler)
  /\ is_ready (attrs (snd (get_crawler env_browser_ok 0 imported)) 0) = true.
Proof.
  exact (proj1 (get_crawler_never_none env_browser_ok 0 imported)
           (Some (AsyncWebCrawler 0)) (snd (get_crawler env_browser_ok 0 imported)) eq_refl).
Defined.


(** X5.  [_using_fallback] is set by a successful fallback start and cleared
    only when both starts fail: neither [cleanup] nor a later successful
    start of the browser crawler touches it.  So after a fallback start,
    a [cleanup] and a successful browser start the manager holds a
    browser crawler while [_using_fallback] is still True. *)
Theorem using_fallback_outlives_the_fallback env_down env_up aexit self p :
  is_ready (attrs p self) = false ->
  (exists e, fst (start_browser_crawler env_down self (count_init_run p)) = Some e) ->
  fallback_aenter env_down = None ->
  (forall q, fst (start_browser_crawler env_up self q) = None) ->
  let p1 := snd (initialize env_down self p) in
  let p2 := cleanup aexit self p1 in
  let p3 := snd (initialize env_up self p2) in
  _using_fallback (attrs p1 self) = true
  /\ _using_fallback (attrs p2 self) = true
  /\ (exists obj, _crawler (attrs p3 self) = Some (AsyncWebCrawler obj))
  /\ _initialized (attrs p3 self) = true
  /\ _using_fallback (attrs p3 self) = true.
Proof.
  intros R [e Hdown] Hfb Hup. cbv zeta.
  assert (U1 : attrs (snd (initialize env_down self p)) self
               = {| _crawler := Some (FallbackCrawler
                                        (constructed (snd (start_browser_crawler env_down self
                                                             (count_init_run p)))));
                    _initialized := true; _using_fallback := true |}).
  { unfold initialize. rewrite R.
    destruct (start_browser_crawler env_down self (count_init_run p)) as [[e' | ] q];
      cbn in Hdown; [ | discriminate].
    rewrite Hfb. cbn. now rewrite !Nat.eqb_refl. }
  set (p1 := snd (initialize env_down self p)) in *.
  assert (U2 : attrs (cleanup aexit self p1) self
               = {| _crawler := None; _initialized := false; _using_fallback := true |}).
  { unfold cleanup. rewrite U1. cbn. now rewrite !Nat.eqb_refl, U1. }
  set (p2 := cleanup aexit self p1) in *.
  assert (R2 : is_ready (attrs p2 self) = false) by now rewrite U2.
  split; [now rewrite U1 | ]. split; [now rewrite U2 | ].
  unfold initialize. rewrite R2.
  specialize (Hup (count_init_run p2)).
  unfold start_browser_crawler in *.
  destruct (crawl4ai_imported env_up); cbn [negb] in *; [ | discriminate].
  destruct (configure_browser env_up); [discriminate | ].
  destruct (crawler_constructor env_up); [discriminate | ].
  destruct (crawler_aenter env_up); [discriminate | ].
  cbn. rewrite !Nat.eqb_refl. cbn. rewrite U2. cbn. eauto.
Qed.

(** Witness: the browser's executable is missing at first and installed
    later. *)
Lemma using_fallback_outlives_the_fallback_witness :
  _using_fallback (attrs (snd (initialize env_browser_broken 0 imported)) 0) = true
  /\ _using_fallback
       (attrs (cleanup None 0 (snd (initialize env_browser_broken 0 imported))) 0) = true
  /\ (exists obj,
        _crawler (attrs (snd (initialize env_browser_ok 0
                                (cleanup None 0
                                   (snd (initialize env_browser_broken 0 imported))))) 0)
        = Some (AsyncWebCrawler obj))
  /\ _initialized (attrs (snd (initialize env_browser_ok 0
                                 (cleanup None 0
                                    (snd (initialize env_browser_broken 0 imported))))) 0)
     = true
  /\ _using_fallback (attrs (snd (initialize env_browser_ok 0
                                    (cleanup None 0
                                       (snd (initialize env_browser_broken 0 imported))))) 0)
     = true.
Proof.
  exact (using_fallback_outlives_the_fallback env_browser_broken env_browser_ok None 0
           imported eq_refl (ex_intro _ "Executable doesn't exist" eq_refl) eq_refl
           (fun q => eq_refl)).
Defined.

End CrawlerMore.

(** ** The learning formatter: word counts, entry contents *)

Module FormatterMore.
Import Text Formatter.

(** *** [str.split()] and [" ".join] *)

Lemma append_nil_r (s : string) : s ++ "" = s.
Proof. induction s as [ | c s IH]; cbn; [reflexivity | now rewrite IH]. Qed.

Lemma append_assoc (a b c : string) : (a ++ b) ++ c = a ++ (b ++ c).
Proof. induction a as [ | x a IH]; cbn; [reflexivity | now rewrite IH]. Qed.

Lemma split_from_app_space a : forall word sp b,
  is_space sp = true ->
  split_from word (a ++ String sp b) = (split_from word a ++ split b)%list.
Proof.
  induction a as [ | c a IH]; intros word sp b Hsp; cbn [append split_from].
  - rewrite Hsp. unfold split. now destruct (word =? "").
  - destruct (is_space c).
    + destruct (word =? ""); cbn; now rewrite IH.
    + now apply IH.
Qed.

Lemma words_in_app_space a b : words_in (a ++ " " ++ b) = words_in a + words_in b.
Proof.
  unfold words_in, split. change (" " ++ b) with (String " " b).
  rewrite split_from_app_space by reflexivity. apply length_app.
Qed.

Lemma word_count_cons k v d :
  word_count ((k, v) :: d) = words_in v + word_count d.
Proof.
  unfold word_count, values, join. cbn [map snd String.concat].
  destruct (map snd d) as [ | v' vs] eqn:E.
  - unfold words_in at 3. cbn. lia.
  - apply words_in_app_space.
Qed.

Lemma word_count_five v1 v2 v3 v4 v5 :
  word_count (five_bullets v1 v2 v3 v4 v5)
  = words_in v1 + words_in v2 + words_in v3 + words_in v4 + words_in v5.
Proof.
  unfold five_bullets. rewrite !word_count_cons. unfold word_count, words_in. cbn. lia.
Qed.

Lemma five_keys d :
  keys d = bullet_keys -> exists v1 v2 v3 v4 v5, d = five_bullets v1 v2 v3 v4 v5.
Proof.
  unfold bullet_keys, keys, five_bullets.
  destruct d as [ | [k1 v1] [ | [k2 v2] [ | [k3 v3] [ | [k4 v4] [ | [k5 v5] [ | kv d]]]]]];
    cbn; intros H; try discriminate.
  inversion H; subst. now exists v1, v2, v3, v4, v5.
Qed.

(** *** [_expand_bullets] *)

Lemma expand_five v1 v2 v3 v4 v5 n :
  5 <= n ->
  _expand_bullets (five_bullets v1 v2 v3 v4 v5) n
  = five_bullets (v1 ++ " with detailed error context")
                 (v2 ++ " during development workflow")
                 (v3 ++ " through systematic analysis")
                 (v4 ++ " with verification steps")
                 (v5 ++ " in similar scenarios").
Proof.
  intros H. unfold _expand_bullets, five_bullets. cbn [keys map fst List.length].
  assert (P : (0 <? n / 5)%nat = true).
  { apply Nat.ltb_lt. apply Nat.div_str_pos. lia. }
  unfold expand_key. rewrite P. reflexivity.
Qed.

Lemma expand_five_small v1 v2 v3 v4 v5 n :
  n < 5 ->
  _expand_bullets (five_bullets v1 v2 v3 v4 v5) n = five_bullets v1 v2 v3 v4 v5.
Proof.
  intros H. unfold _expand_bullets, five_bullets. cbn [keys map fst List.length].
  rewrite (Nat.div_small n 5 H). reflexivity.
Qed.

Lemma words_in_suffix v suffix n :
  words_in suffix = n -> words_in (v ++ String " " suffix) = words_in v + n.
Proof. intros <-. apply (words_in_app_space v suffix). Qed.

(** X6.  The word-count adjustment below 120 words, on bullets with the five
    keys: when at least 5 words are missing every bullet gets its fixed
    phrase, 16 words in all, however many are missing; when fewer than 5
    are missing nothing is added.  So the result reaches 120 words
    only from 104 to 115 words. *)
Theorem expansion_adds_sixteen_words bullets :
  keys bullets = bullet_keys ->
  word_count bullets < 120 ->
  exists adjusted,
    _adjust_word_count bullets = Ok adjusted
    /\ keys adjusted = bullet_keys
    /\ word_count adjusted
       = if (word_count bullets <=? 115)%nat then word_count bullets + 16
         else word_count bullets.
Proof.
  intros K Hlow. destruct (five_keys bullets K) as (v1 & v2 & v3 & v4 & v5 & ->).
  unfold _adjust_word_count. fold (words_in (join " " (values (five_bullets v1 v2 v3 v4 v5)))).
  fold (word_count (five_bullets v1 v2 v3 v4 v5)).
  destruct (Nat.ltb_spec (word_count (five_bullets v1 v2 v3 v4 v5)) 120) as [_ | Hno];
    [ | lia].
  eexists. split; [reflexivity | ].
  destruct (Nat.leb_spec (word_count (five_bullets v1 v2 v3 v4 v5)) 115) as [H | H].
  - rewrite expand_five by lia. split; [reflexivity | ].
    rewrite !word_count_five.
    rewrite (words_in_suffix v1 "with detailed error context" 4 eq_refl),
            (words_in_suffix v2 "during development workflow" 3 eq_refl),
            (words_in_suffix v3 "through systematic analysis" 3 eq_refl),
            (words_in_suffix v4 "with verification steps" 3 eq_refl),
            (words_in_suffix v5 "in similar scenarios" 3 eq_refl).
    lia.
  - rewrite expand_five_small by lia. split; reflexivity.
Qed.

(** Witness: the default synopsis has 18 words and gets 34. *)
Lemma expansion_adds_sixteen_words_witness :
  exists adjusted,
    _adjust_word_count (five_bullets "Issue encountered during session"
                          "Development environment" "Root cause analysis needed"
                          "Solution implementation needed" "When facing similar challenges")
    = Ok adjusted
    /\ keys adjusted = bullet_keys
    /\ word_count adjusted
       = if (word_count (five_bullets "Issue encountered during session"
                           "Development environment" "Root cause analysis needed"
                           "Solution implementation needed"
                           "When facing similar challenges") <=? 115)%nat
         then word_count (five_bullets "Issue encountered during session"
                            "Development environment" "Root cause analysis needed"
                            "Solution implementation needed"
                            "When facing similar challenges") + 16
         else word_count (five_bullets "Issue encountered during session"
                            "Development environment" "Root cause analysis needed"
                            "Solution implementation needed"
                            "When facing similar challenges").
Proof.
  apply (expansion_adds_sixteen_words
           (five_bullets "Issue encountered during session" "Development environment"
              "Root cause analysis needed" "Solution implementation needed"
              "When facing similar challenges")).
  - reflexivity.
  - vm_compute. lia.
Defined.

(** *** [_compress_bullets] *)

Lemma all_chars_app p a b : all_chars p (a ++ b) = all_chars p a && all_chars p b.
Proof. induction a as [ | c a IH]; cbn; [reflexivity | now rewrite IH, andb_assoc]. Qed.

Lemma split_from_words s : forall word,
  all_chars (fun c => negb (is_space c)) word = true ->
  Forall word_ok (split_from word s).
Proof.
  induction s as [ | c s IH]; intros word Hw; cbn [split_from].
  - destruct (String.eqb_spec word ""); constructor; [now split | constructor].
  - destruct (is_space c) eqn:Hc.
    + destruct (String.eqb_spec word "").
      * now apply IH.
      * constructor; [now split | now apply IH].
    + apply IH. rewrite all_chars_app, Hw. cbn. now rewrite Hc.
Qed.

Lemma split_words s : Forall word_ok (split s).
Proof. now apply split_from_words. Qed.

Lemma split_from_one_word a : forall word,
  all_chars (fun c => negb (is_space c)) a = true ->
  split_from word a = if (word ++ a) =? "" then [] else [word ++ a].
Proof.
  induction a as [ | c a IH]; intros word Ha; cbn [split_from].
  - now rewrite append_nil_r.
  - cbn in Ha. apply andb_true_iff in Ha as [Hc Ha]. apply negb_true_iff in Hc.
    rewrite Hc, (IH _ Ha), append_assoc. reflexivity.
Qed.

Lemma split_word w : word_ok w -> split w = [w].
Proof.
  intros [Hne Hw]. unfold split. rewrite (split_from_one_word w "" Hw). cbn.
  destruct (String.eqb_spec w ""); [contradiction | reflexivity].
Qed.

Lemma split_join_words ws : Forall word_ok ws -> split (join " " ws) = ws.
Proof.
  induction ws as [ | w ws IH]; intros H; [reflexivity | ].
  inversion H as [ | w' ws' Hw Hws]; subst.
  destruct ws as [ | w2 ws]; [now apply split_word | ].
  change (join " " (w :: w2 :: ws)) with (w ++ String " " (join " " (w2 :: ws))).
  unfold split at 1. rewrite split_from_app_space by reflexivity.
  fold (split w). rewrite (split_word w Hw), (IH Hws). reflexivity.
Qed.

Lemma Forall_removelast {A : Type} (P : A -> Prop) (l : list A) :
  Forall P l -> Forall P (removelast l).
Proof.
  induction l as [ | x l IH]; intros H; [constructor | ].
  inversion H; subst. cbn. destruct l; [constructor | ].
  constructor; [assumption | now apply IH].
Qed.

Lemma length_removelast {A : Type} (l : list A) :
  List.length (removelast l) = List.length l - 1.
Proof.
  induction l as [ | x l IH]; [reflexivity | ].
  cbn [removelast]. destruct l; [reflexivity | ].
  cbn [List.length] in *. lia.
Qed.

(** Dropping the last word of a text takes one off its word count. *)
Lemma words_in_dropped text :
  words_in (join " " (removelast (split text))) = words_in text - 1.
Proof.
  unfold words_in. rewrite split_join_words.
  - apply length_removelast.
  - apply Forall_removelast, split_words.
Qed.

Lemma word_count_setitem d : forall k x,
  In k (keys d) ->
  word_count (setitem d k x) + words_in (item d k) = word_count d + words_in x.
Proof.
  induction d as [ | [k' v'] d IH]; intros k x H; [contradiction | ].
  cbn [setitem]. unfold item, sget. cbn [lookup].
  destruct (String.eqb_spec k k') as [-> | Hne].
  - rewrite !word_count_cons. lia.
  - rewrite !word_count_cons.
    assert (Hin : In k (keys d)) by (destruct H as [H | H]; [cbn in H; congruence | exact H]).
    specialize (IH k x Hin). unfold item, sget in IH. lia.
Qed.

Lemma fold_max_ge {A : Type} (key : A -> nat) rest : forall x,
  let m := fold_left (fun best y => if (key best <? key y)%nat then y else best) rest x in
  key x <= key m /\ forall y, In y rest -> key y <= key m.
Proof.
  induction rest as [ | z rest IH]; intros x; cbn [fold_left].
  - split; [lia | contradiction].
  - destruct (Nat.ltb_spec (key x) (key z)) as [Hlt | Hge].
    + destruct (IH z) as [H1 H2]. split; [lia | ].
      intros y [<- | Hy]; [exact H1 | now apply H2].
    + destruct (IH x) as [H1 H2]. split; [exact H1 | ].
      intros y [<- | Hy]; [lia | now apply H2].
Qed.

Lemma max_by_ge {A : Type} (key : A -> nat) xs m :
  max_by key xs = Ok m -> forall x, In x xs -> key x <= key m.
Proof.
  destruct xs as [ | x0 rest]; cbn; intros H; [discriminate | ].
  inversion H. destruct (fold_max_ge key rest x0) as [H0 Hr].
  intros x [<- | Hx]; [exact H0 | now apply Hr].
Qed.

(** No bullet has more than [bound] words: then all have at most
    [bound] times the number of keys. *)
Lemma word_count_bound bound d :
  NoDup (keys d) ->
  (forall k, In k (keys d) -> words_in (item d k) <= bound) ->
  word_count d <= List.length d * bound.
Proof.
  induction d as [ | [k v] d IH]; intros Hnd H.
  - unfold word_count, words_in. cbn. lia.
  - rewrite word_count_cons. cbn [List.length].
    inversion Hnd as [ | k0 ks Hnotin Hnd']; subst.
    assert (Hv : words_in v <= bound).
    { specialize (H k (or_introl eq_refl)). unfold item, sget in H. cbn in H.
      now rewrite String.eqb_refl in H. }
    assert (Hd : word_count d <= List.length d * bound).
    { apply IH; [assumption | ]. intros k' Hk'.
      specialize (H k' (or_intror Hk')). unfold item, sget in *. cbn [lookup] in H.
      destruct (String.eqb_spec k' k) as [E | _]; [subst k'; contradiction | exact H]. }
    lia.
Qed.

Lemma length_keys {A : Type} (d : list (string * A)) : List.length (keys d) = List.length d.
Proof. apply length_map. Qed.

Lemma compress_loop_to_200 n : forall d,
  NoDup (keys d) -> List.length d <= 40 -> word_count d = 200 + n ->
  exists d', compress_loop n d = Ok d' /\ keys d' = keys d /\ word_count d' = 200.
Proof.
  induction n as [ | n IH]; intros d Hnd Hlen Hwc; cbn [compress_loop].
  - exists d. repeat split. lia.
  - destruct (max_by (fun k => List.length (split (item d k))) (keys d)) as [k | msg] eqn:E.
    + cbn [bind].
      pose proof (FormatterSpec.max_by_in _ _ _ E) as Hin.
      pose proof (max_by_ge _ _ _ E) as Hmax. cbn beta in Hmax.
      fold (words_in (item d k)) in *.
      assert (Hbig : 5 < words_in (item d k)).
      { destruct (Nat.lt_ge_cases 5 (words_in (item d k))) as [ | Hsmall]; [assumption | ].
        assert (word_count d <= List.length d * 5).
        { apply word_count_bound; [assumption | ].
          intros k' Hk'. specialize (Hmax k' Hk'). unfold words_in in *. lia. }
        lia. }
      destruct (Nat.ltb_spec 5 (words_in (item d k))) as [_ | Hno]; [ | lia].
      set (d1 := setitem d k (join " " (removelast (split (item d k))))).
      assert (K : keys d1 = keys d) by now apply FormatterSpec.keys_setitem.
      pose proof (word_count_setitem d k (join " " (removelast (split (item d k)))) Hin)
        as Hset.
      fold d1 in Hset. rewrite words_in_dropped in Hset.
      destruct (IH d1) as [d' [H1 [H2 H3]]].
      * now rewrite K.
      * rewrite <- (length_keys d1), K, length_keys. exact Hlen.
      * lia.
      * exists d'. repeat split; [exact H1 | congruence | exact H3].
    + destruct d as [ | [k v] d]; [ | discriminate].
      unfold word_count, words_in in Hwc. cbn in Hwc. lia.
Qed.

(** X7.  The word-count adjustment above 200 words, on a dictionary of at
    most 40 distinct keys (the five bullets of a synopsis in
    particular): it returns the same keys with exactly 200 words, one
    word at a time taken off the end of the longest bullet.  Between 120
    and 200 words the bullets are returned as they are. *)
Theorem compression_stops_at_200_words bullets :
  NoDup (keys bullets) ->
  List.length bullets <= 40 ->
  120 <= word_count bullets ->
  exists adjusted,
    _adjust_word_count bullets = Ok adjusted
    /\ keys adjusted = keys bullets
    /\ word_count adjusted = Nat.min (word_count bullets) 200
    /\ (word_count bullets <= 200 -> adjusted = bullets).
Proof.
  intros Hnd Hlen Hwc. unfold _adjust_word_count.
  fold (words_in (join " " (values bullets))). fold (word_count bullets).
  destruct (Nat.ltb_spec (word_count bullets) 120) as [ | _]; [lia | ].
  destruct (Nat.ltb_spec 200 (word_count bullets)) as [Hlong | Hfit].
  - destruct (compress_loop_to_200 (word_count bullets - 200) bullets Hnd Hlen)
      as [d' [H1 [H2 H3]]]; [lia | ].
    exists d'. unfold _compress_bullets. repeat split; try assumption; lia.
  - exists bullets. repeat split; lia.
Qed.

(** Witness: 213 words in the five bullets. *)
Lemma compression_stops_at_200_words_witness :
  exists adjusted,
    _adjust_word_count wordy_bullets = Ok adjusted
    /\ keys adjusted = keys wordy_bullets
    /\ word_count adjusted = Nat.min (word_count wordy_bullets) 200
    /\ (word_count wordy_bullets <= 200 -> adjusted = wordy_bullets).
Proof.
  apply (compression_stops_at_200_words wordy_bullets).
  - repeat constructor; cbn; intuition discriminate.
  - cbn. lia.
  - vm_compute. lia.
Defined.

(** *** What [create_learning_entries] puts into an entry *)

Lemma trigger_known text : In (_determine_trigger_type text) trigger_types.
Proof.
  unfold _determine_trigger_type, trigger_types.
  repeat match goal with
         | |- context [if ?b then _ else _] => destruct b
         end; cbn; tauto.
Qed.

Lemma capitalize_nonempty text : text <> "" -> capitalize text <> "".
Proof. destruct text; [contradiction | discriminate]. Qed.

Lemma nonempty_true text : nonempty text = true -> text <> "".
Proof.
  unfold nonempty. destruct (String.eqb_spec text ""); [discriminate | trivial].
Qed.

Lemma clean_steps_filled steps : filled (_clean_investigation_steps steps).
Proof.
  unfold _clean_investigation_steps.
  match goal with |- context [flat_map ?f steps] => set (f0 := f) end.
  assert (H : Forall (fun text => text <> "") (flat_map f0 steps)).
  { induction steps as [ | step steps IH]; [constructor | ].
    cbn [flat_map]. apply Forall_app. split; [ | exact IH].
    unfold f0. destruct (nonempty (strip (strip_step_prefix step))) eqn:E;
      constructor; [ | constructor].
    now apply capitalize_nonempty, nonempty_true. }
  destruct (flat_map f0 steps) as [ | x xs].
  - split; [discriminate | ]. repeat constructor. discriminate.
  - split; [discriminate | exact H].
Qed.

Lemma dead_ends_filled steps solution : filled (_identify_dead_ends steps solution).
Proof.
  unfold _identify_dead_ends.
  match goal with |- context [flat_map ?f (removelast steps)] => set (f0 := f) end.
  assert (H : Forall (fun text => text <> "") (flat_map f0 (removelast steps))).
  { induction (removelast steps) as [ | step rest IH]; [constructor | ].
    cbn [flat_map]. apply Forall_app. split; [ | exact IH].
    unfold f0. destruct (_ && _); constructor; [discriminate | constructor]. }
  destruct (flat_map f0 (removelast steps)) as [ | x xs].
  - split; [discriminate | ]. repeat constructor. discriminate.
  - split; [discriminate | exact H].
Qed.

Lemma hypothesis_nonempty steps : _extract_initial_hypothesis steps <> "".
Proof.
  unfold _extract_initial_hypothesis. destruct steps as [ | first_step rest];
    [discriminate | ].
  destruct (contains "check" (lower first_step)); discriminate.
Qed.

(** What the base of an entry holds, whichever way the synopsis is made. *)
Lemma create_single_inv py_str exp entry_id timestamp sd generator e :
  _create_single_learning_entry py_str exp entry_id timestamp sd generator = Ok e ->
  let problem_desc := or_default (problem_description exp) "" in
  let steps := or_default (investigation_steps exp) [] in
  let solution := or_default (solution_applied exp) "" in
  let outcome := or_default (outcome exp) "" in
  e_trigger e = Some (_determine_trigger_type problem_desc)
  /\ e_situation e = Some (_extract_situation_details problem_desc steps outcome)
  /\ e_debug_journey e = Some (_extract_debug_journey steps solution)
  /\ e_resolution e = Some (_extract_resolution solution outcome problem_desc)
  /\ e_knowledge_synthesis e
     = Some (_extract_knowledge_synthesis problem_desc solution steps).
Proof.
  unfold _create_single_learning_entry. cbv zeta.
  destruct generator as [g | ]; [ | intros H; inversion H; now repeat split].
  destruct sd as [session | ].
  - destruct (session_truthy session).
    + destruct (create_synopsis_from_session_data session); [ | discriminate].
      cbn [bind]. destruct (extract_embedding_field_content session); [ | discriminate].
      cbn [bind]. intros H; inversion H; now repeat split.
    + match goal with |- context [generate_synopsis py_str ?b] =>
        destruct (generate_synopsis py_str b)
      end; [ | discriminate].
      cbn [bind]. intros H; inversion H; now repeat split.
  - match goal with |- context [generate_synopsis py_str ?b] =>
      destruct (generate_synopsis py_str b)
    end; [ | discriminate].
    cbn [bind]. intros H; inversion H; now repeat split.
Qed.

Lemma created_entry_complete py_str exp entry_id timestamp sd generator e :
  _create_single_learning_entry py_str exp entry_id timestamp sd generator = Ok e ->
  complete_entry e.
Proof.
  intros H. destruct (create_single_inv _ _ _ _ _ _ _ H) as (H1 & H2 & H3 & H4 & H5).
  unfold complete_entry.
  eexists _, _, _, _, _, _, _.
  split; [exact H1 | ]. split; [apply trigger_known | ].
  split; [exact H2 | ].
  split.
  { unfold _extract_situation_details.
    now destruct (_infer_expected_vs_actual _ _). }
  split; [exact H3 | ].
  split; [apply hypothesis_nonempty | ].
  split; [apply clean_steps_filled | ].
  split; [apply dead_ends_filled | ].
  split; [exact H4 | ].
  split; [reflexivity | ].
  split.
  { unfold _extract_resolution. cbn.
    destruct (nonempty (or_default (solution_applied exp) "")) eqn:E;
      [now apply nonempty_true | discriminate]. }
  split; [exact H5 | reflexivity].
Qed.

(** The entries of a call and the experiences they are made from. *)
Lemma entries_made py_str c tick sd use_v2_format :
  exists entries,
    fst (create_learning_entries py_str c tick sd use_v2_format) = Ok entries
    /\ forall e,
         In e entries ->
         exists exp entry_id timestamp,
           In exp (or_default (debugging_experiences sd) [])
           /\ _create_single_learning_entry py_str exp entry_id timestamp (Some sd)
                (if use_v2_format then Some SynopsisGenerator_new else None) = Ok e.
Proof.
  unfold create_learning_entries.
  destruct (FormatterSpec.entries_from_spec py_str c sd
              (if use_v2_format then Some SynopsisGenerator_new else None)
              (or_default (debugging_experiences sd) []) tick 1) as [entries [H1 [H2 H3]]].
  exists entries. split; [exact H1 | ].
  intros e He. destruct (In_nth_error _ _ He) as [k Hk].
  assert (Hlt : k < List.length (or_default (debugging_experiences sd) [])).
  { rewrite <- H2. apply nth_error_Some. congruence. }
  destruct (nth_error (or_default (debugging_experiences sd) []) k) as [exp | ] eqn:Hx.
  - destruct (H3 k exp Hx) as [e' [ts [Hn [Hc _]]]].
    assert (e' = e) by congruence. subst e'.
    exists exp, (entry_id_of (1 + k)), ts. split; [ | exact Hc].
    eapply nth_error_In, Hx.
  - apply nth_error_None in Hx. lia.
Qed.

(** X8.  Every entry [create_learning_entries] returns is complete: its
    trigger is one of error, performance, investigation and optimization;
    situation, resolution and knowledge synthesis have their four, three
    and four keys; the solution text, the hypothesis, and every step of
    the investigation path and every dead end are not empty, and neither
    list is empty.  None of the defaults of the markdown writer is needed
    for such an entry. *)
Theorem created_entries_are_complete (py_str : entry -> string) (c : Clock.clock)
    (tick : nat) (sd : session_data) (use_v2_format : bool) :
  exists entries,
    fst (create_learning_entries py_str c tick sd use_v2_format) = Ok entries
    /\ Forall complete_entry entries.
Proof.
  destruct (entries_made py_str c tick sd use_v2_format) as [entries [H1 H2]].
  exists entries. split; [exact H1 | ].
  apply Forall_forall. intros e He.
  destruct (H2 e He) as (exp & entry_id & ts & _ & Hc).
  eapply created_entry_complete, Hc.
Qed.

Lemma title_from_problem_bound problem_desc :
  String.length (_generate_title_from_problem problem_desc) <= 120.
Proof.
  unfold _generate_title_from_problem.
  destruct (nonempty problem_desc); cbn [negb]; [ | cbn; lia].
  match goal with |- context [Nat.leb (String.length ?t) 120] =>
    destruct (Nat.leb_spec (String.length t) 120) as [Hshort | Hlong];
      [exact Hshort | ]
  end.
  match goal with |- context [Nat.ltb 120 ?n] =>
    destruct (Nat.ltb_spec 120 n) as [_ | Hno]; [ | lia]
  end.
  rewrite FormatterSpec.length_app.
  match goal with |- context [title_words "" ?ws] =>
    pose proof (FormatterSpec.title_words_bound ws "") as Hw
  end.
  cbn [String.length] in *. lia.
Qed.

Lemma session_synopsis_title sd syn :
  create_synopsis_from_session_data sd = Ok syn ->
  String.length (title_of syn) <= 120.
Proof.
  unfold create_synopsis_from_session_data.
  destruct (or_default (debugging_experiences sd) []) as [ | exp rest].
  - intros H; inversion H. cbn. lia.
  - destruct (_adjust_word_count _); [ | discriminate]. cbn [bind].
    intros H; inversion H. cbn. apply title_from_problem_bound.
Qed.

(** X9.  In the v2 format all entries of one call carry the same synopsis,
    the one made from the session's first experience, with its title (at
    most 120 characters) as their title, version 2 and embedding fields;
    in the v1 format they carry version 1 and none of the keys synopsis,
    title and embedding_fields. *)
Theorem entries_share_one_synopsis (py_str : entry -> string) (c : Clock.clock)
    (tick : nat) (sd : session_data) (use_v2_format : bool) :
  exists entries,
    fst (create_learning_entries py_str c tick sd use_v2_format) = Ok entries
    /\ if use_v2_format then
         exists syn,
           create_synopsis_from_session_data sd = Ok syn
           /\ String.length (title_of syn) <= 120
           /\ forall e,
                In e entries ->
                e_version e = Some 2 /\ e_synopsis e = Some syn
                /\ e_title e = Some (title_of syn)
                /\ is_some (e_embedding_fields e) = true
       else
         forall e,
           In e entries ->
           e_version e = Some 1 /\ e_synopsis e = None /\ e_title e = None
           /\ e_embedding_fields e = None.
Proof.
  destruct (entries_made py_str c tick sd use_v2_format) as [entries [H1 H2]].
  exists entries. split; [exact H1 | ].
  destruct use_v2_format.
  - destruct (FormatterSpec.create_synopsis_shape sd) as [syn [Hs _]].
    exists syn. split; [exact Hs | ]. split; [exact (session_synopsis_title sd syn Hs) | ].
    intros e He. destruct (H2 e He) as (exp & entry_id & ts & Hin & Hc).
    unfold _create_single_learning_entry in Hc.
    assert (T : session_truthy sd = true).
    { unfold session_truthy. destruct (debugging_experiences sd); [reflexivity | ].
      contradiction. }
    rewrite T, Hs in Hc. cbn [bind] in Hc.
    destruct (extract_embedding_field_content sd); [ | discriminate].
    cbn [bind] in Hc. inversion Hc. now repeat split.
  - intros e He. destruct (H2 e He) as (exp & entry_id & ts & _ & Hc).
    unfold _create_single_learning_entry in Hc. inversion Hc. now repeat split.
Qed.

(** X10.  [extract_embedding_field_content] returns, for every session data,
    the six keys title, synopsis, debug_journey, root_cause, solution and
    pattern_recognition; the title is the title of the session's
    synopsis; and when the first experience has a solution, that text is
    both the "solution" and the "root_cause" field. *)
Theorem embedding_fields_shape (sd : session_data) :
  exists fields syn,
    extract_embedding_field_content sd = Ok fields
    /\ keys fields = embedding_keys
    /\ create_synopsis_from_session_data sd = Ok syn
    /\ sget fields "title" "" = title_of syn
    /\ forall exp rest solution,
         debugging_experiences sd = Some (exp :: rest) ->
         solution_applied exp = Some solution ->
         sget fields "root_cause" "" = solution /\ sget fields "solution" "" = solution.
Proof.
  destruct (FormatterSpec.create_synopsis_shape sd) as [syn [Hs _]].
  unfold extract_embedding_field_content.
  destruct (debugging_experiences sd) as [[ | exp0 rest0] | ] eqn:E; cbn [or_default].
  - exists _create_default_embedding_content, syn.
    unfold create_synopsis_from_session_data in Hs. rewrite E in Hs. cbn in Hs.
    inversion Hs.
    split; [reflexivity | ]. split; [reflexivity | ].
    split; [unfold create_synopsis_from_session_data; now rewrite E | ].
    split; [reflexivity | ]. intros exp rest solution H; discriminate.
  - rewrite Hs. cbn [bind]. eexists _, syn.
    split; [reflexivity | ]. split; [reflexivity | ].
    split; [reflexivity | ]. split; [reflexivity | ].
    intros exp rest solution H Hsol. inversion H; subst. cbn. now rewrite Hsol.
  - exists _create_default_embedding_content, syn.
    unfold create_synopsis_from_session_data in Hs. rewrite E in Hs. cbn in Hs.
    inversion Hs.
    split; [reflexivity | ]. split; [reflexivity | ].
    split; [unfold create_synopsis_from_session_data; now rewrite E | ].
    split; [reflexivity | ]. intros exp rest solution H; discriminate.
Qed.

End FormatterMore.

(** ** Text: separators and character classes *)

Module TextFacts.
Import Text.

Lemma prefix_app sep : forall t, String.prefix sep (sep ++ t) = true.
Proof.
  induction sep as [ | a sep IH]; intros t; cbn; [now destruct t | ].
  destruct (ascii_dec a a); [apply IH | contradiction].
Qed.

Lemma split_sep_skip sep x : forall piece s,
  split_sep_from sep (String.length x) piece (x ++ s) = split_sep_from sep 0 piece s.
Proof.
  induction x as [ | ch x IH]; intros piece s; cbn [String.length append];
    [reflexivity | ].
  cbn [split_sep_from]. apply IH.
Qed.

(** A text that begins with the separator: an empty first piece. *)
Lemma split_sep_head sep t piece :
  sep <> "" ->
  split_sep_from sep 0 piece (sep ++ t) = piece :: split_sep_from sep 0 "" t.
Proof.
  destruct sep as [ | a sep]; [contradiction | intros _].
  cbn [append split_sep_from].
  change (String a (sep ++ t)) with (String a sep ++ t). rewrite prefix_app.
  replace (String.length (String a sep) - 1) with (String.length sep)
    by (cbn [String.length]; lia).
  now rewrite split_sep_skip.
Qed.

(** A text without the separator: one piece. *)
Lemma split_sep_none sep s : forall piece,
  contains sep s = false -> split_sep_from sep 0 piece s = [piece ++ s].
Proof.
  induction s as [ | ch s IH]; intros piece H; cbn [split_sep_from].
  - now rewrite FormatterMore.append_nil_r.
  - cbn [contains] in H. apply orb_false_iff in H as [Hp Hc].
    rewrite Hp, (IH _ Hc), FormatterMore.append_assoc. reflexivity.
Qed.

Lemma prefix_one_char a ch x y :
  String.prefix (String a "") (String ch x) = String.prefix (String a "") (String ch y).
Proof. cbn. destruct (ascii_dec a ch); [now destruct x, y | reflexivity]. Qed.

Lemma contains_char_app a x : forall y,
  contains (String a "") (x ++ y) = contains (String a "") x || contains (String a "") y.
Proof.
  induction x as [ | ch x IH]; intros y.
  - cbn [append]. destruct y; reflexivity.
  - cbn [append]. cbn [contains]. rewrite IH.
    rewrite (prefix_one_char a ch (x ++ y) x). now rewrite orb_assoc.
Qed.

(** The line before a line feed is a piece of its own. *)
Lemma split_line line : forall piece rest,
  contains nl line = false ->
  split_sep_from nl 0 piece (line ++ nl ++ rest)
  = (piece ++ line) :: split_sep_from nl 0 "" rest.
Proof.
  induction line as [ | ch line IH]; intros piece rest H.
  - rewrite FormatterMore.append_nil_r. cbn [append].
    exact (split_sep_head nl rest piece ltac:(discriminate)).
  - cbn [append split_sep_from]. cbn [contains] in H.
    apply orb_false_iff in H as [Hp Hc].
    unfold nl in *. rewrite (prefix_one_char _ ch _ line), Hp.
    fold nl. rewrite (IH _ rest Hc), FormatterMore.append_assoc. reflexivity.
Qed.

(** No character of [s] is the first of [needle]: [needle] is not in [s]. *)
Lemma contains_excluded p a needle s :
  p a = false -> all_chars p s = true -> contains (String a needle) s = false.
Proof.
  intros Ha. induction s as [ | ch s IH]; intros H; [reflexivity | ].
  cbn in H. apply andb_true_iff in H as [Hc Hs].
  cbn [contains]. rewrite (IH Hs), orb_false_r. cbn.
  destruct (ascii_dec a ch) as [<- | _]; [congruence | reflexivity].
Qed.

Lemma all_chars_weaken (p q : ascii -> bool) s :
  (forall ch, p ch = true -> q ch = true) -> all_chars p s = true -> all_chars q s = true.
Proof.
  intros Hpq. induction s as [ | ch s IH]; [reflexivity | ]. cbn.
  intros H. apply andb_true_iff in H as [Hc Hs]. now rewrite (Hpq _ Hc), IH.
Qed.

Lemma lstrip_id s : all_chars (fun ch => negb (is_space ch)) s = true -> lstrip s = s.
Proof.
  destruct s as [ | ch s]; [reflexivity | ]. cbn.
  intros H. apply andb_true_iff in H as [Hc _]. apply negb_true_iff in Hc. now rewrite Hc.
Qed.

Lemma rstrip_id s : all_chars (fun ch => negb (is_space ch)) s = true -> rstrip s = s.
Proof.
  induction s as [ | ch s IH]; [reflexivity | ]. cbn [all_chars rstrip].
  intros H. apply andb_true_iff in H as [Hc Hs]. apply negb_true_iff in Hc.
  rewrite (IH Hs). destruct s; [now rewrite Hc | reflexivity].
Qed.

Lemma strip_id s : all_chars (fun ch => negb (is_space ch)) s = true -> strip s = s.
Proof. intros H. unfold strip. now rewrite (lstrip_id s H), (rstrip_id s H). Qed.

(** The digits of a number. *)
Lemma digits_of_uint d : all_chars is_digit (NilEmpty.string_of_uint d) = true.
Proof. induction d; cbn; try reflexivity; exact IHd. Qed.

Lemma digits_of_nat n : all_chars is_digit (str_of_nat n) = true.
Proof.
  unfold str_of_nat, NilZero.string_of_uint.
  destruct (Nat.to_uint n); try reflexivity; apply (digits_of_uint (_ _)).
Qed.

Lemma digits_of_zeros n : all_chars is_digit (zeros n) = true.
Proof. induction n as [ | n IH]; [reflexivity | exact IH]. Qed.

Lemma digits_of_zero_pad width n : all_chars is_digit (zero_pad width n) = true.
Proof.
  unfold zero_pad. now rewrite FormatterMore.all_chars_app, digits_of_zeros, digits_of_nat.
Qed.

End TextFacts.

(** ** [knowledge_storage.py]: reading back, file names, the knowledge base *)

Module StorageMore.
Import Text Formatter Storage TextFacts.

Lemma join_cons sep x y l : join sep (x :: y :: l) = x ++ sep ++ join sep (y :: l).
Proof. reflexivity. Qed.

Lemma one_line_no_nl s : one_line s = true -> contains nl s = false.
Proof. apply (contains_excluded line_char). reflexivity. Qed.

Lemma read_line line : forall rest,
  one_line line = true ->
  universal_newlines (line ++ nl ++ rest) = line ++ nl ++ universal_newlines rest.
Proof.
  induction line as [ | ch line IH]; intros rest H; [reflexivity | ].
  cbn in H. apply andb_true_iff in H as [Hc Hl].
  unfold line_char in Hc. apply andb_true_iff in Hc as [_ Hc]. apply negb_true_iff in Hc.
  cbn [append universal_newlines]. rewrite Hc. f_equal. exact (IH rest Hl).
Qed.

(** The first line of a text that is read and split into lines. *)
Lemma first_line line rest :
  one_line line = true ->
  split_sep nl (universal_newlines (line ++ nl ++ rest))
  = line :: split_sep nl (universal_newlines rest).
Proof.
  intros H. rewrite (read_line line rest H). unfold split_sep.
  now rewrite (split_line line "" _ (one_line_no_nl line H)).
Qed.

Lemma one_line_app a b : one_line (a ++ b) = one_line a && one_line b.
Proof. apply FormatterMore.all_chars_app. Qed.

Lemma extract_skip line rest field_name :
  startswith line ("**" ++ field_name ++ "**:") = false ->
  _extract_field_value (line :: rest) field_name = _extract_field_value rest field_name.
Proof. intros H. cbn [_extract_field_value]. now rewrite H. Qed.

Lemma extract_here field_name value rest :
  contains ("**" ++ field_name ++ "**:") value = false ->
  _extract_field_value ((("**" ++ field_name ++ "**:") ++ String " " value) :: rest)
    field_name
  = strip value.
Proof.
  intros H. cbn [_extract_field_value]. unfold startswith. rewrite prefix_app.
  unfold split_sep. rewrite split_sep_head by (cbn; discriminate).
  rewrite split_sep_none.
  - reflexivity.
  - cbn [append contains]. cbn [append] in H. rewrite H. cbn.
    now destruct (field_name ++ "**:").
Qed.

Lemma stamp_is_line ch : stamp_char ch = true -> line_char ch = true.
Proof. destruct ch as [[] [] [] [] [] [] [] []]; vm_compute; congruence. Qed.

Lemma stamp_no_space ch : stamp_char ch = true -> negb (is_space ch) = true.
Proof. destruct ch as [[] [] [] [] [] [] [] []]; vm_compute; congruence. Qed.

Lemma digit_is_stamp ch : is_digit ch = true -> stamp_char ch = true.
Proof. intros H. unfold stamp_char. now rewrite H. Qed.

Lemma stamp_zero_pad width n : all_chars stamp_char (zero_pad width n) = true.
Proof. exact (all_chars_weaken _ _ _ digit_is_stamp (digits_of_zero_pad width n)). Qed.

Lemma stamp_isoformat dt : all_chars stamp_char (Clock.isoformat dt) = true.
Proof.
  unfold Clock.isoformat.
  destruct (Clock.microsecond dt =? 0)%nat;
    repeat (rewrite FormatterMore.all_chars_app || rewrite stamp_zero_pad); reflexivity.
Qed.

Lemma stamp_strftime dt : all_chars stamp_char (Clock.strftime_compact dt) = true.
Proof.
  unfold Clock.strftime_compact.
  repeat (rewrite FormatterMore.all_chars_app || rewrite stamp_zero_pad); reflexivity.
Qed.

(** A timestamp holds no asterisk. *)
Lemma stamp_no_marker needle s :
  all_chars stamp_char s = true -> contains (String "*" needle) s = false.
Proof. apply (contains_excluded stamp_char). reflexivity. Qed.

Section WithEnvironment.

Variable c : Clock.clock.
Variable strptime_HMS : string -> option (nat * nat * nat).
Variable project_root : string.
Variable cwd_basename : string.

(** What [load_learning_file] reads from a file of the header
    [_generate_markdown_content] writes. *)
Lemma header_read_back sid proj stamp body w path :
  one_line sid = true -> contains "**Session ID**:" sid = false ->
  one_line proj = true -> contains "**Project**:" proj = false ->
  all_chars stamp_char stamp = true ->
  lookup path (files w)
  = Some (join nl ("# Session Learning Log" :: ("**Session ID**: " ++ sid)
                   :: ("**Project**: " ++ proj) :: ("**Start Time**: " ++ stamp)
                   :: "" :: body)) ->
  load_learning_file path w
  = Loaded {| session_id := strip sid; project := strip proj; start_time := stamp;
              learning_entries := [] |}.
Proof.
  intros Hsid Msid Hproj Mproj Hstamp Hfile.
  unfold load_learning_file. rewrite Hfile.
  rewrite !join_cons.
  rewrite first_line by reflexivity.
  rewrite first_line by (rewrite one_line_app, Hsid; reflexivity).
  rewrite first_line by (rewrite one_line_app, Hproj; reflexivity).
  rewrite first_line
    by (rewrite one_line_app; unfold one_line;
        rewrite (all_chars_weaken _ _ _ stamp_is_line Hstamp); reflexivity).
  set (rest := split_sep nl _).
  f_equal. f_equal.
  - rewrite extract_skip by reflexivity.
    exact (extract_here "Session ID" sid _ Msid).
  - rewrite extract_skip by reflexivity.
    rewrite extract_skip by reflexivity.
    exact (extract_here "Project" proj _ Mproj).
  - rewrite extract_skip by reflexivity.
    rewrite extract_skip by reflexivity.
    rewrite extract_skip by reflexivity.
    rewrite (extract_here "Start Time" stamp _ (stamp_no_marker _ _ Hstamp)).
    exact (strip_id _ (all_chars_weaken _ _ _ stamp_no_space Hstamp)).
Qed.

(** The session id of a file is one line without the field's marker
    when the caller's is, also when it is generated. *)
Lemma recorded_one_line sid timestamp :
  one_line (or_default sid "") = true ->
  one_line (recorded_session_id sid timestamp) = true.
Proof.
  intros H. unfold recorded_session_id. destruct (given sid); cbn [negb]; [exact H | ].
  rewrite one_line_app. unfold one_line at 2.
  now rewrite (all_chars_weaken _ _ _ stamp_is_line (stamp_strftime timestamp)).
Qed.

Lemma recorded_no_marker sid timestamp :
  contains "**Session ID**:" (or_default sid "") = false ->
  contains "**Session ID**:" (recorded_session_id sid timestamp) = false.
Proof.
  intros H. unfold recorded_session_id. destruct (given sid); cbn [negb]; [exact H | ].
  apply (contains_excluded (fun ch => negb (code ch =? 42)%nat)); [reflexivity | ].
  rewrite FormatterMore.all_chars_app.
  rewrite (all_chars_weaken stamp_char _ (Clock.strftime_compact timestamp));
    [reflexivity | | apply stamp_strftime].
  intros ch. destruct ch as [[] [] [] [] [] [] [] []]; vm_compute; congruence.
Qed.

(** What [save_learning_file] returns and writes for a list that is not
    empty. *)
Lemma save_writes (entries : list entry) (sid : option string) (w : world) :
  entries <> [] ->
  let saved := save_learning_file c strptime_HMS project_root cwd_basename entries sid w in
  let timestamp := fst (file_timestamp c strptime_HMS sid (ticks w)) in
  let filepath :=
    knowledge_dir project_root ++ "/" ++ "learning-" ++ Clock.strftime_compact timestamp
    ++ ".md" in
  exists body,
    fst saved = Ok filepath
    /\ files (snd saved)
       = write (files w) filepath
           (join nl ("# Session Learning Log"
                     :: ("**Session ID**: " ++ recorded_session_id sid timestamp)
                     :: ("**Project**: " ++ cwd_basename)
                     :: ("**Start Time**: " ++ Clock.isoformat timestamp)
                     :: "" :: body)).
Proof.
  intros Hne. cbv zeta. unfold save_learning_file, recorded_session_id.
  destruct entries as [ | e rest]; [contradiction | ].
  destruct (file_timestamp c strptime_HMS sid (ticks w)) as [timestamp tick1].
  unfold _generate_markdown_content.
  match goal with |- context [entry_lines ?k ?a ?b ?i ?j] =>
    destruct (entry_lines k a b i j) as [body tick2]
  end.
  cbn [fst snd app files]. exists body. split; reflexivity.
Qed.

(** X11.  A file written by [save_learning_file] is read back by
    [load_learning_file]: the session id and the project name come back
    stripped of surrounding whitespace, the start time as it was written,
    and the list of entries empty, whatever was saved.  The session id
    and the project name are each one line and do not hold their own
    field marker. *)
Theorem saved_file_reads_back (entries : list entry) (sid : option string) (w : world) :
  entries <> [] ->
  one_line (or_default sid "") = true ->
  contains "**Session ID**:" (or_default sid "") = false ->
  one_line cwd_basename = true ->
  contains "**Project**:" cwd_basename = false ->
  let saved := save_learning_file c strptime_HMS project_root cwd_basename entries sid w in
  let timestamp := fst (file_timestamp c strptime_HMS sid (ticks w)) in
  exists filepath,
    fst saved = Ok filepath
    /\ load_learning_file filepath (snd saved)
       = Loaded {| session_id := strip (recorded_session_id sid timestamp);
                   project := strip cwd_basename;
                   start_time := Clock.isoformat timestamp;
                   learning_entries := [] |}.
Proof.
  intros Hne Hsid Msid Hproj Mproj. cbv zeta.
  destruct (save_writes entries sid w Hne) as (body & Hpath & Hfiles).
  eexists. split; [exact Hpath | ].
  apply header_read_back with (body := body);
    auto using recorded_one_line, recorded_no_marker, stamp_isoformat.
  rewrite Hfiles. apply StorageSpec.write_has.
Qed.

(** The timestamp of the file name when the session id ends in a time of
    day and the clock stays on one day. *)
Lemma file_timestamp_of_session sid h m s y mo d tick :
  nonempty sid = true ->
  strptime_HMS (after_last_hyphen sid) = Some (h, m, s) ->
  stays_on c y mo d ->
  fst (file_timestamp c strptime_HMS (Some sid) tick)
  = {| Clock.year := y; Clock.month := mo; Clock.day := d; Clock.hour := h;
       Clock.minute := m; Clock.second := s; Clock.microsecond := 0 |}.
Proof.
  intros Hsid Hparse [Hday Hvalid]. unfold file_timestamp. cbn [given or_default].
  rewrite Hsid. cbn [negb]. rewrite Hparse. unfold Clock.now.
  destruct (Hday tick) as (-> & _ & _).
  destruct (Hday (S tick)) as (_ & -> & _).
  destruct (Hday (S (S tick))) as (_ & _ & ->).
  unfold Clock.replace_date. rewrite Hvalid. reflexivity.
Qed.

(** X12.  When the session id ends in a time of day that [strptime]
    reads and the clock stays on one day of a year of four digits, the
    file name is made of that day and that time: [save_learning_file] returns it under the
    knowledge directory in every state of the file system and of the
    clock, and [get_learning_file_paths] announces the same path. *)
Theorem path_made_of_day_and_session_time (entries : list entry) (sid : string)
    (h m s y mo d : nat) (w w' : world) :
  entries <> [] ->
  nonempty sid = true ->
  strptime_HMS (after_last_hyphen sid) = Some (h, m, s) ->
  stays_on c y mo d ->
  1000 <= y ->
  let filename :=
    "learning-" ++ zero_pad 4 y ++ zero_pad 2 mo ++ zero_pad 2 d ++ "-"
    ++ zero_pad 2 h ++ zero_pad 2 m ++ zero_pad 2 s ++ ".md" in
  fst (save_learning_file c strptime_HMS project_root cwd_basename entries (Some sid) w)
  = Ok (project_root ++ "/knowledge/metacognition/" ++ filename)
  /\ fst (get_learning_file_paths c strptime_HMS project_root entries (Some sid) w')
     = Ok [("absolute", project_root ++ "/knowledge/metacognition/" ++ filename);
           ("relative", "knowledge/metacognition/" ++ filename);
           ("filename", filename)].
Proof.
  intros Hne Hsid Hparse Hday _. cbv zeta.
  destruct (save_writes entries (Some sid) w Hne) as (body & -> & _).
  unfold get_learning_file_paths, knowledge_dir.
  destruct entries as [ | e rest]; [contradiction | ].
  pose proof (file_timestamp_of_session sid h m s y mo d (ticks w') Hsid Hparse Hday) as E'.
  destruct (file_timestamp c strptime_HMS (Some sid) (ticks w')) as [timestamp' tick1'].
  cbn [fst] in E'. subst timestamp'.
  rewrite (file_timestamp_of_session sid h m s y mo d (ticks w) Hsid Hparse Hday).
  cbn [fst]. unfold Clock.strftime_compact. cbn [Clock.year Clock.month Clock.day
    Clock.hour Clock.minute Clock.second].
  rewrite !FormatterMore.append_assoc. split; reflexivity.
Qed.

Lemma write_present fs : forall path content old,
  lookup path fs = Some old -> List.length (write fs path content) = List.length fs.
Proof.
  induction fs as [ | [p x] fs IH]; intros path content old H; [discriminate | ].
  cbn in *. destruct (path =? p); cbn; [reflexivity | ]. f_equal. exact (IH _ _ _ H).
Qed.

(** X13.  Two sessions whose ids end in the same time of day, saved on
    the same day, share one file: the second [save_learning_file] returns
    the path of the first, adds no file, and the file then reads back as
    the second session; what the first session wrote is gone. *)
Theorem same_time_of_day_overwrites (entries1 entries2 : list entry) (sid1 sid2 : string)
    (h m s y mo d : nat) (w : world) :
  entries1 <> [] -> entries2 <> [] ->
  nonempty sid1 = true -> nonempty sid2 = true ->
  strptime_HMS (after_last_hyphen sid1) = Some (h, m, s) ->
  strptime_HMS (after_last_hyphen sid2) = Some (h, m, s) ->
  stays_on c y mo d ->
  one_line sid2 = true -> contains "**Session ID**:" sid2 = false ->
  one_line cwd_basename = true -> contains "**Project**:" cwd_basename = false ->
  let first :=
    save_learning_file c strptime_HMS project_root cwd_basename entries1 (Some sid1) w in
  let second :=
    save_learning_file c strptime_HMS project_root cwd_basename entries2 (Some sid2)
      (snd first) in
  exists filepath loaded,
    fst first = Ok filepath /\ fst second = Ok filepath
    /\ List.length (files (snd second)) = List.length (files (snd first))
    /\ load_learning_file filepath (snd second) = Loaded loaded
    /\ session_id loaded = strip sid2.
Proof.
  intros Hne1 Hne2 Hsid1 Hsid2 Hp1 Hp2 Hday Hline Hmark Hproj Mproj. cbv zeta.
  set (first :=
         save_learning_file c strptime_HMS project_root cwd_basename entries1 (Some sid1) w).
  destruct (save_writes entries1 (Some sid1) w Hne1) as (body1 & P1 & F1).
  destruct (save_writes entries2 (Some sid2) (snd first) Hne2) as (body2 & P2 & F2).
  fold first in P1, F1.
  rewrite (file_timestamp_of_session sid1 h m s y mo d _ Hsid1 Hp1 Hday) in P1, F1.
  rewrite (file_timestamp_of_session sid2 h m s y mo d _ Hsid2 Hp2 Hday) in P2, F2.
  assert (R : forall ts, recorded_session_id (Some sid2) ts = sid2)
    by (intros ts; unfold recorded_session_id; cbn [given or_default];
        now rewrite Hsid2).
  rewrite R in F2.
  eexists _, {| session_id := strip sid2; project := strip cwd_basename;
                start_time := _; learning_entries := [] |}.
  split; [exact P1 | ]. split; [exact P2 | ].
  split; [ | split; [ | reflexivity]].
  - rewrite F2. eapply write_present. rewrite F1. apply StorageSpec.write_has.
  - apply header_read_back with (body := body2); auto using stamp_isoformat.
    rewrite F2. apply StorageSpec.write_has.
Qed.

End WithEnvironment.

(** Witness for X11: a session id with blanks around it, under which the
    file name follows the clock. *)
Lemma saved_file_reads_back_witness :
  exists filepath,
    fst (save_learning_file Clock.demo_clock strptime_demo "/srv/archon/python" "archon"
           [titled_entry] (Some " review 140709 ") empty_world) = Ok filepath
    /\ load_learning_file filepath
         (snd (save_learning_file Clock.demo_clock strptime_demo "/srv/archon/python"
                 "archon" [titled_entry] (Some " review 140709 ") empty_world))
       = Loaded {| session_id := "review 140709"; project := "archon";
                   start_time := "2024-03-05T14:07:09"; learning_entries := [] |}.
Proof.
  apply (saved_file_reads_back Clock.demo_clock strptime_demo "/srv/archon/python" "archon"
           [titled_entry] (Some " review 140709 ") empty_world);
    [discriminate | reflexivity ..].
Defined.

Lemma demo_clock_stays : stays_on Clock.demo_clock 2024 3 5.
Proof. split; [intros t; repeat split | reflexivity]. Defined.

(** Witness for X12. *)
Lemma path_made_of_day_and_session_time_witness :
  fst (save_learning_file Clock.demo_clock strptime_demo "/srv/archon/python" "archon"
         [titled_entry] (Some "external-archon-20240305-140709") empty_world)
  = Ok "/srv/archon/python/knowledge/metacognition/learning-20240305-140709.md"
  /\ fst (get_learning_file_paths Clock.demo_clock strptime_demo "/srv/archon/python"
            [titled_entry] (Some "external-archon-20240305-140709")
            {| files := []; dirs := []; ticks := 40 |})
     = Ok [("absolute",
            "/srv/archon/python/knowledge/metacognition/learning-20240305-140709.md");
           ("relative", "knowledge/metacognition/learning-20240305-140709.md");
           ("filename", "learning-20240305-140709.md")].
Proof.
  apply (path_made_of_day_and_session_time Clock.demo_clock strptime_demo
           "/srv/archon/python" "archon" [titled_entry]
           "external-archon-20240305-140709" 14 7 9 2024 3 5 empty_world
           {| files := []; dirs := []; ticks := 40 |});
    [discriminate | reflexivity | reflexivity | exact demo_clock_stays | lia].
Defined.

(** Witness for X13: the sessions alpha and beta of 14:07:09. *)
Lemma same_time_of_day_overwrites_witness :
  exists filepath loaded,
    fst (save_learning_file Clock.demo_clock strptime_demo "/srv/archon/python" "archon"
           [titled_entry] (Some "alpha-140709") empty_world) = Ok filepath
    /\ fst (save_learning_file Clock.demo_clock strptime_demo "/srv/archon/python" "archon"
              [titled_entry; titled_entry] (Some "beta-140709")
              (snd (save_learning_file Clock.demo_clock strptime_demo "/srv/archon/python"
                      "archon" [titled_entry] (Some "alpha-140709") empty_world)))
       = Ok filepath
    /\ List.length
         (files (snd (save_learning_file Clock.demo_clock strptime_demo
                        "/srv/archon/python" "archon" [titled_entry; titled_entry]
                        (Some "beta-140709")
                        (snd (save_learning_file Clock.demo_clock strptime_demo
                                "/srv/archon/python" "archon" [titled_entry]
                                (Some "alpha-140709") empty_world)))))
       = List.length
           (files (snd (save_learning_file Clock.demo_clock strptime_demo
                          "/srv/archon/python" "archon" [titled_entry]
                          (Some "alpha-140709") empty_world)))
    /\ load_learning_file filepath
         (snd (save_learning_file Clock.demo_clock strptime_demo "/srv/archon/python"
                 "archon" [titled_entry; titled_entry] (Some "beta-140709")
                 (snd (save_learning_file Clock.demo_clock strptime_demo
                         "/srv/archon/python" "archon" [titled_entry]
                         (Some "alpha-140709") empty_world))))
       = Loaded loaded
    /\ session_id loaded = strip "beta-140709".
Proof.
  apply (same_time_of_day_overwrites Clock.demo_clock strptime_demo "/srv/archon/python"
           "archon" [titled_entry] [titled_entry; titled_entry] "alpha-140709"
           "beta-140709" 14 7 9 2024 3 5 empty_world);
    try discriminate; try reflexivity; exact demo_clock_stays.
Defined.

Lemma take_debug n text : take (S n) ("Debug: " ++ text) <> "".
Proof. discriminate. Qed.

(** X14.  The document [_format_entry_for_archon] makes has the keys
    title and content and a title that is never empty.  An entry whose
    synopsis is missing or empty gets the title "Debug: " followed by its
    goal, cut to 120 characters, whether or not it has a title of its
    own.  The content begins with the title as a heading line. *)
Theorem archon_document_title (c : Clock.clock) (e : entry) (sid : string) (tick : nat) :
  let doc := fst (_format_entry_for_archon c e sid tick) in
  keys doc = ["title"; "content"]
  /\ item doc "title" <> ""
  /\ (synopsis_truthy (e_synopsis e) = false ->
      item doc "title"
      = take 120 ("Debug: " ++ sget (or_default (e_situation e) []) "goal" "Learning Entry"))
  /\ startswith (item doc "content") ("# " ++ item doc "title" ++ nl) = true.
Proof.
  cbv zeta. unfold _format_entry_for_archon. cbn [Clock.now fst keys map].
  unfold item, sget. cbn [lookup String.eqb Ascii.eqb Bool.eqb].
  set (fallback :=
         take 120 ("Debug: " ++ match lookup "goal" (or_default (e_situation e) []) with
                                | Some v => v
                                | None => "Learning Entry"
                                end)).
  set (title := match (if synopsis_truthy (e_synopsis e) then _ else None) with
                | Some text => if nonempty text then text else fallback
                | None => fallback
                end).
  split; [reflexivity | ]. split; [ | split].
  - subst title.
    destruct (if synopsis_truthy (e_synopsis e) then _ else None) as [text | ];
      [ | apply take_debug].
    destruct (nonempty text) eqn:N; [ | apply take_debug].
    intros ->. discriminate.
  - intros H. subst title. now rewrite H.
  - cbn [List.concat app]. rewrite join_cons. unfold startswith.
    change ("# " ++ title ++ nl) with (String "#" (String " " (title ++ nl))).
    change (("# " ++ title) ++ nl ++ ?r) with (String "#" (String " " (title ++ nl ++ r))).
    match goal with |- context [title ++ nl ++ ?r] =>
      rewrite <- (FormatterMore.append_assoc title nl r)
    end.
    exact (prefix_app (String "#" (String " " (title ++ nl))) _).
Qed.

(** X15.  Without a service client [store_in_archon_knowledge_base]
    returns no record and calls nothing.  With one it calls the service
    once per entry, in order, and returns one record per entry: the
    record of an entry tells what the call made for that entry did, a
    failure with the text of its exception or a success with the
    document id, and a failure does not stop the entries after it. *)
Theorem one_record_per_entry (c : Clock.clock) (uuid4 : nat -> string) (es : list entry)
    (sid : string) (client : service_client) (st : store_state) :
  let out := store_in_archon_knowledge_base c uuid4 es sid (Some client) st in
  store_in_archon_knowledge_base c uuid4 es sid None st = ([], st)
  /\ List.length (fst out) = List.length es
  /\ st_calls (snd out) = st_calls st + List.length es
  /\ forall k e, nth_error es k = Some e ->
       exists request n,
         rq_session_id request = sid /\ rq_entry_id request = e_id e
         /\ nth_error (fst out) k
            = Some match client (st_calls st + k) request with
                   | inl error =>
                       [("entry_id", opt_text (e_id e)); ("status", PStr "failed");
                        ("error", PStr error)]
                   | inr document_id =>
                       [("entry_id", opt_text (e_id e));
                        ("document_id", PStr (or_default document_id (uuid4 n)));
                        ("status", PStr "success")]
                   end.
Proof.
  cbv zeta. unfold store_in_archon_knowledge_base. split; [reflexivity | ].
  revert st. induction es as [ | e0 rest IH]; intros st.
  - cbn. repeat split; [lia | ]. intros [ | k] e H; discriminate.
  - cbn [store_entries].
    destruct (_format_entry_for_archon c e0 sid (st_ticks st)) as [content tick1].
    cbn [Clock.now].
    set (request := {| rq_content := item content "content" |}).
    set (step := match client (st_calls st) request with inl _ => _ | inr _ => _ end).
    assert (Hcalls : st_calls (snd step) = S (st_calls st))
      by (subst step; destruct (client (st_calls st) request); reflexivity).
    destruct step as [record st1] eqn:Hstep. cbn [snd] in Hcalls.
    specialize (IH st1).
    destruct (store_entries c uuid4 client sid rest st1) as [records st2].
    cbn [fst snd List.length] in *. destruct IH as (Hlen & Hc & Hnth).
    split; [now rewrite Hlen | ]. split; [rewrite Hc, Hcalls; lia | ].
    intros [ | k] e H.
    + injection H as <-. exists request, (st_uuids st).
      split; [reflexivity | ]. split; [reflexivity | ].
      cbn [nth_error]. rewrite Nat.add_0_r. f_equal.
      subst step. destruct (client (st_calls st) request); now injection Hstep as <- _.
    + cbn [nth_error] in *. destruct (Hnth k e H) as (rq & n & Hs & Hid & Hrec).
      exists rq, n. split; [exact Hs | ]. split; [exact Hid | ].
      rewrite Hrec, Hcalls. now replace (st_calls st + S k) with (S (st_calls st) + k) by lia.
Qed.

(** The flaky service on two entries: the first is reported as failed,
    the second stored. *)
Example flaky_service_records :
  fst (store_in_archon_knowledge_base Clock.demo_clock (fun n => "uuid-" ++ str_of_nat n)
         [titled_entry; titled_entry] "alpha-140709" (Some flaky_service)
         {| st_ticks := 0; st_uuids := 0; st_calls := 0 |})
  = [ [("entry_id", PStr "L001"); ("status", PStr "failed");
       ("error", PStr "connection refused")];
      [("entry_id", PStr "L001"); ("document_id", PStr "doc-1");
       ("status", PStr "success")] ].
Proof. vm_compute. reflexivity. Qed.

(** *** Listing *)

Lemma In_insert_sorted x a l : In x (insert_sorted a l) <-> x = a \/ In x l.
Proof.
  induction l as [ | y l IH]; cbn.
  - intuition.
  - destruct (a <=? y)%string; cbn; [intuition | ]. rewrite IH. intuition.
Qed.

Lemma In_sorted x l : In x (sorted l) <-> In x l.
Proof.
  induction l as [ | a l IH]; cbn; [reflexivity | ].
  rewrite In_insert_sorted, IH. intuition.
Qed.

Lemma HdRel_insert a b l :
  in_order b a -> HdRel in_order b l -> HdRel in_order b (insert_sorted a l).
Proof.
  intros Hba H. destruct l as [ | y l]; cbn; [now constructor | ].
  destruct (a <=? y)%string; constructor; [exact Hba | now inversion H].
Qed.

Lemma Sorted_insert a l : Sorted in_order l -> Sorted in_order (insert_sorted a l).
Proof.
  induction l as [ | y l IH]; intros H; cbn.
  - repeat constructor.
  - inversion H as [ | ? ? Hl Hy]; subst.
    destruct (a <=? y)%string eqn:E.
    + constructor; [exact H | constructor; exact E].
    + constructor; [exact (IH Hl) | ].
      apply HdRel_insert; [ | exact Hy].
      destruct (String.leb_total a y) as [T | T]; [congruence | exact T].
Qed.

Lemma Sorted_sorted l : Sorted in_order (sorted l).
Proof. induction l as [ | a l IH]; cbn; [constructor | now apply Sorted_insert]. Qed.

Lemma NoDup_insert a l : ~ In a l -> NoDup l -> NoDup (insert_sorted a l).
Proof.
  induction l as [ | y l IH]; intros Hn H; cbn.
  - repeat constructor. intros [].
  - destruct (a <=? y)%string; [now constructor | ].
    inversion H as [ | ? ? Hy Hl]; subst. constructor.
    + rewrite In_insert_sorted. intros [-> | Hin]; [apply Hn; now left | contradiction].
    + apply IH; [ | exact Hl]. intros Hin. apply Hn. now right.
Qed.

Lemma NoDup_sorted l : NoDup l -> NoDup (sorted l).
Proof.
  induction l as [ | a l IH]; intros H; cbn; [constructor | ].
  inversion H; subst. apply NoDup_insert; [now rewrite In_sorted | now apply IH].
Qed.

Lemma append_inj a : forall x y, a ++ x = a ++ y -> x = y.
Proof. induction a as [ | ch a IH]; cbn; intros x y H; [exact H | ]. injection H. apply IH. Qed.

Lemma NoDup_map_append a l : NoDup l -> NoDup (map (fun x => a ++ x) l).
Proof.
  induction l as [ | x l IH]; intros H; cbn; [constructor | ].
  inversion H as [ | ? ? Hx Hl]; subst. constructor; [ | now apply IH].
  rewrite in_map_iff. intros (y & Hy & Hin). apply append_inj in Hy. now subst y.
Qed.

Lemma drop_app a : forall b, drop (String.length a) (a ++ b) = b.
Proof. induction a as [ | ch a IH]; intros b; cbn; [now destruct b | apply IH]. Qed.

Lemma substring_all s : substring 0 (String.length s) s = s.
Proof. induction s as [ | ch s IH]; cbn; [reflexivity | now rewrite IH]. Qed.

Lemma substring_app a : forall s, substring (String.length a) (String.length s) (a ++ s) = s.
Proof. induction a as [ | ch a IH]; intros s; cbn; [apply substring_all | apply IH]. Qed.

Lemma endswith_app a s : endswith (a ++ s) s = true.
Proof.
  unfold endswith. rewrite FormatterSpec.length_app.
  replace (String.length a + String.length s - String.length s) with (String.length a)
    by lia.
  rewrite substring_app, String.eqb_refl, andb_true_r. apply Nat.leb_le. lia.
Qed.

Lemma write_in fs : forall path content, In path (map fst (write fs path content)).
Proof.
  induction fs as [ | [p old] fs IH]; intros path content; cbn; [now left | ].
  destruct (String.eqb_spec path p) as [-> | _]; cbn; [now left | right; apply IH].
Qed.

(** The name of a learning file holds no slash. *)
Lemma learning_name_is_one_component stamp :
  all_chars stamp_char stamp = true ->
  first_component ("learning-" ++ stamp ++ ".md") = "learning-" ++ stamp ++ ".md".
Proof.
  intros H. unfold first_component, split_sep. rewrite split_sep_none; [reflexivity | ].
  apply (contains_excluded (fun ch => negb (code ch =? 47)%nat)); [reflexivity | ].
  rewrite !FormatterMore.all_chars_app.
  rewrite (all_chars_weaken stamp_char _ stamp); [reflexivity | | exact H].
  intros ch. destruct ch as [[] [] [] [] [] [] [] []]; vm_compute; congruence.
Qed.

Lemma learning_name_matches stamp :
  matches_learning ("learning-" ++ stamp ++ ".md") = true.
Proof.
  unfold matches_learning, startswith. rewrite prefix_app.
  rewrite <- FormatterMore.append_assoc, endswith_app.
  apply Nat.leb_le. rewrite !FormatterSpec.length_app. cbn [String.length]. lia.
Qed.

(** The first component of a path holds no slash. *)
Lemma first_piece_no_slash s : forall piece,
  contains "/" piece = false ->
  contains "/" (nth 0 (split_sep_from "/" 0 piece s) "") = false.
Proof.
  induction s as [ | ch s IH]; intros piece H; cbn [split_sep_from nth]; [exact H | ].
  destruct (String.prefix "/" (String ch s)) eqn:P; [exact H | ].
  apply IH. rewrite contains_char_app, H. cbn [contains orb].
  now rewrite (prefix_one_char _ ch "" s), P.
Qed.

Lemma first_component_no_slash relative : contains "/" (first_component relative) = false.
Proof. apply first_piece_no_slash. reflexivity. Qed.

(** X16.  [list_learning_files] returns its paths in ascending order and
    each once; every one of them is a name of the knowledge directory
    that begins with "learning-" and ends with ".md". *)
Theorem listing_is_sorted_and_matches (project_root : string) (w : world) :
  Sorted in_order (list_learning_files project_root w)
  /\ NoDup (list_learning_files project_root w)
  /\ forall path,
       In path (list_learning_files project_root w) ->
       exists name,
         path = knowledge_dir project_root ++ "/" ++ name
         /\ startswith name "learning-" = true /\ endswith name ".md" = true
         /\ contains "/" name = false.
Proof.
  unfold list_learning_files.
  destruct (path_exists w (knowledge_dir project_root)); cbn [negb].
  - split; [apply Sorted_sorted | ]. split.
    + apply NoDup_sorted.
      pose proof (NoDup_map_append (knowledge_dir project_root ++ "/")
                    (filter matches_learning (listdir w (knowledge_dir project_root)))
                    (NoDup_filter matches_learning (NoDup_nodup string_dec _))) as H.
      erewrite map_ext; [exact H | ].
      intros name. now rewrite FormatterMore.append_assoc.
    + intros path H. apply (proj1 (In_sorted _ _)) in H. apply in_map_iff in H as (name & <- & H).
      apply filter_In in H as [Hin Hm]. exists name. split; [reflexivity | ].
      unfold matches_learning in Hm.
      apply andb_true_iff in Hm as [Hm _]. apply andb_true_iff in Hm as [Hs He].
      split; [exact Hs | ]. split; [exact He | ].
      unfold listdir in Hin. apply nodup_In in Hin.
      apply in_flat_map in Hin as (q & _ & Hq).
      destruct (startswith q (knowledge_dir project_root ++ "/")); [ | destruct Hq].
      destruct Hq as [<- | []].
      apply first_component_no_slash.
  - split; [constructor | ]. split; [constructor | intros path []].
Qed.

Lemma learning_file_listed project_root stamp (w : world) :
  all_chars stamp_char stamp = true ->
  In (knowledge_dir project_root ++ "/" ++ "learning-" ++ stamp ++ ".md")
     (map fst (files w)) ->
  In (knowledge_dir project_root ++ "/" ++ "learning-" ++ stamp ++ ".md")
     (list_learning_files project_root w).
Proof.
  intros Hstamp Hfile.
  set (kd := knowledge_dir project_root) in *.
  set (name := "learning-" ++ stamp ++ ".md") in *.
  assert (Hin : In (kd ++ "/" ++ name) (paths w)).
  { unfold paths. apply in_or_app. now left. }
  assert (Hunder : startswith (kd ++ "/" ++ name) (kd ++ "/") = true).
  { unfold startswith. rewrite <- (FormatterMore.append_assoc kd "/" name).
    apply prefix_app. }
  unfold list_learning_files. fold kd.
  replace (path_exists w kd) with true.
  2:{ symmetry. apply existsb_exists. exists (kd ++ "/" ++ name).
      split; [exact Hin | ]. rewrite Hunder. apply orb_true_r. }
  cbn [negb]. apply In_sorted. apply in_map_iff. exists name. split; [reflexivity | ].
  apply filter_In. split; [ | apply learning_name_matches].
  unfold listdir. apply nodup_In. apply in_flat_map. exists (kd ++ "/" ++ name).
  split; [exact Hin | ]. rewrite Hunder. left.
  rewrite <- (FormatterMore.append_assoc kd "/" name).
  replace (String.length kd + 1) with (String.length (kd ++ "/"))
    by (rewrite FormatterSpec.length_app; reflexivity).
  rewrite drop_app. now apply learning_name_is_one_component.
Qed.

(** X17.  The file [save_learning_file] has written is among the paths
    [list_learning_files] returns afterwards. *)
Theorem saved_file_is_listed (c : Clock.clock)
    (strptime_HMS : string -> option (nat * nat * nat)) (project_root cwd_basename : string)
    (entries : list entry) (sid : option string) (w : world) :
  entries <> [] ->
  let saved := save_learning_file c strptime_HMS project_root cwd_basename entries sid w in
  exists filepath,
    fst saved = Ok filepath
    /\ In filepath (list_learning_files project_root (snd saved)).
Proof.
  intros Hne. cbv zeta.
  destruct (save_writes c strptime_HMS project_root cwd_basename entries sid w Hne)
    as (body & Hpath & Hfiles).
  eexists. split; [exact Hpath | ].
  apply learning_file_listed; [apply stamp_strftime | ].
  rewrite Hfiles. apply write_in.
Qed.

(** Witness for X17. *)
Lemma saved_file_is_listed_witness :
  exists filepath,
    fst (save_learning_file Clock.demo_clock strptime_demo "/srv/archon/python" "archon"
           [titled_entry] (Some "alpha-140709") empty_world) = Ok filepath
    /\ In filepath
         (list_learning_files "/srv/archon/python"
            (snd (save_learning_file Clock.demo_clock strptime_demo "/srv/archon/python"
                    "archon" [titled_entry] (Some "alpha-140709") empty_world))).
Proof.
  apply (saved_file_is_listed Clock.demo_clock strptime_demo "/srv/archon/python" "archon"
           [titled_entry] (Some "alpha-140709") empty_world).
  discriminate.
Defined.

(** Two files and a directory of notes: the listing is in order. *)
Example listing_in_order :
  list_learning_files "/srv"
    {| files := [("/srv/knowledge/metacognition/learning-20240305-140709.md", "b");
                 ("/srv/knowledge/metacognition/notes/learning-1.md", "n");
                 ("/srv/knowledge/metacognition/learning-20240101-000000.md", "a");
                 ("/srv/knowledge/metacognition/readme.md", "r")];
       dirs := ["/srv/knowledge"; "/srv/knowledge/metacognition";
                "/srv/knowledge/metacognition/notes"];
       ticks := 0 |}
  = ["/srv/knowledge/metacognition/learning-20240101-000000.md";
     "/srv/knowledge/metacognition/learning-20240305-140709.md"].
Proof. vm_compute. reflexivity. Qed.

End StorageMore.

(** ** [mcp_server.py]: health checks and startup *)

Module LifespanMore.
Import Mcp Lifespan.

Lemma get_set_key d k v k' :
  get (set_key d k v) k' = if k' =? k then v else get d k'.
Proof.
  unfold get, get_default. induction d as [ | [k0 v0] d IH]; cbn [set_key lookup].
  - now destruct (k' =? k).
  - destruct (String.eqb_spec k k0) as [-> | Hne]; cbn [lookup].
    + now destruct (k' =? k0).
    + destruct (String.eqb_spec k' k0) as [-> | Hne'].
      * destruct (String.eqb_spec k0 k); [congruence | reflexivity].
      * exact IH.
Qed.

Section Server.

Variable Time : Type.
Variable SessionManager : Type.
Variable ServiceClient : Type.
Variable c : Clock.clock.
Variable time_time : nat -> Time.
Variable get_session_manager : nat -> exn + SessionManager.
Variable get_mcp_service_client : nat -> exn + ServiceClient.
Variable health_check : ServiceClient -> nat -> outcome.

(** X18.  [perform_health_checks] never raises and always records the
    time of the check.  The status is "healthy" or "degraded" as the
    service's answer has a true "api_service" or not, whatever it says of
    "agents_service"; it is "unhealthy" when the service's check raises or
    answers with something that is no dictionary, and then the two
    service flags keep the values of the check before. *)
Theorem health_status_after_check (context : ArchonContext Time ServiceClient)
    (p : process Time ServiceClient) :
  let checked := fst (perform_health_checks c health_check context p) in
  let before := health_status context in
  let after := health_status checked in
  service_client checked = service_client context
  /\ startup_time checked = startup_time context
  /\ get after "last_health_check" = PStr (Clock.isoformat (c (ticks p)))
  /\ In (get after "status") statuses
  /\ match health_check (service_client context) (health_calls p) with
     | Return (PDict d) =>
         get after "api_service" = get_default d "api_service" (PBool false)
         /\ get after "agents_service" = get_default d "agents_service" (PBool false)
         /\ get after "status"
            = PStr (if truthy (get_default d "api_service" (PBool false)) then "healthy"
                    else "degraded")
     | _ =>
         get after "status" = PStr "unhealthy"
         /\ get after "api_service" = get before "api_service"
         /\ get after "agents_service" = get before "agents_service"
     end.
Proof.
  cbv zeta. unfold perform_health_checks. cbn [Clock.now fst service_client startup_time
    health_status].
  split; [reflexivity | ]. split; [reflexivity | ].
  destruct (health_check (service_client context) (health_calls p)) as [v | e];
    [destruct v as [ | b | z | f | s | l | d] | ];
    rewrite ?get_set_key; cbn [String.eqb Ascii.eqb Bool.eqb];
    try (split; [reflexivity | ]; split; [cbn; tauto | ]; repeat split; reflexivity).
  split; [reflexivity | ].
  destruct (truthy (get_default d "api_service" (PBool false)));
    (split; [cbn; tauto | ]); repeat split; reflexivity.
Qed.

(** The status of a context that [perform_health_checks] has checked. *)
Lemma checked_status (context : ArchonContext Time ServiceClient)
    (p : process Time ServiceClient) :
  In (get (health_status (fst (perform_health_checks c health_check context p))) "status")
     statuses.
Proof.
  unfold perform_health_checks. cbn [Clock.now fst health_status].
  destruct (health_check (service_client context) (health_calls p)) as [v | e];
    [destruct v as [ | b | z | f | s | l | d] | ];
    rewrite ?get_set_key; cbn [String.eqb Ascii.eqb Bool.eqb]; try (cbn; tauto).
  destruct (truthy (get_default d "api_service" (PBool false))); cbn; tauto.
Qed.

(** X19.  Entering [lifespan] raises only the exception of
    [get_session_manager] or of [get_mcp_service_client], never because
    of the health check, and then leaves the two globals as they were.
    When it yields a context, that context is the shared one, its status
    is one of the three, and the next entry yields the same context and
    calls nothing. *)
Theorem lifespan_creates_the_context_once (p : process Time ServiceClient) :
  let entered :=
    lifespan c time_time get_session_manager get_mcp_service_client health_check p in
  match fst entered with
  | inr context =>
      _initialization_complete (snd entered) = true
      /\ _shared_context (snd entered) = Some context
      /\ lifespan c time_time get_session_manager get_mcp_service_client health_check
           (snd entered)
         = (inr context, snd entered)
      /\ (snd entered = p
          \/ In (get (health_status context) "status") statuses
             /\ exists manager client,
                  get_session_manager (manager_calls p) = inr manager
                  /\ get_mcp_service_client (client_calls p) = inr client
                  /\ service_client context = client
                  /\ startup_time context = time_time (time_reads p))
  | inl e =>
      _initialization_complete (snd entered) = _initialization_complete p
      /\ _shared_context (snd entered) = _shared_context p
      /\ health_calls (snd entered) = health_calls p
      /\ (get_session_manager (manager_calls p) = inl e
          \/ get_mcp_service_client (client_calls p) = inl e)
  end.
Proof.
  cbv zeta.
  assert (Shared : forall q context,
            _initialization_complete q = true -> _shared_context q = Some context ->
            lifespan c time_time get_session_manager get_mcp_service_client health_check q
            = (inr context, q)).
  { intros q context Hq Hx. unfold lifespan. now rewrite Hq, Hx. }
  assert (Fresh :
            (_initialization_complete p = true -> _shared_context p = None) ->
            match fst (lifespan c time_time get_session_manager get_mcp_service_client
                         health_check p) with
            | inr context =>
                _initialization_complete
                  (snd (lifespan c time_time get_session_manager get_mcp_service_client
                          health_check p)) = true
                /\ _shared_context
                     (snd (lifespan c time_time get_session_manager get_mcp_service_client
                             health_check p)) = Some context
                /\ In (get (health_status context) "status") statuses
                /\ exists manager client,
                     get_session_manager (manager_calls p) = inr manager
                     /\ get_mcp_service_client (client_calls p) = inr client
                     /\ service_client context = client
                     /\ startup_time context = time_time (time_reads p)
            | inl e =>
                _initialization_complete
                  (snd (lifespan c time_time get_session_manager get_mcp_service_client
                          health_check p)) = _initialization_complete p
                /\ _shared_context
                     (snd (lifespan c time_time get_session_manager get_mcp_service_client
                             health_check p)) = _shared_context p
                /\ health_calls
                     (snd (lifespan c time_time get_session_manager get_mcp_service_client
                             health_check p)) = health_calls p
                /\ (get_session_manager (manager_calls p) = inl e
                    \/ get_mcp_service_client (client_calls p) = inl e)
            end).
  { intros Hnone.
    assert (E : lifespan c time_time get_session_manager get_mcp_service_client
                  health_check p
                = match get_session_manager (manager_calls p) with
                  | inl e =>
                      (inl e,
                       {| _initialization_complete := _initialization_complete p;
                          _shared_context := _shared_context p;
                          ticks := ticks p; time_reads := time_reads p;
                          manager_calls := S (manager_calls p);
                          client_calls := client_calls p;
                          health_calls := health_calls p |})
                  | inr _ =>
                      match get_mcp_service_client (client_calls p) with
                      | inl e =>
                          (inl e,
                           {| _initialization_complete := _initialization_complete p;
                              _shared_context := _shared_context p;
                              ticks := ticks p; time_reads := time_reads p;
                              manager_calls := S (manager_calls p);
                              client_calls := S (client_calls p);
                              health_calls := health_calls p |})
                      | inr client =>
                          let checked :=
                            perform_health_checks c health_check
                              {| service_client := client;
                                 health_status :=
                                   [("status", PStr "healthy"); ("api_service", PBool false);
                                    ("agents_service", PBool false);
                                    ("last_health_check", PNone)];
                                 startup_time := time_time (time_reads p) |}
                              {| _initialization_complete := _initialization_complete p;
                                 _shared_context := _shared_context p;
                                 ticks := ticks p; time_reads := S (time_reads p);
                                 manager_calls := S (manager_calls p);
                                 client_calls := S (client_calls p);
                                 health_calls := health_calls p |} in
                          (inr (fst checked),
                           {| _initialization_complete := true;
                              _shared_context := Some (fst checked);
                              ticks := ticks (snd checked);
                              time_reads := time_reads (snd checked);
                              manager_calls := manager_calls (snd checked);
                              client_calls := client_calls (snd checked);
                              health_calls := health_calls (snd checked) |})
                      end
                  end).
    { unfold lifespan.
      destruct (_initialization_complete p) eqn:Hc.
      - rewrite (Hnone eq_refl).
        destruct (get_session_manager (manager_calls p)); [reflexivity | ].
        destruct (get_mcp_service_client (client_calls p)); reflexivity.
      - destruct (_shared_context p);
          (destruct (get_session_manager (manager_calls p)); [reflexivity | ]);
          destruct (get_mcp_service_client (client_calls p)); reflexivity. }
    rewrite E. clear E.
    destruct (get_session_manager (manager_calls p)) as [e | manager].
    { cbn. repeat split. now left. }
    destruct (get_mcp_service_client (client_calls p)) as [e | client].
    { cbn. repeat split. now right. }
    cbv zeta. cbn [fst snd _initialization_complete _shared_context].
    split; [reflexivity | ]. split; [reflexivity | ].
    split; [apply checked_status | ].
    exists manager, client. repeat split. }
  destruct (_initialization_complete p) eqn:Hc.
  - destruct (_shared_context p) as [shared | ] eqn:Hs.
    + rewrite (Shared p shared Hc Hs). cbn [fst snd].
      split; [exact Hc | ]. split; [exact Hs | ]. split; [apply Shared; assumption | ].
      now left.
    + specialize (Fresh (fun _ => eq_refl)).
      destruct (lifespan c time_time get_session_manager get_mcp_service_client
                  health_check p) as [[e | context] p'].
      * exact Fresh.
      * cbn [fst snd] in *. destruct Fresh as (F1 & F2 & F3 & F4).
        split; [exact F1 | ]. split; [exact F2 | ].
        split; [now apply Shared | ]. right. split; assumption.
  - specialize (Fresh (fun H => False_ind _ (Bool.diff_false_true H))).
    destruct (lifespan c time_time get_session_manager get_mcp_service_client
                health_check p) as [[e | context] p'].
    + exact Fresh.
    + cbn [fst snd] in *. destruct Fresh as (F1 & F2 & F3 & F4).
      split; [exact F1 | ]. split; [exact F2 | ].
      split; [now apply Shared | ]. right. split; assumption.
Qed.

End Server.

End LifespanMore.

(** ** [session_analyzer.py]: what is extracted, and the pipeline to a file *)

Module AnalyzerMore.
Import Text Formatter Storage Analyzer.

Lemma nonempty_false s : nonempty s = false -> s = "".
Proof. unfold nonempty. intros H. apply negb_false_iff in H. now apply String.eqb_eq. Qed.

Lemma nonempty_not_blank s : nonempty s = true -> s <> "".
Proof. unfold nonempty. intros H ->. discriminate. Qed.

Lemma error_matches_spec groups : forall experiences,
  exists added,
    error_matches groups experiences = (experiences ++ added)%list
    /\ Forall found_error added
    /\ (added = [] <-> Forall blank groups).
Proof.
  induction groups as [ | group rest IH]; intros experiences; cbn [error_matches].
  - exists []. rewrite app_nil_r. repeat split; constructor.
  - destruct (nonempty (strip group)) eqn:N.
    + destruct (IH (experiences ++ [error_experience (strip group)])%list)
        as (added & E & F & B).
      exists (error_experience (strip group) :: added).
      rewrite E, <- app_assoc. split; [reflexivity | ]. split.
      * constructor; [ | exact F]. eexists. split; [reflexivity | ].
        now apply nonempty_not_blank.
      * split; [discriminate | ]. intros H. inversion H as [ | ? ? Hb _]; subst.
        unfold blank in Hb. rewrite Hb in N. discriminate.
    + destruct (IH experiences) as (added & E & F & B).
      exists added. split; [exact E | ]. split; [exact F | ]. split.
      * intros H. constructor; [now apply nonempty_false | now apply B].
      * intros H. inversion H; subst. now apply B.
Qed.

Lemma has_solution_false solution e :
  has_solution solution e = false -> solution_applied e <> Some solution.
Proof.
  unfold has_solution. destruct (solution_applied e) as [text | ]; [ | discriminate].
  intros H E. injection E as ->. now rewrite String.eqb_refl in H.
Qed.

Lemma solution_matches_spec groups : forall experiences,
  exists added,
    solution_matches groups experiences = (experiences ++ added)%list
    /\ Forall found_solution added
    /\ NoDup (map solution_applied added)
    /\ (forall e e', In e added -> In e' experiences ->
        solution_applied e' <> solution_applied e)
    /\ (Forall blank groups -> added = [])
    /\ (added = [] -> experiences = [] -> Forall blank groups).
Proof.
  induction groups as [ | group rest IH]; intros experiences; cbn [solution_matches].
  - exists []. rewrite app_nil_r.
    repeat split; try constructor; intros; contradiction.
  - destruct (nonempty (strip group)
              && negb (existsb (has_solution (strip group)) experiences)) eqn:C.
    + apply andb_true_iff in C as [N X]. apply negb_true_iff in X.
      destruct (IH (experiences ++ [solution_experience (strip group)])%list)
        as (added & E & F & D & O & B1 & B2).
      exists (solution_experience (strip group) :: added).
      rewrite E, <- app_assoc. split; [reflexivity | ]. split.
      { constructor; [ | exact F]. eexists. split; [reflexivity | ].
        now apply nonempty_not_blank. }
      split.
      { cbn [map]. constructor; [ | exact D].
        rewrite in_map_iff. intros (e & He & Hin).
        apply (O e (solution_experience (strip group)) Hin).
        - apply in_or_app. right. now left.
        - now rewrite He. }
      split.
      { intros e e' [<- | Hin] Hin'.
        - cbn. apply has_solution_false.
          rewrite <- not_true_iff_false in X. destruct (has_solution (strip group) e') eqn:Hh;
            [ | reflexivity].
          exfalso. apply X. apply existsb_exists. now exists e'.
        - apply (O e e' Hin). apply in_or_app. now left. }
      split.
      { intros H. inversion H as [ | ? ? Hb _]; subst.
        unfold blank in Hb. rewrite Hb in N. discriminate. }
      discriminate.
    + destruct (IH experiences) as (added & E & F & D & O & B1 & B2).
      exists added. split; [exact E | ]. split; [exact F | ]. split; [exact D | ].
      split; [exact O | ]. split.
      * intros H. inversion H; subst. now apply B1.
      * intros Ha He. constructor; [ | now apply B2].
        subst experiences. cbn in C. rewrite andb_true_r in C. now apply nonempty_false.
Qed.

Section Session.

Variable finditer : string -> string -> list string.
Variable content : string.

Lemma all_blank_cons pattern patterns :
  all_blank finditer content (pattern :: patterns)
  <-> Forall blank (finditer pattern content) /\ all_blank finditer content patterns.
Proof.
  unfold all_blank. split.
  - intros H. split.
    + apply Forall_forall. intros group Hg. apply (H pattern group); [now left | exact Hg].
    + intros p g Hp Hg. apply (H p g); [now right | exact Hg].
  - intros [H1 H2] p g [<- | Hp] Hg.
    + rewrite Forall_forall in H1. now apply H1.
    + now apply (H2 p g).
Qed.

Lemma error_fold patterns : forall experiences,
  exists added,
    fold_left (fun experiences pattern =>
                 error_matches (finditer pattern content) experiences)
      patterns experiences
    = (experiences ++ added)%list
    /\ Forall found_error added
    /\ (added = [] <-> all_blank finditer content patterns).
Proof.
  induction patterns as [ | pattern rest IH]; intros experiences; cbn [fold_left].
  - exists []. rewrite app_nil_r. repeat split; try constructor.
    intros _ p g [].
  - destruct (error_matches_spec (finditer pattern content) experiences)
      as (a1 & E1 & F1 & B1).
    destruct (IH (error_matches (finditer pattern content) experiences))
      as (a2 & E2 & F2 & B2).
    exists (a1 ++ a2)%list. rewrite E2, E1, <- app_assoc.
    split; [reflexivity | ]. split; [now apply Forall_app | ].
    rewrite all_blank_cons, <- B1, <- B2. split.
    + intros H. apply app_eq_nil in H. exact H.
    + intros [-> ->]. reflexivity.
Qed.

Lemma solution_fold patterns : forall experiences,
  exists added,
    fold_left (fun experiences pattern =>
                 solution_matches (finditer pattern content) experiences)
      patterns experiences
    = (experiences ++ added)%list
    /\ Forall found_solution added
    /\ NoDup (map solution_applied added)
    /\ (forall e e', In e added -> In e' experiences ->
        solution_applied e' <> solution_applied e)
    /\ (all_blank finditer content patterns -> added = [])
    /\ (added = [] -> experiences = [] -> all_blank finditer content patterns).
Proof.
  induction patterns as [ | pattern rest IH]; intros experiences; cbn [fold_left].
  - exists []. rewrite app_nil_r.
    repeat split; try constructor; try (intros; contradiction).
    intros _ _ p g [].
  - destruct (solution_matches_spec (finditer pattern content) experiences)
      as (a1 & E1 & F1 & D1 & O1 & B1 & C1).
    destruct (IH (solution_matches (finditer pattern content) experiences))
      as (a2 & E2 & F2 & D2 & O2 & B2 & C2).
    exists (a1 ++ a2)%list. rewrite E2, E1, <- app_assoc.
    split; [reflexivity | ]. split; [now apply Forall_app | ]. split.
    { rewrite map_app. apply NoDup_app; [exact D1 | exact D2 | ].
      intros x H1 H2. apply in_map_iff in H1 as (e1 & <- & I1).
      apply in_map_iff in H2 as (e2 & He & I2).
      apply (O2 e2 e1 I2); [ | now rewrite He].
      rewrite E1. apply in_or_app. now right. }
    split.
    { intros e e' H He'. apply in_app_or in H as [H | H].
      - now apply (O1 e e').
      - apply (O2 e e' H). rewrite E1. apply in_or_app. now left. }
    rewrite all_blank_cons. split.
    + intros [H1 H2]. now rewrite (B1 H1), (B2 H2).
    + intros H He. apply app_eq_nil in H as [-> ->]. subst experiences. split.
      * now apply C1.
      * apply C2; [reflexivity | ]. rewrite E1. reflexivity.
Qed.

(** X20.  [_parse_session_content] returns the experiences made of the
    error matches, each with a description that is not empty, followed by
    those made of the solution matches, each with a solution that is not
    empty; no two of the latter have the same solution and none repeats
    the solution of an experience before it.  It returns no experience
    exactly when no match of the seven patterns has a group with a
    character that is not whitespace. *)
Theorem parsed_experiences :
  exists errors solutions,
    _parse_session_content finditer content = (errors ++ solutions)%list
    /\ Forall found_error errors
    /\ Forall found_solution solutions
    /\ NoDup (map solution_applied solutions)
    /\ (forall e e', In e solutions -> In e' errors ->
        solution_applied e' <> solution_applied e)
    /\ (_parse_session_content finditer content = [] <-> nothing_found finditer content).
Proof.
  unfold _parse_session_content.
  destruct (error_fold error_patterns []) as (errors & E1 & F1 & B1).
  cbn [app] in E1. rewrite E1.
  destruct (solution_fold solution_patterns errors) as (solutions & E2 & F2 & D2 & O2 & B2 & C2).
  rewrite E2. exists errors, solutions.
  split; [reflexivity | ]. split; [exact F1 | ]. split; [exact F2 | ].
  split; [exact D2 | ]. split; [exact O2 | ].
  unfold nothing_found, all_blank. split.
  - intros H. apply app_eq_nil in H as [He Hs]. intros p g Hp Hg.
    apply in_app_or in Hp as [Hp | Hp].
    + now apply (proj1 B1 He p g).
    + now apply (C2 Hs He p g).
  - intros H.
    assert (He : errors = []).
    { apply B1. intros p g Hp Hg. apply (H p g); [ | exact Hg]. apply in_or_app. now left. }
    assert (Hs : solutions = []).
    { apply B2. intros p g Hp Hg. apply (H p g); [ | exact Hg]. apply in_or_app. now right. }
    now rewrite He, Hs.
Qed.

End Session.

Lemma save_raises_iff_empty c strptime_HMS project_root cwd_basename
    (entries : list entry) sid w :
  raises_ValueError
    (fst (save_learning_file c strptime_HMS project_root cwd_basename entries sid w))
  <-> entries = [].
Proof.
  unfold save_learning_file, raises_ValueError. destruct entries as [ | e rest].
  - cbn. split; [reflexivity | eauto].
  - destruct (file_timestamp c strptime_HMS sid (ticks w)).
    match goal with |- context [_generate_markdown_content ?k ?a ?b ?i ?j ?l] =>
      destruct (_generate_markdown_content k a b i j l)
    end.
    cbn. split; [intros [msg H]; discriminate | discriminate].
Qed.

Lemma potential_problems_at_most_three getcwd w problems :
  _identify_potential_problems getcwd w = Done problems -> List.length problems <= 3.
Proof.
  unfold _identify_potential_problems. destruct getcwd as [msg | cwd]; [discriminate | ].
  intros H. injection H as <-.
  unfold _check_js_common_issues, _check_python_common_issues, _check_git_common_issues.
  repeat match goal with |- context [if ?b then _ else _] => destruct b end;
    cbn; lia.
Qed.

Section Pipeline.

Variable py_str : entry -> string.
Variable c : Clock.clock.
Variable strptime_HMS : string -> option (nat * nat * nat).
Variable project_root : string.
Variable cwd_basename : string.
Variable getcwd : string + string.
Variable finditer : string -> string -> list string.


End Pipeline.

(** A transcript of one line: one experience, one entry, one file. *)
Example one_line_transcript :
  _parse_session_content finditer_demo "error: the crawler did not start"
  = [error_experience "the crawler did not start"].
Proof. vm_compute. reflexivity. Qed.

End AnalyzerMore.

(** ** [crawler_manager.py]: the text of the fallback crawler *)

Module FallbackMore.
Import Text Fallback TextFacts.

(** *** Characters kept *)

Lemma all_chars_lstrip p s : all_chars p s = true -> all_chars p (lstrip s) = true.
Proof.
  induction s as [ | c s IH]; [reflexivity | ]. cbn [lstrip].
  destruct (is_space c); [ | trivial]. cbn. intros H.
  apply andb_true_iff in H as [_ H]. now apply IH.
Qed.

Lemma all_chars_rstrip p s : all_chars p s = true -> all_chars p (rstrip s) = true.
Proof.
  induction s as [ | c s IH]; [reflexivity | ]. cbn [all_chars rstrip].
  intros H. apply andb_true_iff in H as [Hc Hs]. specialize (IH Hs).
  destruct (rstrip s) as [ | c' kept].
  - destruct (is_space c); [reflexivity | cbn; now rewrite Hc].
  - change (p c && all_chars p (String c' kept) = true). now rewrite Hc, IH.
Qed.

Lemma all_chars_strip p s : all_chars p s = true -> all_chars p (strip s) = true.
Proof. intros H. now apply all_chars_rstrip, all_chars_lstrip. Qed.

Lemma all_chars_split_sep p sep s : forall skip piece,
  all_chars p piece = true -> all_chars p s = true ->
  Forall (fun x => all_chars p x = true) (split_sep_from sep skip piece s).
Proof.
  induction s as [ | c s IH]; intros skip piece Hp Hs; cbn [split_sep_from].
  - now constructor.
  - cbn in Hs. apply andb_true_iff in Hs as [Hc Hs].
    destruct skip as [ | k]; [ | now apply IH].
    destruct (String.prefix sep (String c s)).
    + constructor; [exact Hp | now apply IH].
    + apply IH; [ | exact Hs]. rewrite FormatterMore.all_chars_app, Hp. cbn. now rewrite Hc.
Qed.

Lemma no_break_splitlines_step s :
  (forall line, no_break line = true ->
   Forall (fun x => no_break x = true) (splitlines_from line s))
  /\ (forall c line, no_break line = true ->
      Forall (fun x => no_break x = true) (splitlines_from line (String c s))).
Proof.
  unfold no_break.
  assert (Grow : forall line c,
            all_chars (fun c => negb (is_linebreak c)) line = true ->
            is_linebreak c = false ->
            all_chars (fun c => negb (is_linebreak c)) (line ++ String c "") = true).
  { intros line c Hl B. rewrite FormatterMore.all_chars_app, Hl. cbn. now rewrite B. }
  induction s as [ | c0 s [IH1 IH2]].
  - split.
    + intros line Hl. cbn. destruct (line =? ""); now repeat constructor.
    + intros c line Hl. cbn [splitlines_from]. destruct (is_linebreak c) eqn:B.
      * now repeat constructor.
      * cbn. destruct (line ++ String c "" =? ""); repeat constructor. now apply Grow.
  - split; [intros line Hl; now apply IH2 | ].
    intros c line Hl. cbn [splitlines_from]. destruct (is_linebreak c) eqn:B.
    + constructor; [exact Hl | ].
      destruct ((code c =? 13)%nat && (code c0 =? 10)%nat);
        [now apply IH1 | now apply (IH2 c0)].
    + apply (IH2 c0). now apply Grow.
Qed.

Lemma no_break_splitlines s : Forall (fun x => no_break x = true) (splitlines s).
Proof. now apply (proj1 (no_break_splitlines_step s)). Qed.

Lemma all_chars_join p parts :
  p " "%char = true ->
  Forall (fun x => all_chars p x = true) parts ->
  all_chars p (join " " parts) = true.
Proof.
  intros Hp H. induction H as [ | x l Hx Hl IH]; [reflexivity | ].
  destruct l as [ | y l]; [exact Hx | ].
  change (join " " (x :: y :: l)) with (x ++ " " ++ join " " (y :: l)).
  rewrite !FormatterMore.all_chars_app, Hx, IH. cbn. now rewrite Hp.
Qed.

Lemma chunks_no_break text : Forall (fun x => no_break x = true) (chunks_of text).
Proof.
  unfold chunks_of. apply Forall_flat_map. apply Forall_map.
  eapply Forall_impl; [ | apply no_break_splitlines].
  intros line Hl. apply Forall_map. unfold no_break in *.
  eapply Forall_impl;
    [ | apply (all_chars_split_sep (fun c => negb (is_linebreak c)) "  " (strip line) 0 ""
                 eq_refl)].
  - intros x Hx. now apply all_chars_strip.
  - now apply all_chars_strip.
Qed.

(** *** Spaces *)

Lemma blank_is_space c : is_blank c = true -> is_space c = true.
Proof. unfold is_blank. intros H. apply Ascii.eqb_eq in H. now subst c. Qed.

Lemma prefix_blank c rest :
  String.prefix " " (String c rest) = is_blank c.
Proof.
  change (String.prefix " " (String c rest))
    with (if ascii_dec " " c then String.prefix "" rest else false).
  unfold is_blank. destruct (ascii_dec " " c) as [<- | Hne].
  - now destruct rest.
  - destruct (Ascii.eqb_spec c " "); [congruence | reflexivity].
Qed.

Lemma prefix_two c rest :
  String.prefix "  " (String c rest) = is_blank c && starts_blank rest.
Proof.
  change (String.prefix "  " (String c rest))
    with (if ascii_dec " " c then String.prefix " " rest else false).
  unfold is_blank at 1. destruct (ascii_dec " " c) as [<- | Hne].
  - cbn [Ascii.eqb Bool.eqb andb]. destruct rest as [ | c2 rest]; [reflexivity | ].
    apply prefix_blank.
  - destruct (Ascii.eqb_spec c " "); [congruence | reflexivity].
Qed.

Lemma contains_double s : contains "  " s = negb (no_double s).
Proof.
  induction s as [ | c s IH]; [reflexivity | ].
  cbn [contains no_double]. rewrite prefix_two, IH, negb_andb, negb_involutive.
  reflexivity.
Qed.

Lemma ends_blank_snoc x c : ends_blank (x ++ String c "") = is_blank c.
Proof.
  induction x as [ | a x IH]; [reflexivity | ]. cbn [append ends_blank].
  destruct (x ++ String c "") eqn:E; [now destruct x | exact IH].
Qed.

Lemma no_double_app x : forall z,
  no_double x = true -> no_double z = true ->
  ends_blank x && starts_blank z = false ->
  no_double (x ++ z) = true.
Proof.
  induction x as [ | c x IH]; intros z Hx Hz Hj; [exact Hz | ].
  cbn [append no_double] in *. apply andb_true_iff in Hx as [Hc Hx].
  destruct x as [ | c' x].
  - change ("" ++ z) with z. change (ends_blank (String c "")) with (is_blank c) in Hj.
    now rewrite Hz, andb_true_r, Hj.
  - rewrite (IH z Hx Hz Hj), andb_true_r. exact Hc.
Qed.

Lemma no_double_split s :
  (forall piece,
     no_double piece = true ->
     (ends_blank piece = true -> starts_blank s = false) ->
     Forall (fun x => no_double x = true) (split_sep_from "  " 0 piece s))
  /\ Forall (fun x => no_double x = true) (split_sep_from "  " 1 "" s).
Proof.
  induction s as [ | c s [IH0 IH1]].
  - split; [intros piece Hp _ | ]; now repeat constructor.
  - split.
    + intros piece Hp He. cbn [split_sep_from]. rewrite prefix_two.
      destruct (is_blank c && starts_blank s) eqn:E.
      * constructor; [exact Hp | exact IH1].
      * apply IH0.
        -- apply no_double_app; [exact Hp | cbn; now rewrite andb_false_r | ].
           change (starts_blank (String c "")) with (starts_blank (String c s)).
           destruct (ends_blank piece); [ | reflexivity].
           now rewrite (He eq_refl).
        -- rewrite ends_blank_snoc. intros Hc. now rewrite Hc in E.
    + cbn [split_sep_from]. apply IH0; [reflexivity | discriminate].
Qed.

Lemma no_double_lstrip s : no_double s = true -> no_double (lstrip s) = true.
Proof.
  induction s as [ | c s IH]; [reflexivity | ]. cbn [lstrip].
  destruct (is_space c); [ | trivial]. cbn [no_double]. intros H.
  apply andb_true_iff in H as [_ H]. now apply IH.
Qed.

Lemma rstrip_head s c kept : rstrip s = String c kept -> exists rest, s = String c rest.
Proof.
  destruct s as [ | a s]; [discriminate | ]. cbn [rstrip].
  destruct (rstrip s); [destruct (is_space a) | ]; intros H; inversion H; eauto.
Qed.

Lemma no_double_rstrip s : no_double s = true -> no_double (rstrip s) = true.
Proof.
  induction s as [ | c s IH]; [reflexivity | ]. cbn [no_double rstrip]. intros H.
  apply andb_true_iff in H as [Hc Hs]. specialize (IH Hs).
  destruct (rstrip s) as [ | c' kept] eqn:R.
  - destruct (is_space c); [reflexivity | cbn; now rewrite andb_false_r].
  - destruct (rstrip_head _ _ _ R) as [rest ->].
    change (negb (is_blank c && starts_blank (String c' kept))
            && no_double (String c' kept) = true).
    now rewrite IH, andb_true_r.
Qed.

Lemma first_ok_lstrip s : first_ok (lstrip s) = true.
Proof.
  induction s as [ | c s IH]; [reflexivity | ]. cbn [lstrip].
  destruct (is_space c) eqn:E; [exact IH | cbn; now rewrite E].
Qed.

Lemma first_ok_rstrip s : first_ok s = true -> first_ok (rstrip s) = true.
Proof.
  destruct s as [ | c s]; [reflexivity | ]. cbn [first_ok rstrip]. intros H.
  apply negb_true_iff in H. destruct (rstrip s); rewrite ?H; cbn; now rewrite H.
Qed.

Lemma last_ok_rstrip s : last_ok (rstrip s) = true.
Proof.
  induction s as [ | c s IH]; [reflexivity | ]. cbn [rstrip].
  destruct (rstrip s) as [ | c' kept].
  - destruct (is_space c) eqn:E; [reflexivity | cbn; now rewrite E].
  - exact IH.
Qed.

Lemma tidy_strip s : no_double s = true -> tidy (strip s) = true.
Proof.
  intros H. unfold tidy, strip.
  rewrite (first_ok_rstrip _ (first_ok_lstrip s)), last_ok_rstrip.
  now rewrite (no_double_rstrip _ (no_double_lstrip _ H)).
Qed.

Lemma chunks_tidy text : Forall (fun x => tidy x = true) (chunks_of text).
Proof.
  unfold chunks_of. apply Forall_flat_map. apply Forall_forall. intros line _.
  apply Forall_map.
  eapply Forall_impl; [ | apply (proj1 (no_double_split line) "" eq_refl); discriminate].
  intros x Hx. now apply tidy_strip.
Qed.

(** *** Joining the chunks *)

Lemma last_ok_app x : forall z, z <> "" -> last_ok (x ++ z) = last_ok z.
Proof.
  induction x as [ | c x IH]; intros z Hz; [reflexivity | ].
  cbn [append last_ok]. destruct (x ++ z) eqn:E.
  - destruct x; [cbn in E; congruence | discriminate].
  - rewrite <- E. now apply IH.
Qed.

Lemma last_ok_not_blank x : last_ok x = true -> ends_blank x = false.
Proof.
  induction x as [ | c x IH]; [reflexivity | ]. cbn [last_ok ends_blank].
  destruct x as [ | c' x]; [ | exact IH].
  intros H. apply negb_true_iff in H. destruct (is_blank c) eqn:B; [ | reflexivity].
  apply blank_is_space in B. congruence.
Qed.

Lemma first_ok_not_blank x : x <> "" -> first_ok x = true -> starts_blank x = false.
Proof.
  destruct x as [ | c x]; [congruence | ]. cbn. intros _ H. apply negb_true_iff in H.
  destruct (is_blank c) eqn:B; [ | reflexivity]. apply blank_is_space in B. congruence.
Qed.

Lemma tidy_join parts :
  Forall (fun x => tidy x = true /\ x <> "") parts -> tidy (join " " parts) = true.
Proof.
  intros H. induction H as [ | x l [Hx Hne] Hl IH]; [reflexivity | ].
  destruct l as [ | y l]; [exact Hx | ].
  change (join " " (x :: y :: l)) with (x ++ " " ++ join " " (y :: l)).
  set (rest := join " " (y :: l)) in *.
  assert (Hrest : rest <> "").
  { inversion Hl as [ | ? ? [_ Hy] _]; subst. subst rest.
    destruct y; [congruence | ]. destruct l; discriminate. }
  unfold tidy in *.
  apply andb_true_iff in Hx as [Hx Hd]. apply andb_true_iff in Hx as [Hf Hlast].
  apply andb_true_iff in IH as [IH Hd']. apply andb_true_iff in IH as [Hf' Hlast'].
  assert (F : first_ok (x ++ " " ++ rest) = true) by (destruct x; [congruence | exact Hf]).
  assert (L : last_ok (x ++ " " ++ rest) = true).
  { rewrite last_ok_app by discriminate.
    change (" " ++ rest) with (String " " rest).
    cbn [last_ok]. destruct rest; [congruence | exact Hlast']. }
  assert (D : no_double (x ++ " " ++ rest) = true).
  { apply no_double_app; [exact Hd | | ].
    - change (" " ++ rest) with (String " " rest). cbn [no_double].
      now rewrite (first_ok_not_blank rest Hrest Hf'), andb_false_r, Hd'.
    - now rewrite (last_ok_not_blank x Hlast). }
  now rewrite F, L, D.
Qed.

Lemma lstrip_first_ok s : first_ok s = true -> lstrip s = s.
Proof.
  destruct s as [ | c s]; [reflexivity | ]. cbn. intros H. apply negb_true_iff in H.
  now rewrite H.
Qed.

Lemma rstrip_last_ok s : last_ok s = true -> rstrip s = s.
Proof.
  induction s as [ | c s IH]; [reflexivity | ]. cbn [last_ok rstrip].
  destruct s as [ | c' s].
  - intros H. apply negb_true_iff in H. cbn. now rewrite H.
  - intros H. now rewrite (IH H).
Qed.

(** The cleaned text has no line break, no two spaces in a row and no
    whitespace at either end. *)
Lemma clean_text_tidy text :
  no_break (clean_text text) = true
  /\ contains "  " (clean_text text) = false
  /\ strip (clean_text text) = clean_text text.
Proof.
  change (clean_text text) with (join " " (filter nonempty (chunks_of text))).
  assert (T : tidy (join " " (filter nonempty (chunks_of text))) = true).
  { apply tidy_join. apply Forall_forall. intros x Hx.
    apply filter_In in Hx as [Hin Hne].
    pose proof (chunks_tidy text) as H. rewrite Forall_forall in H.
    split; [now apply H | ]. intros ->. discriminate. }
  unfold tidy in T. apply andb_true_iff in T as [T D]. apply andb_true_iff in T as [F L].
  split; [ | split].
  - apply all_chars_join; [reflexivity | ].
    apply Forall_forall. intros x Hx. apply filter_In in Hx as [Hin _].
    pose proof (chunks_no_break text) as H. rewrite Forall_forall in H. now apply H.
  - now rewrite contains_double, D.
  - unfold strip. now rewrite (lstrip_first_ok _ F), (rstrip_last_ok _ L).
Qed.

(** X22.  [FallbackCrawler.arun] returns a result and never raises.  A
    successful result carries one text as its markdown, its cleaned_html
    and its html: the text of the page with no line break, no two spaces
    in a row and no whitespace at either end.  A failed result carries
    the text of the exception, three empty texts and the status code 0;
    a call before [__aenter__] fails. *)
Theorem fallback_text_is_tidy (response : Type) (client_get : string -> string + response)
    (raise_for_status : response -> option string) (get_text : response -> string + string)
    (response_status : response -> nat) (entered : bool) (target : string) :
  let r := arun response client_get raise_for_status get_text response_status entered target in
  url r = target
  /\ if success r then
       entered = true
       /\ error r = None /\ cleaned_html r = markdown r /\ html r = markdown r
       /\ no_break (markdown r) = true
       /\ contains "  " (markdown r) = false
       /\ strip (markdown r) = markdown r
     else
       error r <> None /\ markdown r = "" /\ cleaned_html r = "" /\ html r = ""
       /\ status_code r = 0.
Proof.
  cbv zeta. unfold arun.
  destruct entered; cbn [negb]; [ | cbn; repeat split; discriminate].
  destruct (client_get target) as [e | resp]; [cbn; repeat split; discriminate | ].
  destruct (raise_for_status resp) as [e | ]; [cbn; repeat split; discriminate | ].
  destruct (get_text resp) as [e | text]; [cbn; repeat split; discriminate | ].
  cbn [SimpleResult success url error cleaned_html html markdown].
  destruct (clean_text_tidy text) as (H1 & H2 & H3).
  repeat split; assumption.
Qed.

(** Indented lines and runs of spaces. *)
Example cleaned_page :
  clean_text (String (ascii_of_nat 10) "  Title   of  page " ++ String (ascii_of_nat 13)
              (String (ascii_of_nat 10) (String (ascii_of_nat 9) "body text"))
              ++ String (ascii_of_nat 10) "")
  = "Title of page body text".
Proof. vm_compute. reflexivity. Qed.

End FallbackMore.
